(** * Eagle penetration tester: a shallow embedding of
      [security-tests/penetration-tests.py] and its checked properties.

    The tester is a sequential Python program: every check builds a
    request, sends it, inspects status / headers / body and appends one
    record to [self.results].  The embedding keeps that shape:

    - the target service, the wall clock and the time zone rules of the
      machine are an oracle ([world]);
    - the tester instance, the log of requests already sent and the number
      of clock readings are an explicit [state];
    - Python exceptions are the left summand of the result of a
      computation, and [try_catch] is the [try/except Exception] block.
      State changes made before an exception is raised are kept, as in
      Python.

    Console output ([print]) and [time.sleep] are not part of the state:
    nothing in the program reads them back. *)

From Stdlib Require Import String Ascii List ZArith Lia Bool Arith Sorted.
From Stdlib Require Import NArith DecimalString Decimal DecimalZ DecimalPos.
Import ListNotations.

Local Open Scope string_scope.
Local Open Scope list_scope.

Infix "+++" := String.append (right associativity, at level 60).

(** ** Unicode text

    A Python [str] is a sequence of code points; the embedding keeps a
    text as its UTF-8 bytes and reads the code points off them where the
    script works on characters ([s.lower()], [s[:n]]).  The case tables
    are those of Unicode 14.0, the version of CPython 3.11. *)

Module Unicode.

Local Open Scope N_scope.

(** A character of a text: a code point, or a byte that is not part of
    a well-formed UTF-8 sequence (kept as it is). *)
Inductive char :=
| Code (c : N)
| Raw (b : ascii).

Definition continuation (b : N) : bool := ((128 <=? b) && (b <? 192))%bool.

(** The code point a text starts with, and the number of continuation
    bytes of its sequence; [None] when the text does not start with a
    well-formed sequence. *)
Definition leading (s : string) : option (N * nat) :=
  match s with
  | EmptyString => None
  | String a s1 =>
      let x := N_of_ascii a in
      if x <? 128 then Some (x, 0%nat)
      else if x <? 194 then None
      else
        match s1 with
        | EmptyString => None
        | String b s2 =>
            let y := N_of_ascii b in
            if negb (continuation y) then None
            else if x <? 224 then Some ((x - 192) * 64 + (y - 128), 1%nat)
            else
              match s2 with
              | EmptyString => None
              | String c s3 =>
                  let z := N_of_ascii c in
                  if negb (continuation z) then None
                  else if x <? 240 then
                    let cp := (x - 224) * 4096 + (y - 128) * 64 + (z - 128) in
                    if ((cp <? 2048) || ((55296 <=? cp) && (cp <? 57344)))%bool
                    then None
                    else Some (cp, 2%nat)
                  else
                    match s3 with
                    | EmptyString => None
                    | String d _ =>
                        let u := N_of_ascii d in
                        let cp := (x - 240) * 262144 + (y - 128) * 4096
                                  + (z - 128) * 64 + (u - 128) in
                        if (negb (continuation u) || (cp <? 65536)
                            || (1114111 <? cp))%bool
                        then None
                        else Some (cp, 3%nat)
                    end
              end
        end
  end.

(** [skip] counts the continuation bytes of the sequence just read. *)
Fixpoint decode_from (skip : nat) (s : string) : list char :=
  match s with
  | EmptyString => []
  | String a s' =>
      match skip with
      | S k => decode_from k s'
      | O =>
          match leading s with
          | Some (cp, k) => Code cp :: decode_from k s'
          | None => Raw a :: decode_from 0 s'
          end
      end
  end.

Definition decode (s : string) : list char := decode_from 0 s.

Definition byte (n : N) : ascii := ascii_of_N n.

Definition encode_char (c : char) : string :=
  match c with
  | Raw b => String b EmptyString
  | Code cp =>
      if cp <? 128 then String (byte cp) EmptyString
      else if cp <? 2048 then
        String (byte (192 + cp / 64)) (String (byte (128 + cp mod 64)) EmptyString)
      else if cp <? 65536 then
        String (byte (224 + cp / 4096))
          (String (byte (128 + (cp / 64) mod 64))
             (String (byte (128 + cp mod 64)) EmptyString))
      else
        String (byte (240 + cp / 262144))
          (String (byte (128 + (cp / 4096) mod 64))
             (String (byte (128 + (cp / 64) mod 64))
                (String (byte (128 + cp mod 64)) EmptyString)))
  end.

Fixpoint encode (l : list char) : string :=
  match l with
  | [] => EmptyString
  | c :: rest => encode_char c +++ encode rest
  end.

(** The simple lowercase mappings: [(first, last, step, image of first)]
    stands for the code points [first], [first + step], ..., [last], each
    mapped at the same distance. *)
Definition lower_ranges : list (N * N * N * N) :=
  [(65, 90, 1, 97); (192, 214, 1, 224); (216, 222, 1, 248);
   (256, 302, 2, 257); (306, 310, 2, 307); (313, 327, 2, 314);
   (330, 374, 2, 331); (376, 376, 1, 255); (377, 381, 2, 378);
   (385, 385, 1, 595); (386, 388, 2, 387); (390, 390, 1, 596);
   (391, 391, 1, 392); (393, 394, 1, 598); (395, 395, 1, 396);
   (398, 398, 1, 477); (399, 399, 1, 601); (400, 400, 1, 603);
   (401, 401, 1, 402); (403, 403, 1, 608); (404, 404, 1, 611);
   (406, 406, 1, 617); (407, 407, 1, 616); (408, 408, 1, 409);
   (412, 412, 1, 623); (413, 413, 1, 626); (415, 415, 1, 629);
   (416, 420, 2, 417); (422, 422, 1, 640); (423, 423, 1, 424);
   (425, 425, 1, 643); (428, 428, 1, 429); (430, 430, 1, 648);
   (431, 431, 1, 432); (433, 434, 1, 650); (435, 437, 2, 436);
   (439, 439, 1, 658); (440, 440, 1, 441); (444, 444, 1, 445);
   (452, 452, 1, 454); (453, 453, 1, 454); (455, 455, 1, 457);
   (456, 456, 1, 457); (458, 458, 1, 460); (459, 475, 2, 460);
   (478, 494, 2, 479); (497, 497, 1, 499); (498, 500, 2, 499);
   (502, 502, 1, 405); (503, 503, 1, 447); (504, 542, 2, 505);
   (544, 544, 1, 414); (546, 562, 2, 547); (570, 570, 1, 11365);
   (571, 571, 1, 572); (573, 573, 1, 410); (574, 574, 1, 11366);
   (577, 577, 1, 578); (579, 579, 1, 384); (580, 580, 1, 649);
   (581, 581, 1, 652); (582, 590, 2, 583); (880, 882, 2, 881);
   (886, 886, 1, 887); (895, 895, 1, 1011); (902, 902, 1, 940);
   (904, 906, 1, 941); (908, 908, 1, 972); (910, 911, 1, 973);
   (913, 929, 1, 945); (932, 939, 1, 964); (975, 975, 1, 983);
   (984, 1006, 2, 985); (1012, 1012, 1, 952); (1015, 1015, 1, 1016);
   (1017, 1017, 1, 1010); (1018, 1018, 1, 1019); (1021, 1023, 1, 891);
   (1024, 1039, 1, 1104); (1040, 1071, 1, 1072); (1120, 1152, 2, 1121);
   (1162, 1214, 2, 1163); (1216, 1216, 1, 1231); (1217, 1229, 2, 1218);
   (1232, 1326, 2, 1233); (1329, 1366, 1, 1377); (4256, 4293, 1, 11520);
   (4295, 4295, 1, 11559); (4301, 4301, 1, 11565); (5024, 5103, 1, 43888);
   (5104, 5109, 1, 5112); (7312, 7354, 1, 4304); (7357, 7359, 1, 4349);
   (7680, 7828, 2, 7681); (7838, 7838, 1, 223); (7840, 7934, 2, 7841);
   (7944, 7951, 1, 7936); (7960, 7965, 1, 7952); (7976, 7983, 1, 7968);
   (7992, 7999, 1, 7984); (8008, 8013, 1, 8000); (8025, 8031, 2, 8017);
   (8040, 8047, 1, 8032); (8072, 8079, 1, 8064); (8088, 8095, 1, 8080);
   (8104, 8111, 1, 8096); (8120, 8121, 1, 8112); (8122, 8123, 1, 8048);
   (8124, 8124, 1, 8115); (8136, 8139, 1, 8050); (8140, 8140, 1, 8131);
   (8152, 8153, 1, 8144); (8154, 8155, 1, 8054); (8168, 8169, 1, 8160);
   (8170, 8171, 1, 8058); (8172, 8172, 1, 8165); (8184, 8185, 1, 8056);
   (8186, 8187, 1, 8060); (8188, 8188, 1, 8179); (8486, 8486, 1, 969);
   (8490, 8490, 1, 107); (8491, 8491, 1, 229); (8498, 8498, 1, 8526);
   (8544, 8559, 1, 8560); (8579, 8579, 1, 8580); (9398, 9423, 1, 9424);
   (11264, 11311, 1, 11312); (11360, 11360, 1, 11361); (11362, 11362, 1, 619);
   (11363, 11363, 1, 7549); (11364, 11364, 1, 637); (11367, 11371, 2, 11368);
   (11373, 11373, 1, 593); (11374, 11374, 1, 625); (11375, 11375, 1, 592);
   (11376, 11376, 1, 594); (11378, 11378, 1, 11379); (11381, 11381, 1, 11382);
   (11390, 11391, 1, 575); (11392, 11490, 2, 11393); (11499, 11501, 2, 11500);
   (11506, 11506, 1, 11507); (42560, 42604, 2, 42561); (42624, 42650, 2, 42625);
   (42786, 42798, 2, 42787); (42802, 42862, 2, 42803); (42873, 42875, 2, 42874);
   (42877, 42877, 1, 7545); (42878, 42886, 2, 42879); (42891, 42891, 1, 42892);
   (42893, 42893, 1, 613); (42896, 42898, 2, 42897); (42902, 42920, 2, 42903);
   (42922, 42922, 1, 614); (42923, 42923, 1, 604); (42924, 42924, 1, 609);
   (42925, 42925, 1, 620); (42926, 42926, 1, 618); (42928, 42928, 1, 670);
   (42929, 42929, 1, 647); (42930, 42930, 1, 669); (42931, 42931, 1, 43859);
   (42932, 42946, 2, 42933); (42948, 42948, 1, 42900); (42949, 42949, 1, 642);
   (42950, 42950, 1, 7566); (42951, 42953, 2, 42952); (42960, 42960, 1, 42961);
   (42966, 42968, 2, 42967); (42997, 42997, 1, 42998); (65313, 65338, 1, 65345);
   (66560, 66599, 1, 66600); (66736, 66771, 1, 66776); (66928, 66938, 1, 66967);
   (66940, 66954, 1, 66979); (66956, 66962, 1, 66995); (66964, 66965, 1, 67003);
   (68736, 68786, 1, 68800); (71840, 71871, 1, 71872); (93760, 93791, 1, 93792);
   (125184, 125217, 1, 125218)].

(** The code points with the property Case_Ignorable. *)
Definition case_ignorable_ranges : list (N * N) :=
  [(39, 39); (46, 46); (58, 58); (94, 94); (96, 96);
   (168, 168); (173, 173); (175, 175); (180, 180); (183, 184);
   (688, 879); (884, 885); (890, 890); (900, 901); (903, 903);
   (1155, 1161); (1369, 1369); (1375, 1375); (1425, 1469); (1471, 1471);
   (1473, 1474); (1476, 1477); (1479, 1479); (1524, 1524); (1536, 1541);
   (1552, 1562); (1564, 1564); (1600, 1600); (1611, 1631); (1648, 1648);
   (1750, 1757); (1759, 1768); (1770, 1773); (1807, 1807); (1809, 1809);
   (1840, 1866); (1958, 1968); (2027, 2037); (2042, 2042); (2045, 2045);
   (2070, 2093); (2137, 2139); (2184, 2184); (2192, 2193); (2200, 2207);
   (2249, 2306); (2362, 2362); (2364, 2364); (2369, 2376); (2381, 2381);
   (2385, 2391); (2402, 2403); (2417, 2417); (2433, 2433); (2492, 2492);
   (2497, 2500); (2509, 2509); (2530, 2531); (2558, 2558); (2561, 2562);
   (2620, 2620); (2625, 2626); (2631, 2632); (2635, 2637); (2641, 2641);
   (2672, 2673); (2677, 2677); (2689, 2690); (2748, 2748); (2753, 2757);
   (2759, 2760); (2765, 2765); (2786, 2787); (2810, 2815); (2817, 2817);
   (2876, 2876); (2879, 2879); (2881, 2884); (2893, 2893); (2901, 2902);
   (2914, 2915); (2946, 2946); (3008, 3008); (3021, 3021); (3072, 3072);
   (3076, 3076); (3132, 3132); (3134, 3136); (3142, 3144); (3146, 3149);
   (3157, 3158); (3170, 3171); (3201, 3201); (3260, 3260); (3263, 3263);
   (3270, 3270); (3276, 3277); (3298, 3299); (3328, 3329); (3387, 3388);
   (3393, 3396); (3405, 3405); (3426, 3427); (3457, 3457); (3530, 3530);
   (3538, 3540); (3542, 3542); (3633, 3633); (3636, 3642); (3654, 3662);
   (3761, 3761); (3764, 3772); (3782, 3782); (3784, 3789); (3864, 3865);
   (3893, 3893); (3895, 3895); (3897, 3897); (3953, 3966); (3968, 3972);
   (3974, 3975); (3981, 3991); (3993, 4028); (4038, 4038); (4141, 4144);
   (4146, 4151); (4153, 4154); (4157, 4158); (4184, 4185); (4190, 4192);
   (4209, 4212); (4226, 4226); (4229, 4230); (4237, 4237); (4253, 4253);
   (4348, 4348); (4957, 4959); (5906, 5908); (5938, 5939); (5970, 5971);
   (6002, 6003); (6068, 6069); (6071, 6077); (6086, 6086); (6089, 6099);
   (6103, 6103); (6109, 6109); (6155, 6159); (6211, 6211); (6277, 6278);
   (6313, 6313); (6432, 6434); (6439, 6440); (6450, 6450); (6457, 6459);
   (6679, 6680); (6683, 6683); (6742, 6742); (6744, 6750); (6752, 6752);
   (6754, 6754); (6757, 6764); (6771, 6780); (6783, 6783); (6823, 6823);
   (6832, 6862); (6912, 6915); (6964, 6964); (6966, 6970); (6972, 6972);
   (6978, 6978); (7019, 7027); (7040, 7041); (7074, 7077); (7080, 7081);
   (7083, 7085); (7142, 7142); (7144, 7145); (7149, 7149); (7151, 7153);
   (7212, 7219); (7222, 7223); (7288, 7293); (7376, 7378); (7380, 7392);
   (7394, 7400); (7405, 7405); (7412, 7412); (7416, 7417); (7468, 7530);
   (7544, 7544); (7579, 7679); (8125, 8125); (8127, 8129); (8141, 8143);
   (8157, 8159); (8173, 8175); (8189, 8190); (8203, 8207); (8216, 8217);
   (8228, 8228); (8231, 8231); (8234, 8238); (8288, 8292); (8294, 8303);
   (8305, 8305); (8319, 8319); (8336, 8348); (8400, 8432); (11388, 11389);
   (11503, 11505); (11631, 11631); (11647, 11647); (11744, 11775); (11823, 11823);
   (12293, 12293); (12330, 12333); (12337, 12341); (12347, 12347); (12441, 12446);
   (12540, 12542); (40981, 40981); (42232, 42237); (42508, 42508); (42607, 42610);
   (42612, 42621); (42623, 42623); (42652, 42655); (42736, 42737); (42752, 42785);
   (42864, 42864); (42888, 42890); (42994, 42996); (43000, 43001); (43010, 43010);
   (43014, 43014); (43019, 43019); (43045, 43046); (43052, 43052); (43204, 43205);
   (43232, 43249); (43263, 43263); (43302, 43309); (43335, 43345); (43392, 43394);
   (43443, 43443); (43446, 43449); (43452, 43453); (43471, 43471); (43493, 43494);
   (43561, 43566); (43569, 43570); (43573, 43574); (43587, 43587); (43596, 43596);
   (43632, 43632); (43644, 43644); (43696, 43696); (43698, 43700); (43703, 43704);
   (43710, 43711); (43713, 43713); (43741, 43741); (43756, 43757); (43763, 43764);
   (43766, 43766); (43867, 43871); (43881, 43883); (44005, 44005); (44008, 44008);
   (44013, 44013); (64286, 64286); (64434, 64450); (65024, 65039); (65043, 65043);
   (65056, 65071); (65106, 65106); (65109, 65109); (65279, 65279); (65287, 65287);
   (65294, 65294); (65306, 65306); (65342, 65342); (65344, 65344); (65392, 65392);
   (65438, 65439); (65507, 65507); (65529, 65531); (66045, 66045); (66272, 66272);
   (66422, 66426); (67456, 67461); (67463, 67504); (67506, 67514); (68097, 68099);
   (68101, 68102); (68108, 68111); (68152, 68154); (68159, 68159); (68325, 68326);
   (68900, 68903); (69291, 69292); (69446, 69456); (69506, 69509); (69633, 69633);
   (69688, 69702); (69744, 69744); (69747, 69748); (69759, 69761); (69811, 69814);
   (69817, 69818); (69821, 69821); (69826, 69826); (69837, 69837); (69888, 69890);
   (69927, 69931); (69933, 69940); (70003, 70003); (70016, 70017); (70070, 70078);
   (70089, 70092); (70095, 70095); (70191, 70193); (70196, 70196); (70198, 70199);
   (70206, 70206); (70367, 70367); (70371, 70378); (70400, 70401); (70459, 70460);
   (70464, 70464); (70502, 70508); (70512, 70516); (70712, 70719); (70722, 70724);
   (70726, 70726); (70750, 70750); (70835, 70840); (70842, 70842); (70847, 70848);
   (70850, 70851); (71090, 71093); (71100, 71101); (71103, 71104); (71132, 71133);
   (71219, 71226); (71229, 71229); (71231, 71232); (71339, 71339); (71341, 71341);
   (71344, 71349); (71351, 71351); (71453, 71455); (71458, 71461); (71463, 71467);
   (71727, 71735); (71737, 71738); (71995, 71996); (71998, 71998); (72003, 72003);
   (72148, 72151); (72154, 72155); (72160, 72160); (72193, 72202); (72243, 72248);
   (72251, 72254); (72263, 72263); (72273, 72278); (72281, 72283); (72330, 72342);
   (72344, 72345); (72752, 72758); (72760, 72765); (72767, 72767); (72850, 72871);
   (72874, 72880); (72882, 72883); (72885, 72886); (73009, 73014); (73018, 73018);
   (73020, 73021); (73023, 73029); (73031, 73031); (73104, 73105); (73109, 73109);
   (73111, 73111); (73459, 73460); (78896, 78904); (92912, 92916); (92976, 92982);
   (92992, 92995); (94031, 94031); (94095, 94111); (94176, 94177); (94179, 94180);
   (110576, 110579); (110581, 110587); (110589, 110590); (113821, 113822); (113824, 113827);
   (118528, 118573); (118576, 118598); (119143, 119145); (119155, 119170); (119173, 119179);
   (119210, 119213); (119362, 119364); (121344, 121398); (121403, 121452); (121461, 121461);
   (121476, 121476); (121499, 121503); (121505, 121519); (122880, 122886); (122888, 122904);
   (122907, 122913); (122915, 122916); (122918, 122922); (123184, 123197); (123566, 123566);
   (123628, 123631); (125136, 125142); (125252, 125259); (127995, 127999); (917505, 917505);
   (917536, 917631); (917760, 917999)].

(** The code points with the property Cased that are not Case_Ignorable. *)
Definition cased_ranges : list (N * N) :=
  [(65, 90); (97, 122); (170, 170); (181, 181); (186, 186);
   (192, 214); (216, 246); (248, 442); (444, 447); (452, 659);
   (661, 687); (880, 883); (886, 887); (891, 893); (895, 895);
   (902, 902); (904, 906); (908, 908); (910, 929); (931, 1013);
   (1015, 1153); (1162, 1327); (1329, 1366); (1376, 1416); (4256, 4293);
   (4295, 4295); (4301, 4301); (4304, 4346); (4349, 4351); (5024, 5109);
   (5112, 5117); (7296, 7304); (7312, 7354); (7357, 7359); (7424, 7467);
   (7531, 7543); (7545, 7578); (7680, 7957); (7960, 7965); (7968, 8005);
   (8008, 8013); (8016, 8023); (8025, 8025); (8027, 8027); (8029, 8029);
   (8031, 8061); (8064, 8116); (8118, 8124); (8126, 8126); (8130, 8132);
   (8134, 8140); (8144, 8147); (8150, 8155); (8160, 8172); (8178, 8180);
   (8182, 8188); (8450, 8450); (8455, 8455); (8458, 8467); (8469, 8469);
   (8473, 8477); (8484, 8484); (8486, 8486); (8488, 8488); (8490, 8493);
   (8495, 8500); (8505, 8505); (8508, 8511); (8517, 8521); (8526, 8526);
   (8544, 8575); (8579, 8580); (9398, 9449); (11264, 11387); (11390, 11492);
   (11499, 11502); (11506, 11507); (11520, 11557); (11559, 11559); (11565, 11565);
   (42560, 42605); (42624, 42651); (42786, 42863); (42865, 42887); (42891, 42894);
   (42896, 42954); (42960, 42961); (42963, 42963); (42965, 42969); (42997, 42998);
   (43002, 43002); (43824, 43866); (43872, 43880); (43888, 43967); (64256, 64262);
   (64275, 64279); (65313, 65338); (65345, 65370); (66560, 66639); (66736, 66771);
   (66776, 66811); (66928, 66938); (66940, 66954); (66956, 66962); (66964, 66965);
   (66967, 66977); (66979, 66993); (66995, 67001); (67003, 67004); (68736, 68786);
   (68800, 68850); (71840, 71903); (93760, 93823); (119808, 119892); (119894, 119964);
   (119966, 119967); (119970, 119970); (119973, 119974); (119977, 119980); (119982, 119993);
   (119995, 119995); (119997, 120003); (120005, 120069); (120071, 120074); (120077, 120084);
   (120086, 120092); (120094, 120121); (120123, 120126); (120128, 120132); (120134, 120134);
   (120138, 120144); (120146, 120485); (120488, 120512); (120514, 120538); (120540, 120570);
   (120572, 120596); (120598, 120628); (120630, 120654); (120656, 120686); (120688, 120712);
   (120714, 120744); (120746, 120770); (120772, 120779); (122624, 122633); (122635, 122654);
   (125184, 125251); (127280, 127305); (127312, 127337); (127344, 127369)].

Definition within (c : N) (r : N * N) : bool :=
  ((fst r <=? c) && (c <=? snd r))%bool.

Definition case_ignorable (c : char) : bool :=
  match c with
  | Code cp => existsb (within cp) case_ignorable_ranges
  | Raw _ => false
  end.

Definition cased (c : char) : bool :=
  match c with
  | Code cp => existsb (within cp) cased_ranges
  | Raw _ => false
  end.

Definition lower_simple (cp : N) : N :=
  match find (fun r => let '(first, last, step, _) := r in
                       ((first <=? cp) && (cp <=? last)
                        && ((cp - first) mod step =? 0))%bool) lower_ranges with
  | Some (first, _, _, image) => image + (cp - first)
  | None => cp
  end.

(** the first character that is not case-ignorable is cased *)
Fixpoint meets_cased (l : list char) : bool :=
  match l with
  | [] => false
  | c :: rest => if case_ignorable c then meets_cased rest else cased c
  end.

(** The lowercase of one character.  [before] holds the characters that
    precede it, nearest first, [after] those that follow: a capital sigma
    becomes a final sigma when it ends a word. *)
Definition lower_char (before : list char) (c : char) (after : list char)
  : list char :=
  match c with
  | Raw b => [Raw b]
  | Code cp =>
      if cp =? 931 then
        if (meets_cased before && negb (meets_cased after))%bool
        then [Code 962] else [Code 963]
      else if cp =? 304 then [Code 105; Code 775]
      else [Code (lower_simple cp)]
  end.

Fixpoint lower_from (before l : list char) : list char :=
  match l with
  | [] => []
  | c :: rest => lower_char before c rest ++ lower_from (c :: before) rest
  end.

Definition lower (l : list char) : list char := lower_from [] l.

End Unicode.

(** ** Python string operations used by the script *)

Module PyStr.

(** [s.startswith(p)] *)
Definition startswith (s p : string) : bool := String.prefix p s.

(** [s[:n]]: the first [n] characters *)
Definition take (n : nat) (s : string) : string :=
  Unicode.encode (firstn n (Unicode.decode s)).

(** [s.rstrip(c)] for a one-character argument. *)
Fixpoint rstrip (c : ascii) (s : string) : string :=
  match s with
  | EmptyString => EmptyString
  | String a s' =>
      match rstrip c s' with
      | EmptyString => if Ascii.eqb a c then EmptyString else String a EmptyString
      | t => String a t
      end
  end.

(** [s.replace(old, new)] for a non-empty [old]: every non-overlapping
    occurrence, left to right.  [skip] counts the characters of a matched
    occurrence still to be dropped. *)
Fixpoint replace_from (skip : nat) (old new s : string) : string :=
  match s with
  | EmptyString => EmptyString
  | String c s' =>
      match skip with
      | S k => replace_from k old new s'
      | O =>
          if String.prefix old s
          then new +++ replace_from (String.length old - 1) old new s'
          else String c (replace_from 0 old new s')
      end
  end.

Definition replace (old new s : string) : string := replace_from 0 old new s.

(** [s.lower()] *)
Definition lower (s : string) : string :=
  Unicode.encode (Unicode.lower (Unicode.decode s)).

(** [kw in s] *)
Fixpoint contains (kw s : string) : bool :=
  String.prefix kw s ||
  match s with
  | EmptyString => false
  | String _ s' => contains kw s'
  end.

(** [str(n)] for an [int]. *)
Definition of_Z (z : Z) : string := NilZero.string_of_int (Z.to_int z).

(** [sep.join(l)] *)
Fixpoint join (sep : string) (l : list string) : string :=
  match l with
  | [] => ""
  | [x] => x
  | x :: rest => x +++ sep +++ join sep rest
  end.

(** number of occurrences of a character *)
Fixpoint count_char (c : ascii) (s : string) : nat :=
  match s with
  | EmptyString => 0
  | String a s' => (if Ascii.eqb a c then 1 else 0) + count_char c s'
  end.

End PyStr.

(** ** Data model *)

(** The dict built by [log_result].  [timestamp] is the clock reading the
    ISO string is rendered from. *)
Record result := mkResult {
  timestamp : Z;
  test : string;
  status : string;
  details : string;
  severity : string
}.

Inductive http_method := GET | POST | OPTIONS.

(** One call of [requests.get/options] or [self.session.get/post]. *)
Record request := mkRequest {
  req_method : http_method;
  req_url : string;
  req_headers : list (string * string);
  req_json : option (list (string * string));
  req_allow_redirects : bool
}.

(** What the script reads of a [requests.Response]. *)
Record response := mkResponse {
  status_code : Z;
  headers : list (string * string);
  text : string
}.

(** [response.headers] is a case-insensitive mapping. *)
Fixpoint headers_get (name : string) (hs : list (string * string)) : option string :=
  match hs with
  | [] => None
  | (k, v) :: rest =>
      if String.eqb (PyStr.lower k) (PyStr.lower name) then Some v
      else headers_get name rest
  end.

(** [response.headers.get(name, default)] *)
Definition headers_get_or (name default : string) (hs : list (string * string))
  : string :=
  match headers_get name hs with
  | Some v => v
  | None => default
  end.

Inductive outcome :=
| Responded (r : response)
| Raised (msg : string).

(** The environment of a run.  [net n r] is what the [n]-th request of the
    run gets when it is [r].  [now n] is the [n]-th reading of
    [datetime.now()]: a naive local date and time, counted in
    microseconds from 1970-01-01T00:00:00 of the local calendar.
    [timestamp_ok t] tells whether the platform's [datetime.timestamp()]
    converts the local time [t] (it raises otherwise), and
    [local_to_posix s] is the POSIX second it gives the local second [s]:
    the time zone rules of the machine, as [timestamp()] applies them to
    a naive value (for a local time that the clock shows twice, the
    first one). *)
Record world := mkWorld {
  net : nat -> request -> outcome;
  now : nat -> Z;
  timestamp_ok : Z -> bool;
  local_to_posix : Z -> Z
}.

(** A file written by [generate_report]: named after a clock reading,
    holding [json.dump(self.results)]. *)
Record report_file := mkReport {
  report_time : Z;
  report_body : list result
}.

Record state := mkState {
  base_url : string;
  auth_token : option string;
  session_headers : list (string * string);
  results : list result;
  sent : list request;
  clock_reads : nat;
  files : list report_file
}.

(** ** Computations: state plus exceptions *)

Definition M (A : Type) : Type := state -> (string + A) * state.

Definition ret {A} (a : A) : M A := fun st => (inr a, st).

Definition bind {A B} (c : M A) (k : A -> M B) : M B :=
  fun st =>
    match c st with
    | (inr a, st') => k a st'
    | (inl e, st') => (inl e, st')
    end.

Definition raise {A} (e : string) : M A := fun st => (inl e, st).

(** [try: c  except Exception as e: h e] *)
Definition try_catch {A} (c : M A) (h : string -> M A) : M A :=
  fun st =>
    match c st with
    | (inr a, st') => (inr a, st')
    | (inl e, st') => h e st'
    end.

Notation "x <- c ;; k" := (bind c (fun x => k))
  (at level 61, c at next level, right associativity).
Notation "c ;; k" := (bind c (fun _ => k))
  (at level 61, right associativity).

(** [for x in l: body x] *)
Fixpoint for_each {A} (l : list A) (body : A -> M unit) : M unit :=
  match l with
  | [] => ret tt
  | x :: rest => body x ;; for_each rest body
  end.

(** A [for] loop that threads a local variable. *)
Fixpoint for_fold {A B} (l : list A) (acc : B) (body : A -> B -> M B) : M B :=
  match l with
  | [] => ret acc
  | x :: rest => acc' <- body x acc ;; for_fold rest acc' body
  end.

Definition get_state : M state := fun st => (inr st, st).

Definition exec {A} (c : M A) (st : state) : state := snd (c st).
Definition value {A} (c : M A) (st : state) : string + A := fst (c st).

(** The records a computation appended: what [results] holds beyond the
    first [length (results st)] entries. *)
Definition appended {A} (c : M A) (st : state) : list result :=
  skipn (length (results st)) (results (exec c st)).

(** The requests a computation issued. *)
Definition issued {A} (c : M A) (st : state) : list request :=
  skipn (length (sent st)) (sent (exec c st)).

(** ** JSON and base64url, as the token generator uses them *)

Definition dquote : ascii := "034"%char.
Definition backslash : ascii := "092"%char.

Inductive json_value :=
| JStr (s : string)
| JInt (z : Z).

Definition json_object := list (string * json_value).

Module Json.

(** [json.dumps] of a string whose characters are printable ASCII: only
    the quote and the backslash are escaped. *)
Fixpoint escape (s : string) : string :=
  match s with
  | EmptyString => EmptyString
  | String c s' =>
      if (Ascii.eqb c dquote || Ascii.eqb c backslash)%bool
      then String backslash (String c (escape s'))
      else String c (escape s')
  end.

Definition dumps_string (s : string) : string :=
  String dquote (escape s +++ String dquote EmptyString).

Definition dumps_value (v : json_value) : string :=
  match v with
  | JStr s => dumps_string s
  | JInt z => PyStr.of_Z z
  end.

Definition dumps_member (m : string * json_value) : string :=
  dumps_string (fst m) +++ ": " +++ dumps_value (snd m).

(** [json.dumps(obj)] with the default separators. *)
Definition dumps (obj : json_object) : string :=
  "{" +++ PyStr.join ", " (map dumps_member obj) +++ "}".

End Json.

Module Base64.

Definition alphabet : string :=
  "ABCDEFGHIJKLMNOPQRSTUVWXYZabcdefghijklmnopqrstuvwxyz0123456789-_".

Definition pad : ascii := "="%char.

(** the character of a 6-bit value *)
Definition digit (n : N) : ascii :=
  match String.get (N.to_nat n) alphabet with
  | Some c => c
  | None => pad
  end.

(** [base64.urlsafe_b64encode]: three bytes give four characters, a last
    group of one or two bytes is padded with '='. *)
Fixpoint urlsafe_b64encode (s : string) : string :=
  match s with
  | EmptyString => EmptyString
  | String a EmptyString =>
      let x := N_of_ascii a in
      String (digit (x / 4))
        (String (digit ((x mod 4) * 16))
           (String pad (String pad EmptyString)))
  | String a (String b EmptyString) =>
      let x := N_of_ascii a in
      let y := N_of_ascii b in
      String (digit (x / 4))
        (String (digit ((x mod 4) * 16 + y / 16))
           (String (digit ((y mod 16) * 4))
              (String pad EmptyString)))
  | String a (String b (String c rest)) =>
      let x := N_of_ascii a in
      let y := N_of_ascii b in
      let z := N_of_ascii c in
      String (digit (x / 4))
        (String (digit ((x mod 4) * 16 + y / 16))
           (String (digit ((y mod 16) * 4 + z / 64))
              (String (digit (z mod 64))
                 (urlsafe_b64encode rest))))
  end%N.

End Base64.

(** ** Python floats

    [datetime.timestamp()] returns a float and [int()] cuts it: the
    binary64 arithmetic of these two steps, with rounding to nearest,
    ties to even.  The magnitudes of a timestamp are far from the
    subnormal numbers and from overflow, which are left out. *)

Module PyFloat.

Local Open Scope Z_scope.

(** The finite number [mantissa * 2 ^ exponent]. *)
Record float := mkFloat { mantissa : Z; exponent : Z }.

(** [n / d] rounded to the nearest integer, a tie to the even one, for
    [0 <= n] and [0 < d]. *)
Definition round_half_even (n d : Z) : Z :=
  let q := n / d in
  let r := n mod d in
  if 2 * r <? d then q
  else if d <? 2 * r then q + 1
  else if Z.even q then q else q + 1.

(** The float nearest to [n / d], for [0 < n] and [0 < d]: the exponent
    is chosen so that the mantissa has 53 bits. *)
Definition round_pos (n d : Z) : float :=
  let e0 := Z.log2 n - Z.log2 d - 53 in
  let n' := if 0 <=? e0 then n else n * 2 ^ (- e0) in
  let d' := if 0 <=? e0 then d * 2 ^ e0 else d in
  if n' <? d' * 2 ^ 53
  then mkFloat (round_half_even n' d') e0
  else mkFloat (round_half_even n' (2 * d')) (e0 + 1).

(** The float nearest to [n / d], for [0 < d]. *)
Definition round_div (n d : Z) : float :=
  match n with
  | 0 => mkFloat 0 0
  | Zpos _ => round_pos n d
  | Zneg _ => let r := round_pos (- n) d in mkFloat (- mantissa r) (exponent r)
  end.

(** A float is the fraction [num / den], with [0 < den]. *)
Definition num (x : float) : Z :=
  if 0 <=? exponent x then mantissa x * 2 ^ exponent x else mantissa x.

Definition den (x : float) : Z :=
  if 0 <=? exponent x then 1 else 2 ^ (- exponent x).

(** [float(z)] for an [int] *)
Definition of_int (z : Z) : float := round_div z 1.

(** [x + y] *)
Definition add (x y : float) : float :=
  round_div (num x * den y + num y * den x) (den x * den y).

(** [x / y] for a divisor other than zero *)
Definition div (x y : float) : float :=
  let n := num x * den y in
  let d := den x * num y in
  if 0 <? d then round_div n d else round_div (- n) (- d).

(** [int(x)]: towards zero *)
Definition trunc (x : float) : Z := Z.quot (num x) (den x).

End PyFloat.

(** ** The tester *)

Definition set_results (st : state) (rs : list result) : state :=
  mkState (base_url st) (auth_token st) (session_headers st) rs
          (sent st) (clock_reads st) (files st).

Definition set_sent (st : state) (rq : list request) : state :=
  mkState (base_url st) (auth_token st) (session_headers st) (results st)
          rq (clock_reads st) (files st).

Definition set_clock_reads (st : state) (n : nat) : state :=
  mkState (base_url st) (auth_token st) (session_headers st) (results st)
          (sent st) n (files st).

Definition set_files (st : state) (fs : list report_file) : state :=
  mkState (base_url st) (auth_token st) (session_headers st) (results st)
          (sent st) (clock_reads st) fs.

(** [requests.Session().headers]: the defaults of the library.  Its
    User-Agent names the library's version, its Accept-Encoding the
    codecs installed beside it (here: none of the optional ones). *)
Definition default_headers : list (string * string) :=
  [("User-Agent", "python-requests/2.31.0");
   ("Accept-Encoding", "gzip, deflate");
   ("Accept", "*/*");
   ("Connection", "keep-alive")].

(** [headers[name] = value] on the case-insensitive mapping of the
    session: an entry of that name, in whatever case, is replaced where
    it stands, a new name is added at the end. *)
Fixpoint headers_set (name value : string) (hs : list (string * string))
  : list (string * string) :=
  match hs with
  | [] => [(name, value)]
  | (k, v) :: rest =>
      if String.eqb (PyStr.lower k) (PyStr.lower name) then (name, value) :: rest
      else (k, v) :: headers_set name value rest
  end.

(** [headers.update(new)] *)
Definition headers_update (new hs : list (string * string))
  : list (string * string) :=
  fold_left (fun acc item => headers_set (fst item) (snd item) acc) new hs.

(** [EaglePenetrationTester.__init__] *)
Definition init (base : string) (token : option string) : state :=
  let session_headers :=
    headers_update [("User-Agent", "Eagle-Security-Tester/1.0");
                    ("Content-Type", "application/json")]
                   default_headers in
  mkState (PyStr.rstrip "/" base) token
    match token with
    | Some (String c t) =>
        headers_update [("Authorization", "Bearer " +++ String c t)]
                       session_headers
    | _ => session_headers
    end
    [] [] 0 [].

Definition microseconds_per_second : Z := 1000000.
Definition hour : Z := 3600 * microseconds_per_second.

(** [t.timestamp()] for the naive local time [t]: the POSIX second of
    the local second, plus [t.microsecond / 1e6]. *)
Definition datetime_timestamp (w : world) (t : Z) : PyFloat.float :=
  PyFloat.add
    (PyFloat.of_int (local_to_posix w (t / microseconds_per_second)))
    (PyFloat.div (PyFloat.of_int (t mod microseconds_per_second))
                 (PyFloat.of_int microseconds_per_second)).

(** [int(t.timestamp())] *)
Definition int_timestamp (w : world) (t : Z) : Z :=
  PyFloat.trunc (datetime_timestamp w t).

(** The token text of [generate_expired_token], for the values of the
    [exp] and [iat] fields. *)
Definition expired_token (exp iat : Z) : string :=
  let header := [("alg", JStr "HS256"); ("typ", JStr "JWT")] in
  let payload :=
    [("sub", JStr "test-user");
     ("iss", JStr "http://localhost:8081/realms/eagle-dev");
     ("exp", JInt exp);
     ("iat", JInt iat)] in
  let header_b64 :=
    PyStr.rstrip "=" (Base64.urlsafe_b64encode (Json.dumps header)) in
  let payload_b64 :=
    PyStr.rstrip "=" (Base64.urlsafe_b64encode (Json.dumps payload)) in
  let signature := "fake_signature" in
  header_b64 +++ "." +++ payload_b64 +++ "." +++ signature.

Section Tester.

Variable w : world.

(** [datetime.now()] *)
Definition datetime_now : M Z :=
  fun st => (inr (now w (clock_reads st)), set_clock_reads st (S (clock_reads st))).

(** [int(t.timestamp())], which raises when the platform cannot convert
    [t]. *)
Definition timestamp_int (t : Z) : M Z :=
  if timestamp_ok w t then ret (int_timestamp w t)
  else raise "timestamp out of range".

(** Sending a request: it is logged, and the oracle decides. *)
Definition send (r : request) : M response :=
  fun st =>
    let st' := set_sent st (sent st ++ [r]) in
    match net w (length (sent st)) r with
    | Responded x => (inr x, st')
    | Raised e => (inl e, st')
    end.

(** [requests.get(url, headers=h, allow_redirects=a)] *)
Definition requests_get (url : string) (h : list (string * string)) (a : bool)
  : M response :=
  send (mkRequest GET url h None a).

(** [requests.options(url, headers=h)] *)
Definition requests_options (url : string) (h : list (string * string))
  : M response :=
  send (mkRequest OPTIONS url h None true).

(** [self.session.get(url)] *)
Definition session_get (url : string) : M response :=
  st <- get_state ;;
  send (mkRequest GET url (session_headers st) None true).

(** [self.session.post(url, json=data)] *)
Definition session_post (url : string) (data : list (string * string))
  : M response :=
  st <- get_state ;;
  send (mkRequest POST url (session_headers st) (Some data) true).

Definition self_base_url : M string :=
  st <- get_state ;; ret (base_url st).

(** [self.results.append(result)] *)
Definition results_append (r : result) : M unit :=
  fun st => (inr tt, set_results st (results st ++ [r])).

Definition log_result (test_name status details severity : string) : M unit :=
  t <- datetime_now ;;
  results_append (mkResult t test_name status details severity).

(** [generate_expired_token]: the two clock readings, then the encoding
    of the header and of the payload. *)
Definition generate_expired_token : M (option string) :=
  try_catch
    (t1 <- datetime_now ;;
     exp <- timestamp_int (t1 - 1 * hour) ;;
     t2 <- datetime_now ;;
     iat <- timestamp_int (t2 - 2 * hour) ;;
     ret (Some (expired_token exp iat)))
    (fun _ => ret None).

(** *** [test_authentication], block by block *)

Definition auth_without_token : M unit :=
  try_catch
    (base <- self_base_url ;;
     response <- requests_get (base +++ "/api/v1/alerts/status") [] true ;;
     if (status_code response =? 401)%Z
     then log_result "Auth Without Token" "PASS"
            "Endpoint protegido corretamente" "PASS"
     else log_result "Auth Without Token" "FAIL"
            ("Endpoint não protegido (status: "
               +++ PyStr.of_Z (status_code response) +++ ")") "FAIL")
    (fun e => log_result "Auth Without Token" "ERROR" e "WARN").

Definition malformed_tokens : list string :=
  ["invalid.jwt.token";
   "Bearer invalid";
   "eyJhbGciOiJIUzI1NiIsInR5cCI6IkpXVCJ9.invalid";
   ""].

Definition auth_malformed_token (token : string) : M unit :=
  try_catch
    (let headers := [("Authorization", "Bearer " +++ token)] in
     base <- self_base_url ;;
     response <- requests_get (base +++ "/api/v1/alerts/status") headers true ;;
     if (status_code response =? 401)%Z
     then log_result ("Malformed Token (" +++ PyStr.take 20 token +++ "...)")
            "PASS" "Token inválido rejeitado" "PASS"
     else log_result ("Malformed Token (" +++ PyStr.take 20 token +++ "...)")
            "FAIL"
            ("Token inválido aceito (status: "
               +++ PyStr.of_Z (status_code response) +++ ")") "FAIL")
    (fun e => log_result "Malformed Token" "ERROR" e "WARN").

(** The third block: [if expired_token:] skips the request when the
    generator returned [None] (or an empty string). *)
Definition auth_expired_token : M unit :=
  try_catch
    (expired_token <- generate_expired_token ;;
     match expired_token with
     | Some (String c t) =>
         let headers := [("Authorization", "Bearer " +++ String c t)] in
         base <- self_base_url ;;
         response <- requests_get (base +++ "/api/v1/alerts/status") headers true ;;
         if (status_code response =? 401)%Z
         then log_result "Expired Token" "PASS" "Token expirado rejeitado" "PASS"
         else log_result "Expired Token" "FAIL"
                ("Token expirado aceito (status: "
                   +++ PyStr.of_Z (status_code response) +++ ")") "FAIL"
     | _ => ret tt
     end)
    (fun e => log_result "Expired Token" "WARN"
                ("Não foi possível testar: " +++ e) "WARN").

Definition test_authentication : M unit :=
  auth_without_token ;;
  for_each malformed_tokens auth_malformed_token ;;
  auth_expired_token.

(** *** [test_authorization] *)

Definition sensitive_endpoints : list string :=
  ["/actuator/env";
   "/actuator/configprops";
   "/actuator/beans";
   "/actuator/heapdump";
   "/actuator/threaddump";
   "/admin/users";
   "/admin/config"].

Definition probe_sensitive_endpoint (endpoint : string) : M unit :=
  try_catch
    (base <- self_base_url ;;
     response <- session_get (base +++ endpoint) ;;
     if existsb (Z.eqb (status_code response)) [401; 403; 404]%Z
     then log_result ("Sensitive Endpoint " +++ endpoint) "PASS"
            ("Endpoint protegido (status: "
               +++ PyStr.of_Z (status_code response) +++ ")") "PASS"
     else log_result ("Sensitive Endpoint " +++ endpoint) "FAIL"
            ("Endpoint exposto (status: "
               +++ PyStr.of_Z (status_code response) +++ ")") "FAIL")
    (fun e => log_result ("Sensitive Endpoint " +++ endpoint) "ERROR" e "WARN").

Definition test_authorization : M unit :=
  for_each sensitive_endpoints probe_sensitive_endpoint.

(** *** [test_injection_attacks] and [test_injection_payload] *)

Definition sql_payloads : list string :=
  ["'; DROP TABLE alerts; --";
   "' OR '1'='1";
   "' UNION SELECT * FROM users --";
   "'; INSERT INTO alerts VALUES ('malicious'); --";
   "' OR 1=1 --"].

Definition xss_payloads : list string :=
  ["<script>alert('xss')</script>";
   "javascript:alert('xss')";
   "<img src=x onerror=alert('xss')>";
   "';alert('xss');//";
   "<svg onload=alert('xss')>"].

Definition cmd_payloads : list string :=
  ["; ls -la";
   "| whoami";
   "&& cat /etc/passwd";
   "`id`";
   "$(whoami)"].

Definition error_keywords : list string := ["error"; "exception"; "stack"].

Definition test_injection_payload (attack_type payload field : string) : M unit :=
  try_catch
    (let data :=
       [(field, payload);
        ("scopeStartDate", "2024-01-01");
        ("scopeEndDate", "2024-01-31")] in
     base <- self_base_url ;;
     response <- session_post (base +++ "/api/v1/alerts/create") data ;;
     let name := attack_type +++ " (" +++ PyStr.take 30 payload +++ "...)" in
     if existsb (Z.eqb (status_code response)) [400; 422]%Z
     then log_result name "PASS" "Payload rejeitado" "PASS"
     else if (status_code response =? 200)%Z
     then
       let response_text := PyStr.lower (text response) in
       if existsb (fun keyword => PyStr.contains keyword response_text)
                  error_keywords
       then log_result name "WARN" "Possível vulnerabilidade detectada" "WARN"
       else log_result name "FAIL" "Payload aceito sem validação" "FAIL"
     else log_result name "INFO"
            ("Status inesperado: " +++ PyStr.of_Z (status_code response)) "INFO")
    (fun e => log_result (attack_type +++ " Payload Test") "ERROR" e "WARN").

Definition test_injection_attacks : M unit :=
  for_each sql_payloads
    (fun payload => test_injection_payload "SQL Injection" payload "customerDocument") ;;
  for_each xss_payloads
    (fun payload => test_injection_payload "XSS" payload "customerDocument") ;;
  for_each cmd_payloads
    (fun payload => test_injection_payload "Command Injection" payload "customerDocument").

(** *** [test_security_headers] *)

(** The values of the [required_headers] table: a string, a list of
    strings, or [None]. *)
Inductive expected_value :=
| ExpectStr (v : string)
| ExpectList (vs : list string)
| ExpectNone.

Definition required_headers : list (string * expected_value) :=
  [("X-Content-Type-Options", ExpectStr "nosniff");
   ("X-Frame-Options", ExpectList ["DENY"; "SAMEORIGIN"]);
   ("X-XSS-Protection", ExpectStr "1; mode=block");
   ("Strict-Transport-Security", ExpectNone);
   ("Content-Security-Policy", ExpectNone)].

Definition check_header (response : response) (item : string * expected_value)
  : M unit :=
  let (header, expected) := item in
  match headers_get header (headers response) with
  | Some actual_value =>
      match expected with
      | ExpectNone =>
          log_result ("Security Header " +++ header) "PASS"
            ("Presente: " +++ actual_value) "PASS"
      | ExpectList vs =>
          if existsb (String.eqb actual_value) vs
          then log_result ("Security Header " +++ header) "PASS"
                 ("Valor correto: " +++ actual_value) "PASS"
          else log_result ("Security Header " +++ header) "WARN"
                 ("Valor inesperado: " +++ actual_value) "WARN"
      | ExpectStr v =>
          if String.eqb actual_value v
          then log_result ("Security Header " +++ header) "PASS"
                 ("Valor correto: " +++ actual_value) "PASS"
          else log_result ("Security Header " +++ header) "WARN"
                 ("Valor incorreto: " +++ actual_value) "WARN"
      end
  | None =>
      log_result ("Security Header " +++ header) "FAIL" "Header ausente" "FAIL"
  end.

Definition test_security_headers : M unit :=
  try_catch
    (base <- self_base_url ;;
     response <- session_get (base +++ "/api/v1/alerts/status") ;;
     for_each required_headers (check_header response))
    (fun e => log_result "Security Headers Test" "ERROR" e "WARN").

(** *** [test_rate_limiting] *)

Definition rate_limit_probes : nat := 50.

(** the body of the loop: one request, its status appended to
    [responses] *)
Definition rate_limit_probe (i : nat) (responses : list Z) : M (list Z) :=
  base <- self_base_url ;;
  response <- session_get (base +++ "/api/v1/alerts/status") ;;
  ret (responses ++ [status_code response]).

Definition test_rate_limiting : M unit :=
  try_catch
    (responses <- for_fold (seq 0 rate_limit_probes) [] rate_limit_probe ;;
     let rate_limited := existsb (fun status => (status =? 429)%Z) responses in
     if rate_limited
     then log_result "Rate Limiting" "PASS" "Rate limiting ativo" "PASS"
     else log_result "Rate Limiting" "WARN" "Rate limiting não detectado" "WARN")
    (fun e => log_result "Rate Limiting Test" "ERROR" e "WARN").

(** *** [test_information_disclosure] *)

Definition info_endpoints : list string :=
  ["/actuator/info";
   "/actuator/health";
   "/actuator/metrics";
   "/swagger-ui.html";
   "/api-docs";
   "/error";
   "/debug"].

Definition sensitive_keywords : list string :=
  ["password"; "secret"; "key"; "token"; "credential";
   "database"; "connection"; "jdbc"; "username";
   "stacktrace"; "exception"; "error"].

Definition probe_info_endpoint (endpoint : string) : M unit :=
  try_catch
    (base <- self_base_url ;;
     response <- requests_get (base +++ endpoint) [] true ;;
     if (status_code response =? 200)%Z
     then
       let content := PyStr.lower (text response) in
       let found_sensitive :=
         filter (fun kw => PyStr.contains kw content) sensitive_keywords in
       match found_sensitive with
       | _ :: _ =>
           log_result ("Info Disclosure " +++ endpoint) "WARN"
             ("Possível vazamento: " +++ PyStr.join ", " found_sensitive) "WARN"
       | [] =>
           log_result ("Info Disclosure " +++ endpoint) "PASS"
             "Nenhuma informação sensível detectada" "PASS"
       end
     else log_result ("Info Disclosure " +++ endpoint) "PASS"
            ("Endpoint não acessível (status: "
               +++ PyStr.of_Z (status_code response) +++ ")") "PASS")
    (fun e => log_result ("Info Disclosure " +++ endpoint) "ERROR" e "WARN").

Definition test_information_disclosure : M unit :=
  for_each info_endpoints probe_info_endpoint.

(** *** [test_cors_configuration] *)

Definition malicious_origins : list string :=
  ["http://evil.com"; "https://attacker.com"; "null"; "*"].

Definition probe_origin (origin : string) : M unit :=
  let request_headers :=
    [("Origin", origin);
     ("Access-Control-Request-Method", "POST");
     ("Access-Control-Request-Headers", "Authorization,Content-Type")] in
  base <- self_base_url ;;
  response <- requests_options (base +++ "/api/v1/alerts/create") request_headers ;;
  match headers_get "Access-Control-Allow-Origin" (headers response) with
  | Some cors_origin =>
      if (String.eqb cors_origin origin || String.eqb cors_origin "*")%bool
      then log_result ("CORS Origin " +++ origin) "FAIL"
             ("Origem maliciosa permitida: " +++ cors_origin) "FAIL"
      else log_result ("CORS Origin " +++ origin) "PASS"
             "Origem maliciosa rejeitada" "PASS"
  | None =>
      log_result ("CORS Origin " +++ origin) "PASS"
        "Origem maliciosa rejeitada" "PASS"
  end.

Definition test_cors_configuration : M unit :=
  try_catch
    (for_each malicious_origins probe_origin)
    (fun e => log_result "CORS Configuration Test" "ERROR" e "WARN").

(** *** [test_ssl_configuration] *)

Definition redirect_statuses : list Z := [301; 302; 307; 308]%Z.

Definition test_ssl_configuration : M unit :=
  base <- self_base_url ;;
  if negb (PyStr.startswith base "https://")
  then log_result "SSL Configuration" "WARN"
         "Aplicação não está usando HTTPS" "WARN"
  else
    try_catch
      (let http_url := PyStr.replace "https://" "http://" base in
       response <- requests_get http_url [] false ;;
       if existsb (Z.eqb (status_code response)) redirect_statuses
       then
         let location := headers_get_or "Location" "" (headers response) in
         if PyStr.startswith location "https://"
         then log_result "HTTP to HTTPS Redirect" "PASS"
                "Redirecionamento configurado" "PASS"
         else log_result "HTTP to HTTPS Redirect" "FAIL"
                "Redirecionamento incorreto" "FAIL"
       else log_result "HTTP to HTTPS Redirect" "FAIL"
              "Redirecionamento não configurado" "FAIL")
      (fun e => log_result "SSL Configuration Test" "ERROR" e "WARN").

(** *** [generate_report], [run_all_tests], [main] *)

Definition count_status (s : string) (rs : list result) : nat :=
  length (filter (fun r => String.eqb (status r) s) rs).

(** [with open(report_file, 'w') as f: json.dump(self.results, f)] *)
Definition write_report (t : Z) : M unit :=
  fun st => (inr tt, set_files st (files st ++ [mkReport t (results st)])).

Definition generate_report : M bool :=
  st <- get_state ;;
  let failed := count_status "FAIL" (results st) in
  t <- datetime_now ;;
  write_report t ;;
  ret (failed =? 0)%nat.

Definition run_checks : M unit :=
  test_authentication ;;
  test_authorization ;;
  test_injection_attacks ;;
  test_security_headers ;;
  test_rate_limiting ;;
  test_information_disclosure ;;
  test_cors_configuration ;;
  test_ssl_configuration.

Definition run_all_tests : M bool :=
  run_checks ;;
  generate_report.

(** [main]: the exit code of the process for [--target] and [--token].
    An exception that reaches the top level ends a Python process with
    exit code 1. *)
Definition main (target : string) (token : option string) : Z :=
  match value run_all_tests (init target token) with
  | inr success => if success then 0 else 1
  | inl _ => 1
  end%Z.

End Tester.

(** ** The methods of the tester as one family *)

Inductive check :=
| Authentication
| Authorization
| InjectionAttacks
| InjectionPayload (attack_type payload field : string)
| SecurityHeaders
| RateLimiting
| InformationDisclosure
| CorsConfiguration
| SslConfiguration.

Definition run_check (w : world) (c : check) : M unit :=
  match c with
  | Authentication => test_authentication w
  | Authorization => test_authorization w
  | InjectionAttacks => test_injection_attacks w
  | InjectionPayload a p f => test_injection_payload w a p f
  | SecurityHeaders => test_security_headers w
  | RateLimiting => test_rate_limiting w
  | InformationDisclosure => test_information_disclosure w
  | CorsConfiguration => test_cors_configuration w
  | SslConfiguration => test_ssl_configuration w
  end.

Inductive operation :=
| Check (c : check)
| LogResult (test_name status details severity : string)
| GenerateExpiredToken
| GenerateReport
| RunAllTests.

Definition run_operation (w : world) (op : operation) : M unit :=
  match op with
  | Check c => run_check w c
  | LogResult n s d v => log_result w n s d v
  | GenerateExpiredToken => generate_expired_token w ;; ret tt
  | GenerateReport => generate_report w ;; ret tt
  | RunAllTests => run_all_tests w ;; ret tt
  end.

(** ** Readers for the token: the inverse directions of the encoders *)

Module PyRead.

(** [s.split(c)] for a one-character separator. *)
Fixpoint split (c : ascii) (s : string) : list string :=
  match s with
  | EmptyString => [EmptyString]
  | String a s' =>
      if Ascii.eqb a c then EmptyString :: split c s'
      else match split c s' with
           | x :: rest => String a x :: rest
           | [] => [String a EmptyString]
           end
  end.

(** position of a character in the base64url alphabet *)
Fixpoint index_from (n : N) (c : ascii) (alphabet : string) : option N :=
  match alphabet with
  | EmptyString => None
  | String a rest =>
      if Ascii.eqb a c then Some n else index_from (N.succ n) c rest
  end.

Definition sextet (c : ascii) : option N := index_from 0 c Base64.alphabet.

Definition byte (n : N) : ascii := ascii_of_N n.

(** base64url decoding of an unpadded text. *)
Fixpoint b64url_decode (s : string) : option string :=
  match s with
  | EmptyString => Some EmptyString
  | String _ EmptyString => None
  | String c0 (String c1 EmptyString) =>
      match sextet c0, sextet c1 with
      | Some i0, Some i1 =>
          Some (String (byte (i0 * 4 + i1 / 16)) EmptyString)
      | _, _ => None
      end
  | String c0 (String c1 (String c2 EmptyString)) =>
      match sextet c0, sextet c1, sextet c2 with
      | Some i0, Some i1, Some i2 =>
          Some (String (byte (i0 * 4 + i1 / 16))
                  (String (byte ((i1 mod 16) * 16 + i2 / 4)) EmptyString))
      | _, _, _ => None
      end
  | String c0 (String c1 (String c2 (String c3 rest))) =>
      match sextet c0, sextet c1, sextet c2, sextet c3, b64url_decode rest with
      | Some i0, Some i1, Some i2, Some i3, Some tail =>
          Some (String (byte (i0 * 4 + i1 / 16))
                  (String (byte ((i1 mod 16) * 16 + i2 / 4))
                     (String (byte ((i2 mod 4) * 64 + i3)) tail)))
      | _, _, _, _, _ => None
      end
  end%N.

Definition is_digit (c : ascii) : bool :=
  let n := nat_of_ascii c in ((48 <=? n)%nat && (n <=? 57)%nat)%bool.

Fixpoint skip_spaces (s : string) : string :=
  match s with
  | String c s' => if Ascii.eqb c " " then skip_spaces s' else s
  | EmptyString => EmptyString
  end.

(** the characters of a string literal, after its opening quote *)
Fixpoint read_string_body (s : string) : option (string * string) :=
  match s with
  | EmptyString => None
  | String c s' =>
      if Ascii.eqb c dquote then Some (EmptyString, s')
      else if Ascii.eqb c backslash then
        match s' with
        | String d s'' =>
            match read_string_body s'' with
            | Some (v, r) => Some (String d v, r)
            | None => None
            end
        | EmptyString => None
        end
      else
        match read_string_body s' with
        | Some (v, r) => Some (String c v, r)
        | None => None
        end
  end.

Fixpoint span_digits (s : string) : string * string :=
  match s with
  | String c s' =>
      if is_digit c
      then let (d, r) := span_digits s' in (String c d, r)
      else (EmptyString, s)
  | EmptyString => (EmptyString, EmptyString)
  end.

(** an integer literal: an optional minus sign and decimal digits *)
Definition read_int (s : string) : option (Z * string) :=
  let (sign, s1) :=
    match s with
    | String c s' => if Ascii.eqb c "-" then ("-", s') else ("", s)
    | EmptyString => ("", s)
    end in
  let (d, r) := span_digits s1 in
  match NilZero.int_of_string (sign +++ d) with
  | Some i => Some (Z.of_int i, r)
  | None => None
  end.

Definition read_value (s : string) : option (json_value * string) :=
  match s with
  | String c s' =>
      if Ascii.eqb c dquote
      then match read_string_body s' with
           | Some (v, r) => Some (JStr v, r)
           | None => None
           end
      else match read_int s with
           | Some (z, r) => Some (JInt z, r)
           | None => None
           end
  | EmptyString => None
  end.

(** the members of an object, after its opening brace, up to and
    including the closing brace *)
Fixpoint read_members (fuel : nat) (s : string) : option (json_object * string) :=
  match fuel with
  | O => None
  | S fuel' =>
      match skip_spaces s with
      | String q s1 =>
          if Ascii.eqb q dquote then
            match read_string_body s1 with
            | Some (k, s2) =>
                match skip_spaces s2 with
                | String colon s3 =>
                    if Ascii.eqb colon ":" then
                      match read_value (skip_spaces s3) with
                      | Some (v, s4) =>
                          match skip_spaces s4 with
                          | String sep s5 =>
                              if Ascii.eqb sep "," then
                                match read_members fuel' s5 with
                                | Some (ms, r) => Some ((k, v) :: ms, r)
                                | None => None
                                end
                              else if Ascii.eqb sep "}" then Some ([(k, v)], s5)
                              else None
                          | EmptyString => None
                          end
                      | None => None
                      end
                    else None
                | EmptyString => None
                end
            | None => None
            end
          else None
      | EmptyString => None
      end
  end.

(** [json.loads] on objects whose values are strings and integers. *)
Definition json_loads (s : string) : option json_object :=
  match skip_spaces s with
  | String b s1 =>
      if Ascii.eqb b "{" then
        match skip_spaces s1 with
        | String e r =>
            if Ascii.eqb e "}"
            then match skip_spaces r with
                 | EmptyString => Some []
                 | _ => None
                 end
            else match read_members (String.length s) s1 with
                 | Some (ms, r') =>
                     match skip_spaces r' with
                     | EmptyString => Some ms
                     | _ => None
                     end
                 | None => None
                 end
        | EmptyString => None
        end
      else None
  | EmptyString => None
  end.


End PyRead.

(** ** The requests of the single-request checks *)

(** the request of [test_ssl_configuration] *)
Definition ssl_probe (st : state) : request :=
  mkRequest GET (PyStr.replace "https://" "http://" (base_url st)) [] None false.

(** the request of the expired-token block *)
Definition expired_token_probe (st : state) (token : string) : request :=
  mkRequest GET (base_url st +++ "/api/v1/alerts/status")
    [("Authorization", "Bearer " +++ token)] None true.

(** the request of [test_injection_payload] *)
Definition injection_probe (st : state) (payload field : string) : request :=
  mkRequest POST (base_url st +++ "/api/v1/alerts/create") (session_headers st)
    (Some [(field, payload);
           ("scopeStartDate", "2024-01-01");
           ("scopeEndDate", "2024-01-31")]) true.

(** the request of a probe of [test_authorization] *)
Definition endpoint_probe (st : state) (endpoint : string) : request :=
  mkRequest GET (base_url st +++ endpoint) (session_headers st) None true.

(** the request of [test_security_headers] and of [test_rate_limiting] *)
Definition status_probe (st : state) : request :=
  endpoint_probe st "/api/v1/alerts/status".

(** ** Specifications of computations

    [triple c P Q E]: from any state, [c] only appends records to
    [results], each of them satisfies [P]; a returned value satisfies
    [Q], a raised exception satisfies [E]. *)

Definition triple {A} (c : M A) (P : result -> Prop) (Q : A -> Prop)
  (E : string -> Prop) : Prop :=
  forall st,
    exists l,
      results (exec c st) = results st ++ l /\
      Forall P l /\
      match value c st with
      | inr a => Q a
      | inl e => E e
      end.

Definition anything {A} : A -> Prop := fun _ => True.
Definition nothing {A} : A -> Prop := fun _ => False.

(** every request of the run raises *)
Definition unreachable (w : world) : Prop :=
  forall n r, exists e, net w n r = Raised e.

(** every probe of the rate-limiting check, started in [st], is answered *)
Definition answered (w : world) (st : state) (r : request) (n : nat) : Prop :=
  forall k, (k < n)%nat -> exists resp, net w (length (sent st) + k) r = Responded resp.

(** the status of the [k]-th request from [st] on, when it is answered *)
Definition status_at (w : world) (st : state) (r : request) (k : nat) : option Z :=
  match net w (length (sent st) + k) r with
  | Responded resp => Some (status_code resp)
  | Raised _ => None
  end.

Definition error_is_warning (r : result) : Prop :=
  status r = "ERROR" -> severity r = "WARN".

Definition not_fail (r : result) : Prop := status r <> "FAIL".

(** [response.headers.get('Location', '')] *)
Definition location (resp : response) : string :=
  headers_get_or "Location" "" (headers resp).

(** ** Concrete runs *)

Definition clock (n : nat) : Z := 1700000000123456 + Z.of_nat n.

(** a machine whose local time is UTC *)
Definition utc (s : Z) : Z := s.

(** a target that answers every request with the same response *)
Definition constant_world (resp : response) : world :=
  mkWorld (fun _ _ => Responded resp) clock (fun _ => true) utc.

(** a target that cannot be reached *)
Definition down_world : world :=
  mkWorld (fun _ _ => Raised "Connection refused") clock (fun _ => true) utc.

(** a platform whose [timestamp()] raises *)
Definition no_timestamp_world (resp : response) : world :=
  mkWorld (fun _ _ => Responded resp) clock (fun _ => false) utc.

Definition see_other_to_https : response :=
  mkResponse 303 [("Location", "https://example.com/")] "".

Definition moved_to_https : response :=
  mkResponse 301 [("Location", "https://example.com/")] "".

Definition https_tester : state := init "https://example.com" None.
Definition http_tester : state := init "http://localhost:8080/" (Some "secret").

(** ** Vocabulary of the statements *)

(** one of the keywords of [test_injection_payload] occurs in [body] *)
Definition has_error_keyword (body : string) : Prop :=
  exists keyword, In keyword error_keywords /\ PyStr.contains keyword body = true.

(** What one iteration of a loop does: it returns, appends one record and
    sends [d] requests; [R] relates the record to the number of requests
    sent before, the target and the loop variable. *)
Definition iteration {A} (body : A -> M unit) (d : nat)
  (R : nat -> string -> list (string * string) -> A -> result -> Prop) : Prop :=
  forall x st, exists r st',
    body x st = (inr tt, st') /\
    results st' = results st ++ [r] /\
    length (sent st') = (length (sent st) + d)%nat /\
    base_url st' = base_url st /\
    session_headers st' = session_headers st /\
    R (length (sent st)) (base_url st) (session_headers st) x r.

(** the record of a probe of [test_authorization], sent as request [n] *)
Definition endpoint_verdict (w : world) (n : nat) (base : string)
  (hdrs : list (string * string)) (endpoint : string) (r : result) : Prop :=
  test r = "Sensitive Endpoint " +++ endpoint /\
  forall resp,
    net w n (mkRequest GET (base +++ endpoint) hdrs None true) = Responded resp ->
    (In (status_code resp) [401; 403; 404]%Z -> status r = "PASS") /\
    (~ In (status_code resp) [401; 403; 404]%Z -> status r = "FAIL").

(** the value [v] of a header is the expected one *)
Definition header_matches (v : string) (expected : expected_value) : Prop :=
  match expected with
  | ExpectNone => True
  | ExpectStr e => v = e
  | ExpectList vs => In v vs
  end.

(** the record of [check_header] for an entry of the table *)
Definition header_verdict (resp : response) (n : nat) (base : string)
  (hdrs : list (string * string)) (item : string * expected_value)
  (r : result) : Prop :=
  test r = "Security Header " +++ fst item /\
  (headers_get (fst item) (headers resp) = None -> status r = "FAIL") /\
  (forall v, headers_get (fst item) (headers resp) = Some v ->
     (header_matches v (snd item) -> status r = "PASS") /\
     (~ header_matches v (snd item) -> status r = "WARN")).

(** a text that does not go on with a digit *)
Definition ends_number (rest : string) : Prop :=
  match rest with
  | EmptyString => True
  | String c _ => PyRead.is_digit c = false
  end.

(** every character is a decimal digit *)
Fixpoint all_digits (s : string) : Prop :=
  match s with
  | EmptyString => True
  | String c s' => PyRead.is_digit c = true /\ all_digits s'
  end.


Definition unauthorized : response := mkResponse 401 [] "".

Definition ok_with_stack_trace : response :=
  mkResponse 200 [] "Internal Server Error: java.lang.Exception".

Definition ok_plain : response := mkResponse 200 [] "created".

(** a body whose keyword shows once the text is lowercased: the Kelvin
    sign U+212A, written here for the K, lowers to k *)
Definition ok_with_kelvin_sign : response :=
  mkResponse 200 [] "STACK TRACE".

Definition too_many_requests : response := mkResponse 429 [] "".

Definition failed_result : result :=
  mkResult 0 "Auth Without Token" "FAIL" "Endpoint exposto" "FAIL".

Definition with_results (st : state) (rs : list result) : state :=
  set_results st rs.

(** the token generated at the first two readings of [clock] *)
Definition sample_token : string :=
  expired_token
    (int_timestamp down_world (clock 0 - 1 * hour))
    (int_timestamp down_world (clock 1 - 2 * hour)).

(** ** Vocabulary of the further properties *)

(** [c] leaves the configuration of the tester and the report files as
    they are, only adds to the log of requests and only advances the
    clock. *)
Definition quiet {A} (c : M A) : Prop :=
  forall st,
    base_url (exec c st) = base_url st /\
    auth_token (exec c st) = auth_token st /\
    session_headers (exec c st) = session_headers st /\
    files (exec c st) = files st /\
    (clock_reads st <= clock_reads (exec c st))%nat /\
    exists q, sent (exec c st) = sent st ++ q.

(** the labels [log_result] is called with: status and severity agree on
    PASS, FAIL, WARN and INFO, and status ERROR goes with severity WARN *)
Definition well_labelled (r : result) : Prop :=
  (status r = severity r /\ In (status r) ["PASS"; "FAIL"; "WARN"; "INFO"]) \/
  (status r = "ERROR" /\ severity r = "WARN").

(** [c * n] *)
Fixpoint replicate (c : ascii) (n : nat) : string :=
  match n with
  | O => EmptyString
  | S k => String c (replicate c k)
  end.

(** the request of the first block of [test_authentication] *)
Definition anonymous_probe (st : state) : request :=
  mkRequest GET (base_url st +++ "/api/v1/alerts/status") [] None true.

(** the record of [auth_malformed_token] for a token, sent as request [n] *)
Definition malformed_verdict (w : world) (n : nat) (base : string)
  (hdrs : list (string * string)) (token : string) (r : result) : Prop :=
  let rq := mkRequest GET (base +++ "/api/v1/alerts/status")
              [("Authorization", "Bearer " +++ token)] None true in
  (forall resp,
      net w n rq = Responded resp ->
      test r = "Malformed Token (" +++ PyStr.take 20 token +++ "...)" /\
      (status_code resp = 401%Z -> status r = "PASS") /\
      (status_code resp <> 401%Z -> status r = "FAIL")) /\
  (forall e,
      net w n rq = Raised e ->
      test r = "Malformed Token" /\ status r = "ERROR" /\ details r = e).

(** the keywords of [test_information_disclosure] that occur in a body,
    in the order of the table *)
Definition found_sensitive (resp : response) : list string :=
  filter (fun kw => PyStr.contains kw (PyStr.lower (text resp))) sensitive_keywords.

(** the record of [probe_info_endpoint], sent as request [n] *)
Definition info_verdict (w : world) (n : nat) (base : string)
  (hdrs : list (string * string)) (endpoint : string) (r : result) : Prop :=
  test r = "Info Disclosure " +++ endpoint /\
  status r <> "FAIL" /\
  forall resp,
    net w n (mkRequest GET (base +++ endpoint) [] None true) = Responded resp ->
    (status_code resp = 200%Z -> found_sensitive resp <> [] ->
     status r = "WARN" /\
     details r = "Possível vazamento: " +++ PyStr.join ", " (found_sensitive resp)) /\
    (status_code resp = 200%Z -> found_sensitive resp = [] -> status r = "PASS") /\
    (status_code resp <> 200%Z -> status r = "PASS").

(** the request of a probe of [test_information_disclosure] *)
Definition info_probe (st : state) (endpoint : string) : request :=
  mkRequest GET (base_url st +++ endpoint) [] None true.

(** the attack type and payload of each call of [test_injection_payload]
    by [test_injection_attacks], in calling order *)
Definition injection_cases : list (string * string) :=
  map (pair "SQL Injection") sql_payloads
  ++ map (pair "XSS") xss_payloads
  ++ map (pair "Command Injection") cmd_payloads.

(** the record of a call of [test_injection_payload], sent as request [n] *)
Definition injection_verdict (w : world) (n : nat) (base : string)
  (hdrs : list (string * string)) (case : string * string) (r : result) : Prop :=
  let rq := mkRequest POST (base +++ "/api/v1/alerts/create") hdrs
              (Some [("customerDocument", snd case);
                     ("scopeStartDate", "2024-01-01");
                     ("scopeEndDate", "2024-01-31")]) true in
  (forall resp,
      net w n rq = Responded resp ->
      test r = fst case +++ " (" +++ PyStr.take 30 (snd case) +++ "...)" /\
      (status_code resp = 400%Z \/ status_code resp = 422%Z -> status r = "PASS") /\
      (status_code resp = 200%Z ->
       has_error_keyword (PyStr.lower (text resp)) -> status r = "WARN") /\
      (status_code resp = 200%Z ->
       ~ has_error_keyword (PyStr.lower (text resp)) -> status r = "FAIL") /\
      (status_code resp <> 400%Z -> status_code resp <> 422%Z ->
       status_code resp <> 200%Z -> status r = "INFO")) /\
  (forall e,
      net w n rq = Raised e ->
      test r = fst case +++ " Payload Test" /\ status r = "ERROR" /\ details r = e).

(** the preflight request of [test_cors_configuration] for an origin *)
Definition cors_probe (st : state) (origin : string) : request :=
  mkRequest OPTIONS (base_url st +++ "/api/v1/alerts/create")
    [("Origin", origin);
     ("Access-Control-Request-Method", "POST");
     ("Access-Control-Request-Headers", "Authorization,Content-Type")]
    None true.

(** the response allows the origin: it echoes it or answers "*" *)
Definition origin_allowed (resp : response) (origin : string) : Prop :=
  headers_get "Access-Control-Allow-Origin" (headers resp) = Some origin \/
  headers_get "Access-Control-Allow-Origin" (headers resp) = Some "*".

(** the record of [probe_origin] for an answered request *)
Definition cors_verdict (resp : response) (origin : string) (r : result) : Prop :=
  test r = "CORS Origin " +++ origin /\
  (origin_allowed resp origin -> status r = "FAIL") /\
  (~ origin_allowed resp origin -> status r = "PASS").

(** the requests of the loop from the one numbered [length (sent st)]
    on are answered for the first [k] entries of [l] *)
Definition origins_answered (w : world) (st : state) (l : list string) (k : nat)
  : Prop :=
  forall j origin,
    (j < k)%nat -> nth_error l j = Some origin ->
    exists resp, net w (length (sent st) + j) (cors_probe st origin) = Responded resp.

(** From a state whose base URL is [b], [c] returns normally, keeps the
    base URL, appends between [rlo] and [rhi] records and sends between
    [qlo] and [qhi] requests. *)
Definition summary {A} (b : string) (c : M A) (rlo rhi qlo qhi : nat) : Prop :=
  forall st,
    base_url st = b ->
    exists a st',
      c st = (inr a, st') /\
      base_url st' = b /\
      (length (results st) + rlo <= length (results st')
       <= length (results st) + rhi)%nat /\
      (length (sent st) + qlo <= length (sent st')
       <= length (sent st) + qhi)%nat.

(** every request of the run is answered *)
Definition reachable (w : world) : Prop :=
  forall n r, exists resp, net w n r = Responded resp.

(** the platform converts every clock reading *)
Definition timestamps_ok (w : world) : Prop :=
  forall t, timestamp_ok w t = true.

(** [all(p(c) for c in s)] *)
Fixpoint all_chars (p : ascii -> bool) (s : string) : bool :=
  match s with
  | EmptyString => true
  | String c s' => (p c && all_chars p s')%bool
  end.

(** a character of the base64url alphabet, or the dot between segments *)
Definition token_char (c : ascii) : bool :=
  (Ascii.eqb c "." ||
   match PyRead.sextet c with
   | Some _ => true
   | None => false
   end)%bool.

(** base64url-decode a segment and read it as JSON *)
Definition read_segment (segment : string) : option json_object :=
  match PyRead.b64url_decode segment with
  | Some text => PyRead.json_loads text
  | None => None
  end.

(** the [exp] and [iat] values [generate_expired_token] computes from the
    two clock readings it makes in [st] *)
Definition exp_at (w : world) (st : state) : Z :=
  int_timestamp w (now w (clock_reads st) - 1 * hour).

Definition iat_at (w : world) (st : state) : Z :=
  int_timestamp w (now w (S (clock_reads st)) - 2 * hour).


(** the machine reads the local times [a] and [b] with the same UTC
    offset *)
Definition same_offset (w : world) (a b : Z) : Prop :=
  (local_to_posix w (a / microseconds_per_second) - a / microseconds_per_second
   = local_to_posix w (b / microseconds_per_second) - b / microseconds_per_second)%Z.

(** the POSIX second of the local time [t] is among the whole numbers
    that a float holds exactly; the seconds of the years 1 to 9999 are
    below 2 ^ 38 *)
Definition float_exact (w : world) (t : Z) : Prop :=
  (- 2 ^ 52 <= local_to_posix w (t / microseconds_per_second) <= 2 ^ 52)%Z.




(** a machine on UTC whose clock stands at 3000-01-01T01:00:00.999999:
    so late that the float of a timestamp no longer keeps the
    microseconds apart *)
Definition late_clock (n : nat) : Z := 32503683600999999.

Definition far_future_world (resp : response) : world :=
  mkWorld (fun _ _ => Responded resp) late_clock (fun _ => true) utc.

(** a target that answers the first [k] requests of a run and is gone
    afterwards *)
Definition failing_from (k : nat) (resp : response) : world :=
  mkWorld (fun n _ => if (n <? k)%nat then Responded resp
                      else Raised "Connection reset")
          clock (fun _ => true) utc.

Definition allows_everyone : response :=
  mkResponse 200 [("access-control-allow-origin", "*")] "".

Definition leaks_password : response :=
  mkResponse 200 [] "db.password=hunter2; spring.datasource.username=sa".

(** "API KEY" written with the Kelvin sign U+212A for the K *)
Definition leaks_kelvin_key : response :=
  mkResponse 200 [] "API KEY=abc".

(** The records of [st] were stamped in the order they stand in: their
    timestamps are clock readings of the run, taken one after the other
    and before the readings still to come. *)
Definition stamped (w : world) (st : state) : Prop :=
  exists readings,
    map timestamp (results st) = map (now w) readings /\
    StronglySorted lt readings /\
    Forall (fun i => (i < clock_reads st)%nat) readings.

(** [c] keeps [stamped] *)
Definition keeps_stamped (w : world) {A} (c : M A) : Prop :=
  forall st, stamped w st -> stamped w (exec c st).

(** [st] with another token and other session headers *)
Definition with_session (st : state) (token : option string)
  (hdrs : list (string * string)) : state :=
  mkState (base_url st) token hdrs (results st) (sent st) (clock_reads st)
          (files st).

(** [c] does not look at the token or at the session headers, and leaves
    them alone *)
Definition session_blind {A} (c : M A) : Prop :=
  forall st token hdrs,
    c (with_session st token hdrs)
    = (fst (c st), with_session (snd (c st)) token hdrs).

(** the checks that go through [self.session] *)
Definition uses_session (c : check) : bool :=
  match c with
  | Authorization | InjectionAttacks | InjectionPayload _ _ _
  | SecurityHeaders | RateLimiting => true
  | Authentication | InformationDisclosure | CorsConfiguration
  | SslConfiguration => false
  end.



(** * Proofs *)

(** ** Rules for [triple] *)

Lemma skipn_length_app {A} (l1 l2 : list A) : skipn (length l1) (l1 ++ l2) = l2.
Proof. induction l1; simpl; auto. Qed.

Lemma appended_of_extension {A} (c : M A) st l :
  results (exec c st) = results st ++ l -> appended c st = l.
Proof. unfold appended. intros ->. apply skipn_length_app. Qed.

Lemma issued_of_extension {A} (c : M A) st l :
  sent (exec c st) = sent st ++ l -> issued c st = l.
Proof. unfold issued. intros ->. apply skipn_length_app. Qed.

Section Rules.

Variable w : world.
Variable P : result -> Prop.

Lemma triple_ret {A} (a : A) (Q : A -> Prop) E : Q a -> triple (ret a) P Q E.
Proof.
  intros HQ st. exists []. unfold exec, value, ret; simpl.
  rewrite app_nil_r. auto.
Qed.

Lemma triple_bind {A B} (c : M A) (k : A -> M B) Q1 Q2 E :
  triple c P Q1 E ->
  (forall a, Q1 a -> triple (k a) P Q2 E) ->
  triple (bind c k) P Q2 E.
Proof.
  intros Hc Hk st. destruct (Hc st) as (l1 & Hr & Hf & Hv).
  unfold exec, value, bind in *.
  destruct (c st) as [[e | a] st1]; simpl in *.
  - exists l1. auto.
  - destruct (Hk a Hv st1) as (l2 & Hr2 & Hf2 & Hv2).
    unfold exec, value in *.
    exists (l1 ++ l2). rewrite Hr2, Hr, app_assoc.
    split; [reflexivity | split; [apply Forall_app; auto | exact Hv2]].
Qed.

Lemma triple_bind_any {A B} (c : M A) (k : A -> M B) Q E :
  triple c P anything E ->
  (forall a, triple (k a) P Q E) ->
  triple (bind c k) P Q E.
Proof. intros Hc Hk. eapply triple_bind; eauto. Qed.

Lemma triple_bind_nothing {A B} (c : M A) (k : A -> M B) Q E :
  triple c P nothing E -> triple (bind c k) P Q E.
Proof. intros Hc. eapply triple_bind; [exact Hc | intros a []]. Qed.

Lemma triple_try {A} (c : M A) (h : string -> M A) Q E :
  triple c P Q anything ->
  (forall e, triple (h e) P Q E) ->
  triple (try_catch c h) P Q E.
Proof.
  intros Hc Hh st. destruct (Hc st) as (l1 & Hr & Hf & Hv).
  unfold exec, value, try_catch in *.
  destruct (c st) as [[e | a] st1]; simpl in *.
  - destruct (Hh e st1) as (l2 & Hr2 & Hf2 & Hv2).
    unfold exec, value in *.
    exists (l1 ++ l2). rewrite Hr2, Hr, app_assoc.
    split; [reflexivity | split; [apply Forall_app; auto | exact Hv2]].
  - exists l1. auto.
Qed.

Lemma triple_weaken {A} (c : M A) (Q Q' : A -> Prop) (E E' : string -> Prop) :
  triple c P Q E ->
  (forall a, Q a -> Q' a) -> (forall e, E e -> E' e) ->
  triple c P Q' E'.
Proof.
  intros Hc HQ HE st. destruct (Hc st) as (l & Hr & Hf & Hv).
  exists l. repeat split; auto.
  destruct (value c st); auto.
Qed.

Lemma triple_get_state E : triple get_state P anything E.
Proof.
  intros st. exists []. unfold exec, value, get_state, anything; simpl.
  rewrite app_nil_r. auto.
Qed.

Lemma triple_self_base_url E : triple self_base_url P anything E.
Proof.
  intros st. exists []. unfold exec, value, anything; simpl.
  rewrite app_nil_r. auto.
Qed.

Lemma triple_datetime_now E : triple (datetime_now w) P anything E.
Proof.
  intros st. exists []. unfold exec, value, anything; simpl.
  rewrite app_nil_r. auto.
Qed.

Lemma triple_timestamp_int t : triple (timestamp_int w t) P anything anything.
Proof.
  intros st. exists []. unfold exec, value, timestamp_int, anything.
  destruct (timestamp_ok w t); simpl; rewrite app_nil_r; auto.
Qed.

Lemma triple_send r : triple (send w r) P anything anything.
Proof.
  intros st. exists []. unfold exec, value, send, anything.
  destruct (net w _ r); simpl; rewrite app_nil_r; auto.
Qed.

Lemma triple_send_unreachable r :
  unreachable w -> triple (send w r) P nothing anything.
Proof.
  intros Hw st. exists []. unfold exec, value, send, anything.
  destruct (Hw (length (sent st)) r) as [e ->]; simpl.
  rewrite app_nil_r; auto.
Qed.

Lemma triple_results_append r E :
  P r -> triple (results_append r) P anything E.
Proof.
  intros Hr st. exists [r]. unfold exec, value, anything; simpl. auto.
Qed.

Lemma triple_log n s d v E :
  (forall t, P (mkResult t n s d v)) ->
  triple (log_result w n s d v) P anything E.
Proof.
  intros H. unfold log_result. apply triple_bind_any.
  - apply triple_datetime_now.
  - intros t. apply triple_results_append, H.
Qed.

Lemma triple_write_report t E : triple (write_report t) P anything E.
Proof.
  intros st. exists []. unfold exec, value, anything; simpl.
  rewrite app_nil_r. auto.
Qed.

Lemma triple_for_each {A} (l : list A) (body : A -> M unit) E :
  (forall x, triple (body x) P anything E) ->
  triple (for_each l body) P anything E.
Proof.
  intros Hb. induction l as [| x l IH]; simpl.
  - apply triple_ret. exact I.
  - apply triple_bind_any; auto.
Qed.

Lemma triple_for_fold {A B} (l : list A) (acc : B) (body : A -> B -> M B) E :
  (forall x a, triple (body x a) P anything E) ->
  triple (for_fold l acc body) P anything E.
Proof.
  intros Hb. revert acc. induction l as [| x l IH]; intros acc; simpl.
  - apply triple_ret. exact I.
  - apply triple_bind_any; auto.
Qed.

End Rules.

(** One step of a syntax-directed proof of a [triple] whose result is
    unconstrained; [log] settles the obligation on a logged record. *)
Ltac triple_step log :=
  cbv beta zeta;
  match goal with
  | |- triple (ret _) _ anything _ => apply triple_ret; exact I
  | |- triple (log_result _ _ _ _ _) _ _ _ => apply triple_log; log
  | |- triple (try_catch _ _) _ _ _ => apply triple_try; [ | intros ? ]
  | |- triple (for_each _ _) _ _ _ => apply triple_for_each; intros ?
  | |- triple (for_fold _ _ _) _ _ _ => apply triple_for_fold; intros ? ?
  | |- triple (bind _ _) _ _ _ => apply triple_bind_any; [ | intros ? ]
  | |- triple get_state _ _ _ => apply triple_get_state
  | |- triple self_base_url _ _ _ => apply triple_self_base_url
  | |- triple (datetime_now _) _ _ _ => apply triple_datetime_now
  | |- triple (timestamp_int _ _) _ _ _ => apply triple_timestamp_int
  | |- triple (write_report _) _ _ _ => apply triple_write_report
  | |- triple (send _ _) _ _ _ => apply triple_send
  | |- triple (requests_get _ _ _ _) _ _ _ => unfold requests_get
  | |- triple (requests_options _ _ _) _ _ _ => unfold requests_options
  | |- triple (session_get _ _) _ _ _ => unfold session_get
  | |- triple (session_post _ _ _) _ _ _ => unfold session_post
  | |- triple (if ?b then _ else _) _ _ _ => destruct b
  | |- triple (match ?x with _ => _ end) _ _ _ => destruct x
  end.

Ltac unfold_checks :=
  unfold run_all_tests, run_checks, generate_report,
    test_authentication, auth_without_token, auth_malformed_token,
    auth_expired_token, generate_expired_token,
    test_authorization, probe_sensitive_endpoint,
    test_injection_attacks, test_injection_payload,
    test_security_headers, check_header,
    test_rate_limiting, rate_limit_probe,
    test_information_disclosure, probe_info_endpoint,
    test_cors_configuration, probe_origin,
    test_ssl_configuration.

Ltac triple_auto log := unfold_checks; repeat triple_step log.

(** ** Every method only appends *)

Section AppendOnly.

Variable w : world.

Lemma check_appends c : triple (run_check w c) anything anything nothing.
Proof.
  destruct c; simpl; triple_auto ltac:(intros; exact I).
Qed.

Lemma run_checks_appends : triple (run_checks w) anything anything nothing.
Proof. triple_auto ltac:(intros; exact I). Qed.

Lemma generate_report_appends : triple (generate_report w) anything anything nothing.
Proof. triple_auto ltac:(intros; exact I). Qed.

Lemma operation_appends op : triple (run_operation w op) anything anything nothing.
Proof.
  destruct op; simpl.
  - apply check_appends.
  - triple_auto ltac:(intros; exact I).
  - triple_auto ltac:(intros; exact I).
  - apply triple_bind_any; [apply generate_report_appends | intros; apply triple_ret; exact I].
  - unfold run_all_tests. triple_step idtac. triple_step idtac.
    + apply run_checks_appends.
    + apply generate_report_appends.
    + triple_step idtac.
Qed.

End AppendOnly.

(** ** Records logged by the exception handlers *)

Lemma check_error_is_warning w c :
  triple (run_check w c) error_is_warning anything nothing.
Proof.
  destruct c; simpl;
    triple_auto ltac:(intros ? H; simpl in H; first [reflexivity | discriminate H]).
Qed.

Section Down.

Variable w : world.
Hypothesis down : unreachable w.

Lemma requests_get_down P url h a :
  triple (requests_get w url h a) P nothing anything.
Proof. apply triple_send_unreachable, down. Qed.

Lemma requests_options_down P url h :
  triple (requests_options w url h) P nothing anything.
Proof. apply triple_send_unreachable, down. Qed.

Lemma session_get_down P url : triple (session_get w url) P nothing anything.
Proof.
  unfold session_get. eapply triple_bind.
  - apply triple_get_state.
  - intros st _. apply triple_send_unreachable, down.
Qed.

Lemma session_post_down P url data :
  triple (session_post w url data) P nothing anything.
Proof.
  unfold session_post. eapply triple_bind.
  - apply triple_get_state.
  - intros st _. apply triple_send_unreachable, down.
Qed.

Ltac down_step log :=
  cbv beta zeta;
  match goal with
  | |- triple (bind (requests_get _ _ _ _) _) _ _ _ =>
      apply triple_bind_nothing, requests_get_down
  | |- triple (bind (requests_options _ _ _) _) _ _ _ =>
      apply triple_bind_nothing, requests_options_down
  | |- triple (bind (session_get _ _) _) _ _ _ =>
      apply triple_bind_nothing, session_get_down
  | |- triple (bind (session_post _ _ _) _) _ _ _ =>
      apply triple_bind_nothing, session_post_down
  | _ => triple_step log
  end.

Lemma run_checks_down : triple (run_checks w) not_fail anything nothing.
Proof.
  unfold_checks;
    repeat down_step ltac:(intros ?; unfold not_fail; simpl; discriminate).
Qed.

End Down.

(** ** The report *)

Lemma count_status_zero s rs :
  count_status s rs = 0%nat <-> (forall r, In r rs -> status r <> s).
Proof.
  unfold count_status. induction rs as [| r rs IH]; simpl.
  - split; [intros _ r [] | reflexivity].
  - destruct (String.eqb_spec (status r) s) as [Heq | Hne]; simpl.
    + split; [discriminate | intros H; exfalso; exact (H r (or_introl eq_refl) Heq)].
    + rewrite IH. split.
      * intros H r' [<- | Hin]; auto.
      * intros H r' Hin. apply H. now right.
Qed.

Lemma generate_report_value w st :
  value (generate_report w) st
  = inr (count_status "FAIL" (results st) =? 0)%nat.
Proof. reflexivity. Qed.

Lemma generate_report_exec w st :
  exec (generate_report w) st
  = set_files (set_clock_reads st (S (clock_reads st)))
      (files st ++ [mkReport (now w (clock_reads st)) (results st)]).
Proof. reflexivity. Qed.

Lemma run_checks_returns w st : value (run_checks w) st = inr tt.
Proof.
  destruct (run_checks_appends w st) as (l & _ & _ & Hv).
  destruct (value (run_checks w) st) as [e | []]; [destruct Hv | reflexivity].
Qed.

Lemma run_all_tests_value w st :
  value (run_all_tests w) st
  = value (generate_report w) (exec (run_checks w) st).
Proof.
  pose proof (run_checks_returns w st) as Hv.
  unfold run_all_tests, value, exec, bind in *.
  destruct (run_checks w st) as [[e | u] st1]; simpl in *; [discriminate | reflexivity].
Qed.

(** C1. [generate_report] returns true exactly when no record of the
    results list has status FAIL (records with any other status do not
    count), it always returns, and the exit code of [main] is 0 when
    [generate_report], run after the eight checks, returns true and 1
    when it returns false. *)
Theorem generate_report_true_iff_no_fail (w : world) :
  (forall st, exists b,
      value (generate_report w) st = inr b /\
      (b = true <-> (forall r, In r (results st) -> status r <> "FAIL"))) /\
  (forall target token, exists b,
      value (generate_report w) (exec (run_checks w) (init target token)) = inr b /\
      value (run_all_tests w) (init target token) = inr b /\
      main w target token = (if b then 0 else 1)%Z).
Proof.
  split.
  - intros st. eexists. split; [apply generate_report_value |].
    rewrite Nat.eqb_eq. apply count_status_zero.
  - intros target token. eexists. split; [apply generate_report_value |].
    split.
    + rewrite run_all_tests_value. apply generate_report_value.
    + unfold main. rewrite run_all_tests_value, generate_report_value.
      reflexivity.
Qed.

(** C9. The results list is append-only: every operation of the tester
    leaves the records already in the list in place and in order, and at
    most adds records at the end; [generate_report] adds none and writes
    the list, in its order, to the report file. *)
Theorem results_append_only (w : world) :
  (forall op st,
      results (exec (run_operation w op) st)
      = results st ++ appended (run_operation w op) st) /\
  (forall st,
      results (exec (generate_report w) st) = results st /\
      files (exec (generate_report w) st)
      = files st ++ [mkReport (now w (clock_reads st)) (results st)]).
Proof.
  split.
  - intros op st. destruct (operation_appends w op st) as (l & Hr & _).
    rewrite (appended_of_extension _ _ _ Hr). exact Hr.
  - intros st. rewrite generate_report_exec. split; reflexivity.
Qed.

(** C10. Every record that a check appends with status ERROR has
    severity WARN; and when every request of a run fails in transport,
    no record with status FAIL is appended: from results without a FAIL
    record [run_all_tests] returns true, and the process exits with 0. *)
Theorem error_records_have_warn_severity (w : world) :
  (forall c st r,
      In r (appended (run_check w c) st) ->
      status r = "ERROR" -> severity r = "WARN") /\
  (unreachable w ->
   (forall st,
       (forall r, In r (results st) -> status r <> "FAIL") ->
       value (run_all_tests w) st = inr true) /\
   (forall target token, main w target token = 0%Z)).
Proof.
  split.
  - intros c st r Hin.
    destruct (check_error_is_warning w c st) as (l & Hr & Hf & _).
    rewrite (appended_of_extension _ _ _ Hr) in Hin.
    rewrite Forall_forall in Hf. exact (Hf r Hin).
  - intros Hdown.
    assert (Hall : forall st,
               (forall r, In r (results st) -> status r <> "FAIL") ->
               value (run_all_tests w) st = inr true).
    { intros st Hst.
      rewrite run_all_tests_value, generate_report_value. f_equal.
      apply Nat.eqb_eq, count_status_zero.
      destruct (run_checks_down w Hdown st) as (l & Hr & Hf & _).
      rewrite Hr. intros r Hin. apply in_app_or in Hin as [Hin | Hin].
      - now apply Hst.
      - rewrite Forall_forall in Hf. exact (Hf r Hin). }
    split; [exact Hall |].
    intros target token. unfold main. rewrite Hall; [reflexivity |].
    intros r [].
Qed.

(** ** Running a check on a given outcome *)

Ltac run_code :=
  cbv beta iota zeta delta
    [exec value bind ret raise try_catch get_state self_base_url
     datetime_now results_append log_result send
     requests_get requests_options session_get session_post
     fst snd negb].

Lemma appended_run {A} (c : M A) st v st' l :
  c st = (v, st') -> results st' = results st ++ l -> appended c st = l.
Proof.
  intros Hc Hr. apply appended_of_extension. unfold exec. now rewrite Hc.
Qed.

Lemma issued_run {A} (c : M A) st v st' l :
  c st = (v, st') -> sent st' = sent st ++ l -> issued c st = l.
Proof.
  intros Hc Hr. apply issued_of_extension. unfold exec. now rewrite Hc.
Qed.

(** ** The TLS check *)

(** C2, as the code has it.  When the base URL does not start with
    https://, the check sends nothing and appends one WARN record.  When
    it does, the check sends one request to the http:// address, and for
    every response: status 301, 302, 307 or 308 with a Location header
    that starts with https:// gives a PASS record; every other response
    (other status, other 30x included, or other Location) gives a FAIL
    record. *)
Theorem ssl_check_classification (w : world) (st : state) :
  (PyStr.startswith (base_url st) "https://" = false ->
   issued (test_ssl_configuration w) st = [] /\
   exists r, appended (test_ssl_configuration w) st = [r] /\
             status r = "WARN" /\ severity r = "WARN") /\
  (PyStr.startswith (base_url st) "https://" = true ->
   issued (test_ssl_configuration w) st = [ssl_probe st] /\
   forall resp,
     net w (length (sent st)) (ssl_probe st) = Responded resp ->
     exists r,
       appended (test_ssl_configuration w) st = [r] /\
       (In (status_code resp) [301; 302; 307; 308]%Z /\
        PyStr.startswith (location resp) "https://" = true ->
        status r = "PASS") /\
       (~ (In (status_code resp) [301; 302; 307; 308]%Z /\
           PyStr.startswith (location resp) "https://" = true) ->
        status r = "FAIL")).
Proof.
  split; intros Hurl.
  - assert (Hrun : test_ssl_configuration w st =
      (inr tt, set_results (set_clock_reads st (S (clock_reads st)))
         (results st ++ [mkResult (now w (clock_reads st)) "SSL Configuration"
            "WARN" "Aplicação não está usando HTTPS" "WARN"]))).
    { unfold test_ssl_configuration. run_code. rewrite Hurl. reflexivity. }
    split.
    + eapply issued_run; [exact Hrun | simpl; now rewrite app_nil_r].
    + eexists. split; [eapply appended_run; [exact Hrun | reflexivity] |].
      split; reflexivity.
  - split.
    + unfold issued, exec, test_ssl_configuration. run_code. rewrite Hurl.
      cbv iota. fold (ssl_probe st).
      destruct (net w (length (sent st)) (ssl_probe st)) as [resp | e].
      * destruct (existsb _ _);
          [destruct (PyStr.startswith (headers_get_or _ _ _) _) |];
          simpl; apply skipn_length_app.
      * simpl; apply skipn_length_app.
    + intros resp Hnet.
      unfold appended, exec, test_ssl_configuration. run_code. rewrite Hurl.
      cbv iota. fold (ssl_probe st). rewrite Hnet. fold (location resp).
      unfold redirect_statuses.
      destruct (existsb (Z.eqb (status_code resp)) [301; 302; 307; 308]%Z) eqn:Hst.
      * apply existsb_exists in Hst as (x & Hin & Heq).
        apply Z.eqb_eq in Heq. subst x.
        destruct (PyStr.startswith (location resp) "https://") eqn:Hloc;
          simpl; rewrite skipn_length_app; eexists; (split; [reflexivity |]);
          split; intros H; try reflexivity.
        -- exfalso; apply H; auto.
        -- destruct H as [_ H]; discriminate H.
      * simpl; rewrite skipn_length_app; eexists; (split; [reflexivity |]);
          split; intros H; try reflexivity.
        destruct H as [Hin _].
        assert (existsb (Z.eqb (status_code resp)) [301; 302; 307; 308]%Z = true).
        { apply existsb_exists. exists (status_code resp).
          split; [exact Hin | apply Z.eqb_refl]. }
        congruence.
Qed.

(** A 303 redirect whose Location starts with https:// is recorded as
    FAIL, not PASS. *)
Lemma ssl_303_https_location_is_fail :
  PyStr.startswith (base_url https_tester) "https://" = true /\
  net (constant_world see_other_to_https) (length (sent https_tester))
      (ssl_probe https_tester) = Responded see_other_to_https /\
  status_code see_other_to_https = 303%Z /\
  PyStr.startswith (location see_other_to_https) "https://" = true /\
  map status
    (appended (test_ssl_configuration (constant_world see_other_to_https))
       https_tester) = ["FAIL"].
Proof. repeat split. Qed.

Lemma ssl_check_classification_witness :
  (exists r,
      appended (test_ssl_configuration (constant_world moved_to_https))
        https_tester = [r] /\ status r = "PASS") /\
  (exists r,
      appended (test_ssl_configuration (constant_world moved_to_https))
        http_tester = [r] /\ status r = "WARN").
Proof.
  split.
  - destruct (proj2 (ssl_check_classification (constant_world moved_to_https)
                       https_tester) eq_refl) as [_ H].
    destruct (H moved_to_https eq_refl) as (r & Hr & Hpass & _).
    exists r. split; [exact Hr |]. apply Hpass. split; [| reflexivity].
    simpl. auto.
  - destruct (proj1 (ssl_check_classification (constant_world moved_to_https)
                       http_tester) eq_refl) as [_ (r & Hr & Hs & _)].
    exists r. split; [exact Hr | exact Hs].
Defined.

(** ** Loops that append one record per iteration *)

Lemma for_each_records {A} (body : A -> M unit) d R :
  iteration body d R ->
  forall l st, exists rs st',
    for_each l body st = (inr tt, st') /\
    results st' = results st ++ rs /\
    length (sent st') = (length (sent st) + d * length l)%nat /\
    base_url st' = base_url st /\
    session_headers st' = session_headers st /\
    length rs = length l /\
    forall k x, nth_error l k = Some x ->
      exists r, nth_error rs k = Some r /\
        R (length (sent st) + d * k)%nat (base_url st) (session_headers st) x r.
Proof.
  intros Hbody. induction l as [| x l IH]; intros st.
  - exists [], st. simpl. rewrite app_nil_r, Nat.mul_0_r, Nat.add_0_r.
    repeat split. intros [| k] y H; discriminate H.
  - destruct (Hbody x st) as (r & st1 & Hrun & Hres & Hsent & Hbase & Hhdr & HR).
    destruct (IH st1)
      as (rs & st2 & Hrun2 & Hres2 & Hsent2 & Hbase2 & Hhdr2 & Hlen & Hnth).
    exists (r :: rs), st2. simpl. unfold bind. rewrite Hrun, Hrun2.
    split; [reflexivity |].
    split; [rewrite Hres2, Hres, <- app_assoc; reflexivity |].
    split; [rewrite Hsent2, Hsent; lia |].
    split; [congruence |]. split; [congruence |].
    split; [simpl; congruence |].
    intros [| k] y Hy; simpl in Hy.
    + injection Hy as <-. exists r. split; [reflexivity |].
      now rewrite Nat.mul_0_r, Nat.add_0_r.
    + destruct (Hnth k y Hy) as (r' & Hr' & HR').
      exists r'. split; [exact Hr' |].
      rewrite Hsent, Hbase, Hhdr in HR'.
      replace (length (sent st) + d * S k)%nat
        with (length (sent st) + d + d * k)%nat by lia.
      exact HR'.
Qed.

Ltac iteration_done :=
  do 2 eexists; (split; [reflexivity |]); simpl;
  rewrite ?length_app; simpl; rewrite ?Nat.add_0_r;
  do 5 (split; [reflexivity |]).

Lemma existsb_Zeqb x l : existsb (Z.eqb x) l = true <-> In x l.
Proof.
  rewrite existsb_exists. split.
  - intros (y & Hin & Heq). apply Z.eqb_eq in Heq. now subst.
  - intros Hin. exists x. split; [exact Hin | apply Z.eqb_refl].
Qed.

Lemma existsb_Zeqb_false x l : existsb (Z.eqb x) l = false <-> ~ In x l.
Proof.
  rewrite <- existsb_Zeqb.
  destruct (existsb (Z.eqb x) l); split; intros H; congruence.
Qed.

Lemma existsb_keyword body :
  existsb (fun keyword => PyStr.contains keyword body) error_keywords = true
  <-> has_error_keyword body.
Proof. apply existsb_exists. Qed.

Ltac one_record :=
  simpl; rewrite skipn_length_app; eexists; (split; [reflexivity |]).

(** ** Substrings *)

Lemma prefix_iff p s : String.prefix p s = true <-> exists post, s = p +++ post.
Proof.
  revert p. induction s as [| d s IH]; intros [| c p]; simpl.
  - split; eauto.
  - split; [discriminate | intros (post & H); discriminate H].
  - split; eauto.
  - destruct (ascii_dec c d) as [Heq | Hne].
    + subst d. rewrite IH. split; intros (post & H); exists post; congruence.
    + split; [discriminate |]. intros (post & H). congruence.
Qed.

(** [kw in s] holds exactly when [s] is [pre + kw + post] *)
Lemma contains_iff kw s :
  PyStr.contains kw s = true <-> exists pre post, s = pre +++ kw +++ post.
Proof.
  induction s as [| c s IH].
  - cbn [PyStr.contains]. rewrite orb_false_r, prefix_iff. split.
    + intros (post & H). exists EmptyString, post. exact H.
    + intros ([| x pre] & post & H); [exists post; exact H | discriminate H].
  - cbn [PyStr.contains]. rewrite orb_true_iff, prefix_iff, IH. split.
    + intros [(post & H) | (pre & post & H)].
      * exists EmptyString, post. exact H.
      * exists (String c pre), post. simpl. now rewrite H.
    + intros ([| x pre] & post & H).
      * left. exists post. exact H.
      * right. simpl in H. injection H as _ H. exists pre, post. exact H.
Qed.

(** ** The injection check *)

(** C4. [test_injection_payload], for any attack type, payload and
    field: when its request is answered, it appends one record, whose
    status is PASS for status code 400 or 422, WARN for 200 with one of
    the keywords error, exception, stack in the lowercased body, FAIL for
    200 without any of them, and INFO for every other status code. *)
Theorem injection_payload_classification (w : world)
  (attack_type payload field : string) (st : state) (resp : response) :
  net w (length (sent st)) (injection_probe st payload field) = Responded resp ->
  exists r,
    appended (test_injection_payload w attack_type payload field) st = [r] /\
    (status_code resp = 400%Z \/ status_code resp = 422%Z -> status r = "PASS") /\
    (status_code resp = 200%Z ->
     has_error_keyword (PyStr.lower (text resp)) -> status r = "WARN") /\
    (status_code resp = 200%Z ->
     ~ has_error_keyword (PyStr.lower (text resp)) -> status r = "FAIL") /\
    (status_code resp <> 400%Z -> status_code resp <> 422%Z ->
     status_code resp <> 200%Z -> status r = "INFO").
Proof.
  intros Hnet.
  unfold appended, exec, test_injection_payload. run_code.
  fold (injection_probe st payload field). rewrite Hnet.
  destruct (existsb (Z.eqb (status_code resp)) [400; 422]%Z) eqn:Hrej.
  - apply existsb_Zeqb in Hrej. simpl in Hrej.
    one_record. repeat split; intros; try reflexivity; exfalso; lia.
  - apply existsb_Zeqb_false in Hrej. simpl in Hrej.
    destruct (Z.eqb_spec (status_code resp) 200) as [H200 | H200].
    + destruct (existsb _ error_keywords) eqn:Hkw.
      * apply existsb_keyword in Hkw.
        one_record.
        repeat split; intros; first [reflexivity | contradiction | exfalso; lia].
      * assert (Hno : ~ has_error_keyword (PyStr.lower (text resp))).
        { rewrite <- existsb_keyword. congruence. }
        one_record.
        repeat split; intros; first [reflexivity | contradiction | exfalso; lia].
    + one_record.
      repeat split; intros; first [reflexivity | contradiction | exfalso; lia].
Qed.

(** ** The authorization check *)

Lemma probe_sensitive_endpoint_iteration w :
  iteration (probe_sensitive_endpoint w) 1 (endpoint_verdict w).
Proof.
  intros endpoint st. unfold endpoint_verdict, probe_sensitive_endpoint. run_code.
  destruct (net w (length (sent st)) _) as [resp | e].
  - destruct (existsb (Z.eqb (status_code resp)) [401; 403; 404]%Z) eqn:Hst.
    + apply existsb_Zeqb in Hst. iteration_done.
      intros resp' [= <-]. split; intros; [reflexivity | contradiction].
    + apply existsb_Zeqb_false in Hst. iteration_done.
      intros resp' [= <-]. split; intros; [contradiction | reflexivity].
  - iteration_done. intros resp' H; discriminate H.
Qed.

(** C5. [test_authorization] appends one record per sensitive endpoint,
    in the order of the list; when the request for the [k]-th endpoint is
    answered, its record is PASS for status 401, 403 or 404, and FAIL for
    every 2xx status (200 in particular). *)
Theorem authorization_classification (w : world) (st : state) :
  length (appended (test_authorization w) st) = length sensitive_endpoints /\
  forall k endpoint resp,
    nth_error sensitive_endpoints k = Some endpoint ->
    net w (length (sent st) + k) (endpoint_probe st endpoint) = Responded resp ->
    exists r,
      nth_error (appended (test_authorization w) st) k = Some r /\
      test r = "Sensitive Endpoint " +++ endpoint /\
      (In (status_code resp) [401; 403; 404]%Z -> status r = "PASS") /\
      ((200 <= status_code resp < 300)%Z -> status r = "FAIL").
Proof.
  destruct (for_each_records _ _ _ (probe_sensitive_endpoint_iteration w)
              sensitive_endpoints st)
    as (rs & st' & Hrun & Hres & _ & _ & _ & Hlen & Hnth).
  unfold test_authorization.
  rewrite (appended_run _ _ _ _ _ Hrun Hres).
  split; [exact Hlen |].
  intros k endpoint resp Hk Hnet.
  destruct (Hnth k endpoint Hk) as (r & Hr & Htest & HR).
  exists r. split; [exact Hr |]. split; [exact Htest |].
  rewrite Nat.mul_1_l in HR. destruct (HR resp Hnet) as [Hpass Hfail].
  split; [exact Hpass |].
  intros Hrange. apply Hfail. simpl. lia.
Qed.

(** ** The security-header check *)

Lemma existsb_eqb_In v vs : existsb (String.eqb v) vs = true <-> In v vs.
Proof.
  rewrite existsb_exists. split.
  - intros (y & Hin & Heq). apply String.eqb_eq in Heq. now subst.
  - intros Hin. exists v. split; [exact Hin | apply String.eqb_refl].
Qed.

Lemma check_header_iteration w resp :
  iteration (check_header w resp) 0 (header_verdict resp).
Proof.
  intros [header expected] st. unfold header_verdict, check_header. simpl fst. simpl snd.
  destruct (headers_get header (headers resp)) as [v |].
  - destruct expected as [e | vs |].
    + destruct (String.eqb_spec v e) as [Heq | Hne]; run_code; iteration_done;
        (split; [discriminate |]); intros v' [= <-]; simpl;
        split; intros; first [reflexivity | contradiction].
    + destruct (existsb (String.eqb v) vs) eqn:Hin; run_code; iteration_done;
        (split; [discriminate |]); intros v' [= <-]; simpl;
        split; intros H; try reflexivity.
      * apply existsb_eqb_In in Hin. contradiction.
      * apply existsb_eqb_In in H. congruence.
    + run_code; iteration_done.
      (split; [discriminate |]); intros v' [= <-]; simpl.
      split; intros H; [reflexivity | exfalso; exact (H I)].
  - run_code. iteration_done. split; [reflexivity |]. intros v H; discriminate H.
Qed.

(** C6. When the request of [test_security_headers] is answered, the
    check appends one record per required header, in the order of the
    table; the record of a header absent from the response is FAIL; a
    header present with the expected value (or any value, where none is
    expected) is PASS, present with another value WARN.  So a response
    with none of the required headers gives five FAIL records. *)
Theorem security_headers_classification (w : world) (st : state) (resp : response) :
  net w (length (sent st)) (status_probe st) = Responded resp ->
  length (appended (test_security_headers w) st) = length required_headers /\
  (forall k header expected,
      nth_error required_headers k = Some (header, expected) ->
      exists r,
        nth_error (appended (test_security_headers w) st) k = Some r /\
        test r = "Security Header " +++ header /\
        (headers_get header (headers resp) = None -> status r = "FAIL") /\
        (forall v, headers_get header (headers resp) = Some v ->
           (header_matches v expected -> status r = "PASS") /\
           (~ header_matches v expected -> status r = "WARN"))) /\
  ((forall header expected,
       In (header, expected) required_headers ->
       headers_get header (headers resp) = None) ->
   map status (appended (test_security_headers w) st)
   = ["FAIL"; "FAIL"; "FAIL"; "FAIL"; "FAIL"]).
Proof.
  intros Hnet.
  destruct (for_each_records _ _ _ (check_header_iteration w resp)
              required_headers (set_sent st (sent st ++ [status_probe st])))
    as (rs & st' & Hrun & Hres & _ & _ & _ & Hlen & Hnth).
  assert (Happ : appended (test_security_headers w) st = rs).
  { unfold appended, exec, test_security_headers. run_code.
    fold (endpoint_probe st "/api/v1/alerts/status"). fold (status_probe st).
    rewrite Hnet, Hrun. simpl. simpl in Hres. rewrite Hres.
    apply skipn_length_app. }
  rewrite Happ.
  assert (Hrec : forall k header expected,
      nth_error required_headers k = Some (header, expected) ->
      exists r,
        nth_error rs k = Some r /\
        test r = "Security Header " +++ header /\
        (headers_get header (headers resp) = None -> status r = "FAIL") /\
        (forall v, headers_get header (headers resp) = Some v ->
           (header_matches v expected -> status r = "PASS") /\
           (~ header_matches v expected -> status r = "WARN"))).
  { intros k header expected Hk.
    destruct (Hnth k _ Hk) as (r & Hr & HR). exists r. split; [exact Hr | exact HR]. }
  split; [exact Hlen |]. split; [exact Hrec |].
  intros Hnone.
  assert (Hall : forall k r, nth_error rs k = Some r -> status r = "FAIL").
  { intros k r Hr.
    destruct (nth_error required_headers k) as [[header expected] |] eqn:Hk.
    - destruct (Hrec k header expected Hk) as (r' & Hr' & _ & Hfail & _).
      assert (r' = r) by congruence. subst r'.
      apply Hfail, (Hnone header expected). eapply nth_error_In, Hk.
    - apply nth_error_None in Hk. rewrite <- Hlen in Hk.
      apply nth_error_None in Hk. congruence. }
  destruct rs as [| r0 [| r1 [| r2 [| r3 [| r4 [| r5 rs]]]]]]; try discriminate Hlen.
  simpl. rewrite (Hall 0%nat r0 eq_refl), (Hall 1%nat r1 eq_refl),
    (Hall 2%nat r2 eq_refl), (Hall 3%nat r3 eq_refl), (Hall 4%nat r4 eq_refl).
  reflexivity.
Qed.

(** ** The rate-limiting check *)

Lemma rate_limit_probe_run w i acc st :
  rate_limit_probe w i acc st
  = match net w (length (sent st)) (status_probe st) with
    | Responded resp =>
        (inr (acc ++ [status_code resp]),
         set_sent st (sent st ++ [status_probe st]))
    | Raised e => (inl e, set_sent st (sent st ++ [status_probe st]))
    end.
Proof.
  unfold rate_limit_probe. run_code.
  fold (endpoint_probe st "/api/v1/alerts/status"). fold (status_probe st).
  destruct (net w _ _); reflexivity.
Qed.

Lemma for_fold_cons {A B} (x : A) l (acc : B) body st :
  for_fold (x :: l) acc body st
  = match body x acc st with
    | (inr a, st') => for_fold l a body st'
    | (inl e, st') => (inl e, st')
    end.
Proof. reflexivity. Qed.

Lemma probe_loop_any w l : forall acc st,
  exists v q,
    for_fold l acc (rate_limit_probe w) st = (v, set_sent st (sent st ++ q)) /\
    (length q <= length l)%nat.
Proof.
  induction l as [| x l IH]; intros acc st.
  - exists (inr acc), []. simpl. rewrite app_nil_r. split; [| lia].
    unfold ret. destruct st; reflexivity.
  - rewrite for_fold_cons, rate_limit_probe_run.
    destruct (net w (length (sent st)) (status_probe st)) as [resp | e].
    + destruct (IH (acc ++ [status_code resp])
                  (set_sent st (sent st ++ [status_probe st])))
        as (v & q & Hrun & Hlen).
      rewrite Hrun.
      exists v, (status_probe st :: q). simpl. rewrite <- app_assoc.
      split; [reflexivity | lia].
    + exists (inl e), [status_probe st]. split; [reflexivity | simpl; lia].
Qed.

Lemma probe_loop_answered w l : forall acc st,
  answered w st (status_probe st) (length l) ->
  exists codes,
    for_fold l acc (rate_limit_probe w) st
    = (inr (acc ++ codes),
       set_sent st (sent st ++ repeat (status_probe st) (length l))) /\
    length codes = length l /\
    forall k, (k < length l)%nat ->
      nth_error codes k = status_at w st (status_probe st) k.
Proof.
  induction l as [| x l IH]; intros acc st Hans.
  - exists []. simpl. rewrite !app_nil_r. split; [| split; [reflexivity | lia]].
    unfold ret. destruct st; reflexivity.
  - rewrite for_fold_cons, rate_limit_probe_run.
    destruct (Hans 0%nat) as [resp Hresp]; [simpl; lia |].
    rewrite Nat.add_0_r in Hresp. rewrite Hresp.
    destruct (IH (acc ++ [status_code resp])
                (set_sent st (sent st ++ [status_probe st])))
      as (codes & Hrun & Hlen & Hnth).
    { intros k Hk. simpl. rewrite length_app. simpl.
      destruct (Hans (S k)) as [resp' Hresp']; [simpl; lia |].
      exists resp'. rewrite <- Hresp'. f_equal. lia. }
    rewrite Hrun.
    exists (status_code resp :: codes). simpl. rewrite <- !app_assoc. simpl.
    split; [reflexivity |]. split; [congruence |].
    intros [| k] Hk.
    + simpl. unfold status_at. rewrite Nat.add_0_r, Hresp. reflexivity.
    + simpl. rewrite Hnth by lia. unfold status_at. simpl. rewrite length_app.
      simpl. replace (length (sent st) + 1 + k)%nat with (length (sent st) + S k)%nat by lia.
      reflexivity.
Qed.

Lemma existsb_429 codes :
  existsb (fun status => (status =? 429)%Z) codes = true
  <-> exists k, nth_error codes k = Some 429%Z.
Proof.
  rewrite existsb_exists. split.
  - intros (x & Hin & Heq). apply Z.eqb_eq in Heq. subst x.
    apply In_nth_error in Hin. exact Hin.
  - intros (k & Hk). exists 429%Z. split; [eapply nth_error_In, Hk | reflexivity].
Qed.

(** C7. [test_rate_limiting] appends exactly one record, whose status
    and severity are never FAIL, and sends at most 50 requests.  When
    each of its requests is answered, it sends exactly 50, and the record
    is PASS if one of the 50 statuses is 429 and WARN otherwise. *)
Theorem rate_limiting_classification (w : world) (st : state) :
  (exists r,
      appended (test_rate_limiting w) st = [r] /\
      status r <> "FAIL" /\ severity r <> "FAIL") /\
  (length (issued (test_rate_limiting w) st) <= 50)%nat /\
  (answered w st (status_probe st) 50 ->
   issued (test_rate_limiting w) st = repeat (status_probe st) 50 /\
   exists r,
     appended (test_rate_limiting w) st = [r] /\
     ((exists k, (k < 50)%nat /\ status_at w st (status_probe st) k = Some 429%Z) ->
      status r = "PASS") /\
     (~ (exists k, (k < 50)%nat /\ status_at w st (status_probe st) k = Some 429%Z) ->
      status r = "WARN")).
Proof.
  split; [| split].
  - destruct (probe_loop_any w (seq 0 rate_limit_probes) [] st)
      as (v & q & Hrun & _).
    unfold appended, exec, test_rate_limiting.
    unfold try_catch, bind at 1. rewrite Hrun.
    destruct v as [e | codes].
    + run_code. one_record. split; discriminate.
    + cbv beta iota zeta.
      destruct (existsb (fun status => (status =? 429)%Z) codes);
        run_code; one_record; split; discriminate.
  - destruct (probe_loop_any w (seq 0 rate_limit_probes) [] st)
      as (v & q & Hrun & Hlen).
    rewrite length_seq in Hlen.
    assert (Hq : issued (test_rate_limiting w) st = q).
    { unfold issued, exec, test_rate_limiting.
      unfold try_catch, bind at 1. rewrite Hrun.
      destruct v as [e | codes].
      - run_code. simpl. apply skipn_length_app.
      - cbv beta iota zeta.
        destruct (existsb (fun status => (status =? 429)%Z) codes);
          run_code; simpl; apply skipn_length_app. }
    rewrite Hq. exact Hlen.
  - intros Hans.
    destruct (probe_loop_answered w (seq 0 rate_limit_probes) [] st)
      as (codes & Hrun & Hlen & Hnth).
    { rewrite length_seq. exact Hans. }
    rewrite length_seq in Hrun, Hlen, Hnth. rewrite app_nil_l in Hrun.
    assert (H429 : existsb (fun status => (status =? 429)%Z) codes = true
                   <-> exists k, (k < 50)%nat /\
                         status_at w st (status_probe st) k = Some 429%Z).
    { rewrite existsb_429. split.
      - intros (k & Hk). exists k.
        assert (k < 50)%nat.
        { change 50%nat with rate_limit_probes. rewrite <- Hlen.
          apply nth_error_Some. congruence. }
        split; [assumption |]. rewrite <- Hnth; assumption.
      - intros (k & Hlt & Hk). exists k. rewrite Hnth; assumption. }
    split.
    + unfold issued, exec, test_rate_limiting.
      unfold try_catch, bind at 1. rewrite Hrun. cbv beta iota zeta.
      destruct (existsb (fun status => (status =? 429)%Z) codes);
        run_code; simpl sent; apply skipn_length_app.
    + unfold appended, exec, test_rate_limiting.
      unfold try_catch, bind at 1. rewrite Hrun. cbv beta iota zeta.
      destruct (existsb (fun status => (status =? 429)%Z) codes) eqn:Hex;
        run_code; one_record.
      * split; intros H; [reflexivity |]. exfalso. apply H, H429. reflexivity.
      * split; intros H; [| reflexivity]. apply H429 in H. discriminate H.
Qed.

(** ** base64url: decoding undoes encoding *)

Lemma string_ind3 (P : string -> Prop) :
  P EmptyString ->
  (forall a, P (String a EmptyString)) ->
  (forall a b, P (String a (String b EmptyString))) ->
  (forall a b c s, P s -> P (String a (String b (String c s)))) ->
  forall s, P s.
Proof.
  intros H0 H1 H2 H3 s.
  assert (H : P s /\ (forall a, P (String a s)) /\
              (forall a b, P (String a (String b s)))).
  { induction s as [| x s (IH0 & IH1 & IH2)].
    - auto.
    - repeat split; auto. }
  apply H.
Qed.

Lemma rstrip_cons c a t :
  a <> c -> PyStr.rstrip c (String a t) = String a (PyStr.rstrip c t).
Proof.
  intros Hne. simpl. destruct (PyStr.rstrip c t); [| reflexivity].
  destruct (Ascii.eqb_spec a c); [contradiction | reflexivity].
Qed.

Lemma sextet_digit n : (n < 64)%N -> PyRead.sextet (Base64.digit n) = Some n.
Proof.
  intros Hn.
  assert (H : forallb (fun k => match PyRead.sextet (Base64.digit (N.of_nat k)) with
                                | Some m => N.eqb m (N.of_nat k)
                                | None => false
                                end) (seq 0 64) = true) by (vm_compute; reflexivity).
  rewrite forallb_forall in H.
  specialize (H (N.to_nat n)). rewrite N2Nat.id in H.
  destruct (PyRead.sextet (Base64.digit n)) as [m |].
  - f_equal. apply N.eqb_eq, H, in_seq. lia.
  - discriminate H. apply in_seq. lia.
Qed.

Lemma digit_not_pad n : (n < 64)%N -> Base64.digit n <> Base64.pad.
Proof.
  intros Hn Heq. pose proof (sextet_digit n Hn) as H. rewrite Heq in H.
  vm_compute in H. discriminate H.
Qed.

Lemma digit_not_dot n : Base64.digit n <> "."%char.
Proof.
  destruct (N.lt_ge_cases n 64) as [Hn | Hn].
  - intros Heq. pose proof (sextet_digit n Hn) as H. rewrite Heq in H.
    vm_compute in H. discriminate H.
  - unfold Base64.digit.
    assert (Hlen : (String.length Base64.alphabet <= N.to_nat n)%nat)
      by (change (String.length Base64.alphabet) with 64%nat; lia).
    destruct (String.get (N.to_nat n) Base64.alphabet) eqn:Hget.
    + exfalso. revert Hget Hlen. generalize (N.to_nat n) Base64.alphabet.
      intros k s. revert k. induction s as [| x s IH]; intros [| k]; simpl; try discriminate; try lia.
      intros Hg Hl. apply (IH k Hg). lia.
    + discriminate.
Qed.

Ltac narith := zify; Z.to_euclidean_division_equations; lia.

Lemma byte_of_N a n : n = N_of_ascii a -> PyRead.byte n = a.
Proof. intros ->. apply ascii_N_embedding. Qed.

Lemma decode_encode s :
  PyRead.b64url_decode (PyStr.rstrip "=" (Base64.urlsafe_b64encode s)) = Some s.
Proof.
  induction s as [| a | a b | a b c s IH] using string_ind3.
  - reflexivity.
  - pose proof (N_ascii_bounded a) as Ha.
    cbn [Base64.urlsafe_b64encode].
    rewrite !rstrip_cons by (apply digit_not_pad; narith).
    change (PyStr.rstrip "=" (String Base64.pad (String Base64.pad EmptyString)))
      with EmptyString.
    cbn [PyRead.b64url_decode]. rewrite !sextet_digit by narith.
    rewrite (byte_of_N a) by narith. reflexivity.
  - pose proof (N_ascii_bounded a) as Ha. pose proof (N_ascii_bounded b) as Hb.
    cbn [Base64.urlsafe_b64encode].
    rewrite !rstrip_cons by (apply digit_not_pad; narith).
    change (PyStr.rstrip "=" (String Base64.pad EmptyString)) with EmptyString.
    cbn [PyRead.b64url_decode]. rewrite !sextet_digit by narith.
    rewrite (byte_of_N a), (byte_of_N b) by narith. reflexivity.
  - pose proof (N_ascii_bounded a) as Ha. pose proof (N_ascii_bounded b) as Hb.
    pose proof (N_ascii_bounded c) as Hc.
    cbn [Base64.urlsafe_b64encode].
    rewrite !rstrip_cons by (apply digit_not_pad; narith).
    cbn [PyRead.b64url_decode]. rewrite IH, !sextet_digit by narith.
    rewrite (byte_of_N a), (byte_of_N b), (byte_of_N c) by narith. reflexivity.
Qed.


Lemma count_char_rstrip c d s :
  PyStr.count_char c s = 0%nat -> PyStr.count_char c (PyStr.rstrip d s) = 0%nat.
Proof.
  induction s as [| x s IH]; simpl; [reflexivity |].
  destruct (Ascii.eqb x c) eqn:Hx; [discriminate |]. simpl. intros Hs.
  specialize (IH Hs). destruct (PyStr.rstrip d s) eqn:Hr.
  - destruct (Ascii.eqb x d); simpl; [reflexivity | now rewrite Hx].
  - simpl in *. now rewrite Hx.
Qed.

Lemma encode_no_dot s : PyStr.count_char "." (Base64.urlsafe_b64encode s) = 0%nat.
Proof.
  assert (Hd : forall n, Ascii.eqb (Base64.digit n) "." = false).
  { intros n. apply Ascii.eqb_neq, digit_not_dot. }
  induction s as [| a | a b | a b c s IH] using string_ind3;
    cbn [Base64.urlsafe_b64encode PyStr.count_char]; rewrite ?Hd, ?IH; reflexivity.
Qed.

Lemma split_no_separator c s :
  PyStr.count_char c s = 0%nat -> PyRead.split c s = [s].
Proof.
  induction s as [| x s IH]; simpl; [reflexivity |].
  destruct (Ascii.eqb x c); [discriminate |]. simpl. intros Hs.
  now rewrite (IH Hs).
Qed.

Lemma split_at_separator c a b :
  PyStr.count_char c a = 0%nat ->
  PyRead.split c (a +++ String c b) = a :: PyRead.split c b.
Proof.
  induction a as [| x a IH]; simpl.
  - intros _. now rewrite Ascii.eqb_refl.
  - destruct (Ascii.eqb x c); [discriminate |]. simpl. intros Ha.
    now rewrite (IH Ha).
Qed.

(** ** JSON: reading undoes printing *)

Lemma append_assoc (a b c : string) : (a +++ b) +++ c = a +++ (b +++ c).
Proof. induction a as [| x a IH]; simpl; [reflexivity | now rewrite IH]. Qed.

Lemma append_nil_r (a : string) : a +++ EmptyString = a.
Proof. induction a as [| x a IH]; simpl; [reflexivity | now rewrite IH]. Qed.

Lemma read_string_body_escape s rest :
  PyRead.read_string_body (Json.escape s +++ String dquote rest) = Some (s, rest).
Proof.
  induction s as [| c s IH].
  - reflexivity.
  - cbn [Json.escape].
    destruct (Ascii.eqb c dquote) eqn:Hq; cbn [orb].
    + cbn [String.append PyRead.read_string_body].
      change (Ascii.eqb backslash dquote) with false.
      rewrite Ascii.eqb_refl, IH. reflexivity.
    + destruct (Ascii.eqb c backslash) eqn:Hb.
      * cbn [String.append PyRead.read_string_body].
        change (Ascii.eqb backslash dquote) with false.
        rewrite Ascii.eqb_refl, IH. reflexivity.
      * cbn [String.append PyRead.read_string_body].
        rewrite Hq, Hb, IH. reflexivity.
Qed.

Lemma span_digits_append d rest :
  all_digits d -> ends_number rest ->
  PyRead.span_digits (d +++ rest) = (d, rest).
Proof.
  intros Hd Hrest. induction d as [| c d IH]; simpl.
  - destruct rest as [| c r]; [reflexivity |]. simpl in *. now rewrite Hrest.
  - destruct Hd as [Hc Hd]. rewrite Hc, (IH Hd). reflexivity.
Qed.

Lemma uint_all_digits u : all_digits (NilEmpty.string_of_uint u).
Proof. induction u; simpl; auto. Qed.

Lemma uint_zero_all_digits u : all_digits (NilZero.string_of_uint u).
Proof. destruct u; try apply uint_all_digits. simpl. auto. Qed.

Lemma uint_zero_head u :
  exists c s, NilZero.string_of_uint u = String c s /\ PyRead.is_digit c = true.
Proof. destruct u; simpl; eauto. Qed.

Lemma to_int_proper z : Z.to_int z <> Pos Nil /\ Z.to_int z <> Neg Nil.
Proof.
  destruct z as [| p | p]; simpl; split; try discriminate;
    intros [= H]; exact (Unsigned.to_uint_nonnil p H).
Qed.

Lemma read_int_of_Z z rest :
  ends_number rest ->
  PyRead.read_int (PyStr.of_Z z +++ rest) = Some (z, rest).
Proof.
  intros Hrest. unfold PyStr.of_Z, PyRead.read_int.
  destruct (to_int_proper z) as [Hp Hn].
  pose proof (NilZero.isi (Z.to_int z) Hp Hn) as Hisi.
  pose proof (DecimalZ.of_to z) as Hz.
  destruct (Z.to_int z) as [u | u]; cbn [NilZero.string_of_int] in *.
  - destruct (uint_zero_head u) as (c & s & Hs & Hc).
    rewrite Hs. cbn [String.append].
    assert (Hminus : Ascii.eqb c "-" = false).
    { destruct (Ascii.eqb_spec c "-") as [-> |]; [discriminate Hc | reflexivity]. }
    rewrite Hminus. change (String c (s +++ rest)) with (String c s +++ rest).
    rewrite <- Hs, span_digits_append by (auto using uint_zero_all_digits).
    cbn [String.append]. rewrite Hisi, Hz. reflexivity.
  - cbn [String.append]. rewrite Ascii.eqb_refl.
    rewrite span_digits_append by (auto using uint_zero_all_digits).
    cbn [String.append]. rewrite Hisi, Hz. reflexivity.
Qed.

Lemma of_Z_head z :
  exists c s, PyStr.of_Z z = String c s /\ Ascii.eqb c dquote = false.
Proof.
  unfold PyStr.of_Z. destruct (Z.to_int z) as [u | u]; cbn [NilZero.string_of_int].
  - destruct (uint_zero_head u) as (c & s & Hs & Hc). exists c, s. split; [exact Hs |].
    destruct (Ascii.eqb_spec c dquote) as [-> |]; [discriminate Hc | reflexivity].
  - eexists _, _. split; reflexivity.
Qed.

Lemma read_value_dumps v rest :
  ends_number rest ->
  PyRead.read_value (Json.dumps_value v +++ rest) = Some (v, rest).
Proof.
  intros Hrest. destruct v as [s | z]; cbn [Json.dumps_value].
  - unfold Json.dumps_string. cbn [String.append PyRead.read_value].
    rewrite Ascii.eqb_refl, append_assoc. cbn [String.append].
    rewrite read_string_body_escape. reflexivity.
  - destruct (of_Z_head z) as (c & s & Hs & Hc).
    unfold PyRead.read_value. rewrite Hs at 1. cbn [String.append].
    rewrite Hc, read_int_of_Z by assumption. reflexivity.
Qed.

Lemma read_members_space fuel s :
  PyRead.read_members fuel (String " " s) = PyRead.read_members fuel s.
Proof. destruct fuel; reflexivity. Qed.

Lemma skip_spaces_space s :
  PyRead.skip_spaces (String " " s) = PyRead.skip_spaces s.
Proof. reflexivity. Qed.

Lemma skip_spaces_value v tail :
  PyRead.skip_spaces (Json.dumps_value v +++ tail) = Json.dumps_value v +++ tail.
Proof.
  destruct v as [s | z]; cbn [Json.dumps_value].
  - reflexivity.
  - unfold PyStr.of_Z. destruct (Z.to_int z) as [u | u]; cbn [NilZero.string_of_int].
    + destruct (uint_zero_head u) as (c & s & -> & Hc). cbn [String.append PyRead.skip_spaces].
      destruct (Ascii.eqb_spec c " ") as [-> |]; [discriminate Hc | reflexivity].
    + reflexivity.
Qed.

Lemma read_member m fuel tail :
  ends_number tail ->
  PyRead.read_members (S fuel) (Json.dumps_member m +++ tail)
  = match PyRead.skip_spaces tail with
    | String sep s5 =>
        if Ascii.eqb sep ","
        then match PyRead.read_members fuel s5 with
             | Some (ms, r) => Some (m :: ms, r)
             | None => None
             end
        else if Ascii.eqb sep "}" then Some ([m], s5) else None
    | EmptyString => None
    end.
Proof.
  intros Htail. destruct m as [k v].
  unfold Json.dumps_member, Json.dumps_string. cbn [fst snd].
  cbn [String.append]. rewrite !append_assoc. cbn [String.append].
  cbn [PyRead.read_members PyRead.skip_spaces].
  change (Ascii.eqb dquote " ") with false. cbv iota.
  rewrite Ascii.eqb_refl, read_string_body_escape.
  cbn [PyRead.skip_spaces]. change (Ascii.eqb ":" " ") with false. cbv iota.
  change (Ascii.eqb ":" ":") with true. cbv iota.
  rewrite skip_spaces_space, skip_spaces_value, read_value_dumps by assumption.
  reflexivity.
Qed.

Lemma join_cons sep x y l :
  PyStr.join sep (x :: y :: l) = x +++ sep +++ PyStr.join sep (y :: l).
Proof. reflexivity. Qed.

Lemma read_members_dumps ms : forall m fuel rest,
  (length ms < fuel)%nat ->
  PyRead.read_members fuel
    (PyStr.join ", " (map Json.dumps_member (m :: ms)) +++ String "}" rest)
  = Some (m :: ms, rest).
Proof.
  induction ms as [| m' ms IH]; intros m fuel rest Hfuel;
    (destruct fuel as [| fuel]; [simpl in Hfuel; lia |]).
  - cbn [map PyStr.join]. rewrite read_member by reflexivity. reflexivity.
  - change (map Json.dumps_member (m :: m' :: ms))
      with (Json.dumps_member m :: Json.dumps_member m' :: map Json.dumps_member ms).
    rewrite join_cons, !append_assoc. cbn [String.append].
    rewrite read_member by reflexivity.
    cbn [PyRead.skip_spaces]. change (Ascii.eqb "," " ") with false. cbv iota.
    change (Ascii.eqb "," ",") with true. cbv iota.
    rewrite read_members_space.
    change (Json.dumps_member m' :: map Json.dumps_member ms)
      with (map Json.dumps_member (m' :: ms)).
    rewrite IH by (simpl in Hfuel; lia). reflexivity.
Qed.

Lemma length_append (a b : string) :
  String.length (a +++ b) = (String.length a + String.length b)%nat.
Proof. induction a as [| x a IH]; simpl; [reflexivity | now rewrite IH]. Qed.

Lemma dumps_member_head m :
  exists t, Json.dumps_member m = String dquote t.
Proof. destruct m as [k v]. eexists. reflexivity. Qed.

Lemma members_length ms :
  (length ms <= String.length (PyStr.join ", " (map Json.dumps_member ms)))%nat.
Proof.
  induction ms as [| m ms IH]; [simpl; lia |].
  destruct (dumps_member_head m) as [t Ht].
  destruct ms as [| m' ms].
  - cbn [map PyStr.join]. rewrite Ht. simpl. lia.
  - change (map Json.dumps_member (m :: m' :: ms))
      with (Json.dumps_member m :: Json.dumps_member m' :: map Json.dumps_member ms).
    rewrite join_cons, !length_append, Ht.
    change (Json.dumps_member m' :: map Json.dumps_member ms)
      with (map Json.dumps_member (m' :: ms)).
    simpl in *. lia.
Qed.

Lemma members_head m ms :
  exists t, PyStr.join ", " (map Json.dumps_member (m :: ms)) = String dquote t.
Proof.
  destruct (dumps_member_head m) as [t Ht].
  destruct ms as [| m' ms].
  - exists t. exact Ht.
  - change (map Json.dumps_member (m :: m' :: ms))
      with (Json.dumps_member m :: Json.dumps_member m' :: map Json.dumps_member ms).
    rewrite join_cons, Ht. eexists. reflexivity.
Qed.

Theorem json_loads_dumps obj : PyRead.json_loads (Json.dumps obj) = Some obj.
Proof.
  destruct obj as [| m ms].
  - reflexivity.
  - unfold Json.dumps, PyRead.json_loads. cbn [String.append PyRead.skip_spaces].
    change (Ascii.eqb "{" " ") with false. cbv iota.
    change (Ascii.eqb "{" "{") with true. cbv iota.
    rewrite read_members_dumps.
    + destruct (members_head m ms) as [t ->]. reflexivity.
    + pose proof (members_length (m :: ms)) as Hlen.
      cbn [String.length]. rewrite length_append. simpl in *. lia.
Qed.

(** ** The expired token *)

Lemma generate_expired_token_run w st :
  generate_expired_token w st
  = let t1 := now w (clock_reads st) in
    let t2 := now w (S (clock_reads st)) in
    if timestamp_ok w (t1 - 1 * hour) then
      if timestamp_ok w (t2 - 2 * hour) then
        (inr (Some (expired_token
                      (int_timestamp w (t1 - 1 * hour))
                      (int_timestamp w (t2 - 2 * hour)))),
         set_clock_reads st (S (S (clock_reads st))))
      else (inr None, set_clock_reads st (S (S (clock_reads st))))
    else (inr None, set_clock_reads st (S (clock_reads st))).
Proof.
  unfold generate_expired_token, timestamp_int. run_code.
  destruct (timestamp_ok w (now w (clock_reads st) - 1 * hour)); [| reflexivity].
  cbv beta iota zeta. cbn [clock_reads set_clock_reads].
  destruct (timestamp_ok w (now w (S (clock_reads st)) - 2 * hour)); reflexivity.
Qed.

Lemma header_b64_value :
  PyStr.rstrip "="
    (Base64.urlsafe_b64encode
       (Json.dumps [("alg", JStr "HS256"); ("typ", JStr "JWT")]))
  = "eyJhbGciOiAiSFMyNTYiLCAidHlwIjogIkpXVCJ9".
Proof. vm_compute. reflexivity. Qed.

Lemma expired_token_nonempty exp iat :
  exists c t, expired_token exp iat = String c t.
Proof.
  unfold expired_token. cbv zeta. rewrite header_b64_value.
  cbn [String.append]. eauto.
Qed.

(** the state in which the request of the expired-token block is sent *)
Lemma generate_expired_token_frame w st :
  exists v n,
    generate_expired_token w st = (inr v, set_clock_reads st n) /\
    (v = None \/ exists c t, v = Some (String c t)).
Proof.
  rewrite generate_expired_token_run. cbv zeta.
  destruct (timestamp_ok w _); [destruct (timestamp_ok w _) |];
    do 2 eexists; (split; [reflexivity |]); auto.
  right. destruct (expired_token_nonempty
    (int_timestamp w (now w (clock_reads st) - 1 * hour))
    (int_timestamp w (now w (S (clock_reads st)) - 2 * hour)))
    as (c & t & ->). eauto.
Qed.

(** C3, as the code has it.  In the expired-token block of
    [test_authentication]: when the generator returns [None] (the
    construction failed), the block appends no record, sends nothing and
    returns normally; when it returns a token, the block sends one
    request with it, and a response with status 401 gives a PASS record,
    a response with any other status a FAIL record, and a transport error
    a record with status WARN and severity WARN. *)
Theorem expired_token_step (w : world) (st : state) :
  (value (generate_expired_token w) st = inr None ->
   value (auth_expired_token w) st = inr tt /\
   appended (auth_expired_token w) st = [] /\
   issued (auth_expired_token w) st = []) /\
  (forall token,
      value (generate_expired_token w) st = inr (Some token) ->
      issued (auth_expired_token w) st = [expired_token_probe st token] /\
      (forall resp,
          net w (length (sent st)) (expired_token_probe st token) = Responded resp ->
          exists r,
            appended (auth_expired_token w) st = [r] /\
            (status_code resp = 401%Z -> status r = "PASS") /\
            (status_code resp <> 401%Z -> status r = "FAIL")) /\
      (forall e,
          net w (length (sent st)) (expired_token_probe st token) = Raised e ->
          exists r,
            appended (auth_expired_token w) st = [r] /\
            status r = "WARN" /\ severity r = "WARN")).
Proof.
  destruct (generate_expired_token_frame w st) as (v & n & Hrun & Hv).
  unfold value. rewrite Hrun. cbn [fst].
  split.
  - intros [= ->].
    assert (Hstep : auth_expired_token w st = (inr tt, set_clock_reads st n)).
    { unfold auth_expired_token, try_catch, bind at 1. rewrite Hrun. reflexivity. }
    unfold appended, issued, exec. rewrite Hstep. cbn [fst snd]. simpl.
    rewrite <- (app_nil_r (results st)) at 2. rewrite <- (app_nil_r (sent st)) at 2.
    rewrite !skipn_length_app. auto.
  - intros token [= ->].
    destruct Hv as [Hv | (c & t & Hv)]; [discriminate Hv |].
    injection Hv as ->.
    assert (Hstep : auth_expired_token w st =
      match net w (length (sent st)) (expired_token_probe st (String c t)) with
      | Responded resp =>
          if (status_code resp =? 401)%Z
          then log_result w "Expired Token" "PASS" "Token expirado rejeitado" "PASS"
                 (set_sent (set_clock_reads st n)
                    (sent st ++ [expired_token_probe st (String c t)]))
          else log_result w "Expired Token" "FAIL"
                 ("Token expirado aceito (status: "
                    +++ PyStr.of_Z (status_code resp) +++ ")") "FAIL"
                 (set_sent (set_clock_reads st n)
                    (sent st ++ [expired_token_probe st (String c t)]))
      | Raised e =>
          log_result w "Expired Token" "WARN"
            ("Não foi possível testar: " +++ e) "WARN"
            (set_sent (set_clock_reads st n)
               (sent st ++ [expired_token_probe st (String c t)]))
      end).
    { unfold auth_expired_token, try_catch, bind at 1. rewrite Hrun.
      cbv beta iota. run_code. simpl.
      fold (expired_token_probe st (String c t)).
      destruct (net w (length (sent st)) _) as [resp | e]; [| reflexivity].
      destruct (status_code resp =? 401)%Z; reflexivity. }
    unfold appended, issued, exec. rewrite Hstep.
    split; [| split].
    + destruct (net w (length (sent st)) _) as [resp | e];
        [destruct (status_code resp =? 401)%Z |]; simpl; apply skipn_length_app.
    + intros resp ->.
      destruct (Z.eqb_spec (status_code resp) 401); one_record;
        split; intros; first [reflexivity | contradiction].
    + intros e ->. one_record. split; reflexivity.
Qed.

Lemma count_char_b64 s :
  PyStr.count_char "." (PyStr.rstrip "=" (Base64.urlsafe_b64encode s)) = 0%nat.
Proof. apply count_char_rstrip, encode_no_dot. Qed.

(** ** Float rounding *)

Section Rounding.

Import PyFloat.

Local Open Scope Z_scope.

Lemma round_half_even_between n d lo hi :
  0 < d -> lo * d <= n <= hi * d ->
  lo <= round_half_even n d <= hi.
Proof.
  intros Hd [Hlo Hhi]. unfold round_half_even.
  pose proof (Z.div_mod n d ltac:(lia)) as Hdm.
  pose proof (Z.mod_pos_bound n d Hd) as Hr.
  assert (Hq1 : lo <= n / d) by (apply Z.div_le_lower_bound; lia).
  assert (Hq2 : n / d <= hi).
  { apply Z.lt_succ_r. apply Z.div_lt_upper_bound; [lia |]. nia. }
  assert (Hq3 : n / d = hi -> n mod d = 0).
  { intros E. rewrite E in Hdm. lia. }
  destruct (2 * (n mod d) <? d) eqn:E1; [lia |].
  apply Z.ltb_ge in E1.
  assert (n / d + 1 <= hi) by (destruct (Z.eq_dec (n / d) hi); lia).
  destruct (d <? 2 * (n mod d)); [lia |].
  destruct (Z.even (n / d)); lia.
Qed.

Lemma den_pos f : 0 < den f.
Proof.
  unfold den. destruct (0 <=? exponent f) eqn:E; [lia |].
  apply Z.leb_gt in E. apply Z.pow_pos_nonneg; lia.
Qed.

(** Rounding does not cross a whole number below 2 ^ 53: such a number
    is a float itself. *)
Lemma round_pos_between n d A B :
  0 < n -> 0 < d -> 0 <= A -> B < 2 ^ 53 ->
  A * d <= n <= B * d ->
  A * den (round_pos n d) <= num (round_pos n d) <= B * den (round_pos n d).
Proof.
  intros Hn Hd HA HB [Hlo Hhi].
  unfold round_pos.
  pose proof (Z.log2_spec n Hn) as [Hn1 Hn2].
  pose proof (Z.log2_spec d Hd) as [Hd1 Hd2].
  pose proof (Z.log2_nonneg n) as Hln. pose proof (Z.log2_nonneg d) as Hld.
  set (ln := Z.log2 n) in *. set (ld := Z.log2 d) in *.
  set (e0 := ln - ld - 53).
  rewrite Z.pow_succ_r in Hn2, Hd2 by lia.
  remember (2 ^ 53) as P eqn:HP.
  assert (HPpos : 0 < P) by (subst P; reflexivity).
  assert (Hld' : 0 < 2 ^ ld) by (apply Z.pow_pos_nonneg; lia).
  assert (HnP : n < d * P).
  { apply Z.le_lt_trans with (B * d); [exact Hhi |].
    rewrite (Z.mul_comm d P). apply Z.mul_lt_mono_pos_r; assumption. }
  assert (He0 : e0 <= 0).
  { destruct (Z_lt_le_dec 0 e0) as [Hgt |]; [exfalso | assumption].
    assert (Hpow : 2 ^ ln = 2 ^ ld * P * (2 * 2 ^ (e0 - 1))).
    { subst P. rewrite <- Z.pow_succ_r by lia.
      rewrite <- !Z.pow_add_r by lia. f_equal. unfold e0. lia. }
    assert (0 < 2 ^ (e0 - 1)) by (apply Z.pow_pos_nonneg; lia).
    assert (2 * (2 ^ ld * P) <= 2 ^ ln).
    { rewrite Hpow. assert (0 < 2 ^ ld * P) by lia. nia. }
    assert (d * P < 2 * 2 ^ ld * P) by (apply Z.mul_lt_mono_pos_r; assumption).
    lia. }
  destruct (0 <=? e0) eqn:E0.
  - apply Z.leb_le in E0. assert (Hz : e0 = 0) by lia. rewrite Hz.
    change (2 ^ 0) with 1. rewrite Z.mul_1_r.
    destruct (n <? d * P) eqn:E1; [| apply Z.ltb_ge in E1; lia].
    unfold num, den. cbn [mantissa exponent]. cbn [Z.leb Z.compare].
    change (2 ^ 0) with 1. rewrite !Z.mul_1_r.
    apply round_half_even_between; [lia | lia].
  - apply Z.leb_gt in E0.
    assert (Hp : 0 < 2 ^ (- e0)) by (apply Z.pow_pos_nonneg; lia).
    set (k := 2 ^ (- e0)) in *.
    assert (Hbounds : A * k * d <= n * k <= B * k * d).
    { split.
      - replace (A * k * d) with (A * d * k) by ring.
        apply Z.mul_le_mono_nonneg_r; lia.
      - replace (B * k * d) with (B * d * k) by ring.
        apply Z.mul_le_mono_nonneg_r; lia. }
    destruct (n * k <? d * P) eqn:E1.
    + unfold num, den. cbn [mantissa exponent]. rewrite (proj2 (Z.leb_gt 0 e0) E0).
      fold k. apply round_half_even_between; [lia | exact Hbounds].
    + apply Z.ltb_ge in E1.
      unfold num, den. cbn [mantissa exponent].
      destruct (0 <=? e0 + 1) eqn:E2.
      * apply Z.leb_le in E2. assert (Hm1 : e0 = -1) by lia.
        assert (Hk : k = 2) by (unfold k; rewrite Hm1; reflexivity).
        rewrite Hm1. change (2 ^ (-1 + 1)) with 1. rewrite !Z.mul_1_r.
        apply round_half_even_between; [lia |]. rewrite Hk in Hbounds. lia.
      * apply Z.leb_gt in E2.
        assert (Hsplit : k = 2 * 2 ^ (- (e0 + 1))).
        { unfold k. rewrite <- Z.pow_succ_r by lia. f_equal. lia. }
        set (k' := 2 ^ (- (e0 + 1))) in *.
        apply round_half_even_between; [lia |].
        rewrite Hsplit in Hbounds.
        replace (A * k' * (2 * d)) with (A * (2 * k') * d) by ring.
        replace (B * k' * (2 * d)) with (B * (2 * k') * d) by ring.
        rewrite Hsplit. exact Hbounds.
Qed.

Lemma round_div_between n d A B :
  0 < d -> - 2 ^ 53 < A -> B < 2 ^ 53 ->
  A * d <= n <= B * d ->
  A * den (round_div n d) <= num (round_div n d) <= B * den (round_div n d).
Proof.
  intros Hd HA HB [Hlo Hhi].
  remember (2 ^ 53) as P eqn:HP.
  destruct n as [| p | p] eqn:En.
  - unfold round_div, num, den. cbn.
    assert (A <= 0) by nia. assert (0 <= B) by nia. lia.
  - unfold round_div. rewrite <- En in *.
    assert (Hn : 0 < n) by lia.
    pose proof (den_pos (round_pos n d)) as Hden.
    destruct (Z_lt_le_dec A 0) as [HAneg |].
    + assert (HB0 : 0 <= B * d) by lia.
      destruct (round_pos_between n d 0 B Hn Hd ltac:(lia) ltac:(subst P; exact HB)
                  ltac:(lia)) as [H1 H2].
      split; [| exact H2]. rewrite Z.mul_0_l in H1.
      apply Z.le_trans with 0; [| exact H1].
      apply Z.mul_nonpos_nonneg; lia.
    + apply round_pos_between; auto. subst P; exact HB.
  - unfold round_div. cbv zeta.
    set (m := Z.pos p). assert (Hm : 0 < m) by (unfold m; lia).
    replace (- Z.neg p) with m by reflexivity.
    replace (Z.neg p) with (- m) in * by reflexivity.
    pose proof (den_pos (round_pos m d)) as Hden.
    assert (Hsym : num (mkFloat (- mantissa (round_pos m d)) (exponent (round_pos m d)))
                   = - num (round_pos m d) /\
                   den (mkFloat (- mantissa (round_pos m d)) (exponent (round_pos m d)))
                   = den (round_pos m d)).
    { unfold num, den. cbn [mantissa exponent]. destruct (0 <=? _); split; lia. }
    destruct Hsym as [-> ->].
    set (D := den (round_pos m d)) in *. set (N := num (round_pos m d)) in *.
    destruct (Z_lt_le_dec 0 B) as [HBpos |].
    + assert (Hb : 0 * d <= m <= (- A) * d) by lia.
      pose proof (round_pos_between m d 0 (- A) Hm Hd ltac:(lia)
                    ltac:(subst P; lia) Hb) as [H1 H2].
      fold N D in H1, H2.
      split; [lia |]. apply Z.le_trans with 0; [lia |].
      apply Z.mul_nonneg_nonneg; lia.
    + assert (Hb : (- B) * d <= m <= (- A) * d) by lia.
      pose proof (round_pos_between m d (- B) (- A) Hm Hd ltac:(lia)
                    ltac:(subst P; lia) Hb) as [H1 H2].
      fold N D in H1, H2. lia.
Qed.

(** A whole number below 2 ^ 53 converts to itself. *)
Lemma of_int_exact z :
  - 2 ^ 53 < z < 2 ^ 53 -> num (of_int z) = z * den (of_int z).
Proof.
  intros Hz. unfold of_int.
  pose proof (round_div_between z 1 z z ltac:(lia) ltac:(lia) ltac:(lia) ltac:(lia)).
  lia.
Qed.

Lemma trunc_between x lo hi :
  lo * den x <= num x <= hi * den x -> lo <= trunc x <= hi.
Proof.
  intros Hx. pose proof (den_pos x) as Hd.
  unfold trunc. set (N := num x) in *. set (D := den x) in *.
  clearbody N D.
  split.
  - destruct (Z_le_gt_dec 0 lo).
    + apply Z.quot_le_lower_bound; lia.
    + destruct (Z_le_gt_dec 0 N).
      * assert (0 <= N ÷ D) by (apply Z.quot_pos; lia). lia.
      * assert (Hopp : lo <= - ((- N) ÷ D));
          [| rewrite Z.quot_opp_l in Hopp by lia; lia].
        assert ((- N) ÷ D <= - lo); [| lia].
        apply Z.lt_succ_r. apply Z.quot_lt_upper_bound; first [lia | nia].
  - destruct (Z_le_gt_dec 0 N).
    + apply Z.lt_succ_r. apply Z.quot_lt_upper_bound; first [lia | nia].
    + assert (Hopp : - ((- N) ÷ D) <= hi);
        [| rewrite Z.quot_opp_l in Hopp by lia; lia].
      assert (- hi <= (- N) ÷ D); [| lia].
      destruct (Z_le_gt_dec 0 (- hi)).
      * apply Z.quot_le_lower_bound; lia.
      * assert (0 <= (- N) ÷ D) by (apply Z.quot_pos; lia). lia.
Qed.

(** [int(s + us / 1e6)] is [s] or [s + 1]. *)
Lemma trunc_seconds_between s us :
  - 2 ^ 52 <= s <= 2 ^ 52 -> 0 <= us < 1000000 ->
  s <= trunc (add (of_int s) (div (of_int us) (of_int 1000000))) <= s + 1.
Proof.
  intros Hs Hus.
  set (x := of_int s). set (u := of_int us). set (m := of_int 1000000).
  pose proof (den_pos x) as Hdx. pose proof (den_pos u) as Hdu.
  pose proof (den_pos m) as Hdm.
  assert (Hx : num x = s * den x) by (apply of_int_exact; lia).
  assert (Hu : num u = us * den u) by (apply of_int_exact; lia).
  assert (Hm : num m = 1000000 * den m) by (apply of_int_exact; lia).
  set (y := div u m).
  pose proof (den_pos y) as Hdy.
  assert (Hy : 0 * den y <= num y <= 1 * den y).
  { unfold y, div. cbv zeta. rewrite Hu, Hm.
    set (a := den u) in *. set (b := den m) in *. clearbody a b.
    assert (Hpos : 0 < a * (1000000 * b)) by nia.
    rewrite (proj2 (Z.ltb_lt _ _) Hpos).
    apply round_div_between; try lia.
    assert (0 <= us * (a * b)) by nia.
    assert (us * (a * b) <= 1000000 * (a * b)) by nia.
    split; [ring_simplify; lia |].
    replace (us * a * b) with (us * (a * b)) by ring.
    replace (1 * (a * (1000000 * b))) with (1000000 * (a * b)) by ring.
    assumption. }
  apply trunc_between. unfold add.
  apply round_div_between; try lia.
  rewrite Hx.
  set (a := den x) in *. set (b := den y) in *. set (c := num y) in *.
  clearbody a b c. clear - Hy Hdx Hdy.
  split.
  - replace (s * (a * b)) with (s * a * b + 0 * a) by ring.
    apply Z.add_le_mono_l. apply Z.mul_le_mono_nonneg_r; lia.
  - replace ((s + 1) * (a * b)) with (s * a * b + b * a) by ring.
    apply Z.add_le_mono_l. apply Z.mul_le_mono_nonneg_r; lia.
Qed.

End Rounding.

(** [int(t.timestamp())] is the POSIX second of [t], or the next one
    when the float of a late microsecond rounds up. *)
Lemma int_timestamp_between w t :
  float_exact w t ->
  (local_to_posix w (t / microseconds_per_second)
   <= int_timestamp w t
   <= local_to_posix w (t / microseconds_per_second) + 1)%Z.
Proof.
  intros Hexact. unfold int_timestamp, datetime_timestamp.
  apply trunc_seconds_between; [exact Hexact |].
  apply Z.mod_pos_bound. reflexivity.
Qed.

Lemma seconds_of_shifted t k :
  ((t - k * microseconds_per_second) / microseconds_per_second
   = t / microseconds_per_second - k)%Z.
Proof.
  unfold microseconds_per_second.
  replace (t - k * 1000000)%Z with (t + (- k) * 1000000)%Z by ring.
  rewrite Z.div_add by discriminate. ring.
Qed.




Lemma generate_expired_token_returns w st :
  exists v, value (generate_expired_token w) st = inr v.
Proof.
  destruct (generate_expired_token_frame w st) as (v & n & Hrun & _).
  exists v. unfold value. now rewrite Hrun.
Qed.

(** ** The statements at concrete runs *)

Lemma generate_report_true_iff_no_fail_witness :
  value (generate_report down_world) http_tester = inr true /\
  value (generate_report down_world) (with_results http_tester [failed_result])
  = inr false /\
  main (constant_world see_other_to_https) "https://example.com" None = 1%Z.
Proof.
  pose proof (generate_report_true_iff_no_fail down_world) as [Hreport _].
  pose proof (generate_report_true_iff_no_fail
                (constant_world see_other_to_https)) as [_ Hmain].
  split; [| split].
  - destruct (Hreport http_tester) as (b & Hv & Hiff).
    rewrite Hv. f_equal. apply Hiff. intros r [].
  - destruct (Hreport (with_results http_tester [failed_result]))
      as (b & Hv & Hiff).
    rewrite Hv. f_equal. destruct b; [| reflexivity].
    exfalso. apply (proj1 Hiff eq_refl failed_result); [now left | reflexivity].
  - destruct (Hmain "https://example.com" None) as (b & Hv & _ & Hexit).
    rewrite Hexit. vm_compute in Hv. injection Hv as <-. reflexivity.
Defined.

Lemma error_records_have_warn_severity_witness :
  severity (mkResult (clock 0) "SSL Configuration Test" "ERROR"
              "Connection refused" "WARN") = "WARN" /\
  value (run_all_tests down_world) http_tester = inr true /\
  main down_world "http://localhost:8080" None = 0%Z.
Proof.
  pose proof (error_records_have_warn_severity down_world) as [Hsev Hdown].
  assert (Hw : unreachable down_world) by (intros n r; eexists; reflexivity).
  destruct (Hdown Hw) as [Hrun Hmain].
  split; [| split].
  - apply (Hsev SslConfiguration https_tester); [now left | reflexivity].
  - apply Hrun. intros r [].
  - apply Hmain.
Defined.

(** When the construction of the token fails, the expired-token block
    appends nothing: no WARN record reports the failure. *)
Lemma expired_token_failure_is_silent :
  value (generate_expired_token (no_timestamp_world unauthorized)) http_tester
  = inr None /\
  appended (auth_expired_token (no_timestamp_world unauthorized)) http_tester = [] /\
  value (auth_expired_token (no_timestamp_world unauthorized)) http_tester = inr tt.
Proof. repeat split. Qed.

Lemma expired_token_step_witness :
  appended (auth_expired_token (no_timestamp_world unauthorized)) http_tester = [] /\
  (exists r,
      appended (auth_expired_token (constant_world unauthorized)) http_tester = [r] /\
      status r = "PASS") /\
  (exists r,
      appended (auth_expired_token down_world) http_tester = [r] /\
      status r = "WARN" /\ severity r = "WARN").
Proof.
  split; [| split].
  - apply (proj1 (expired_token_step (no_timestamp_world unauthorized) http_tester)).
    reflexivity.
  - destruct (proj2 (expired_token_step (constant_world unauthorized) http_tester)
                sample_token eq_refl) as (_ & Hresp & _).
    destruct (Hresp unauthorized eq_refl) as (r & Hr & Hpass & _).
    exists r. split; [exact Hr | apply Hpass; reflexivity].
  - destruct (proj2 (expired_token_step down_world http_tester)
                sample_token eq_refl) as (_ & _ & Hraise).
    exact (Hraise "Connection refused" eq_refl).
Defined.

Lemma injection_payload_classification_witness :
  (exists r,
      appended (test_injection_payload (constant_world ok_with_stack_trace)
                  "SQL Injection" "' OR 1=1 --" "customerDocument") http_tester = [r] /\
      status r = "WARN") /\
  (exists r,
      appended (test_injection_payload (constant_world ok_plain)
                  "SQL Injection" "' OR 1=1 --" "customerDocument") http_tester = [r] /\
      status r = "FAIL") /\
  (exists r,
      appended (test_injection_payload (constant_world ok_with_kelvin_sign)
                  "SQL Injection" "' OR 1=1 --" "customerDocument") http_tester = [r] /\
      status r = "WARN").
Proof.
  split; [| split].
  - destruct (injection_payload_classification (constant_world ok_with_stack_trace)
                "SQL Injection" "' OR 1=1 --" "customerDocument" http_tester
                ok_with_stack_trace eq_refl) as (r & Hr & _ & Hwarn & _).
    exists r. split; [exact Hr |]. apply Hwarn; [reflexivity |].
    exists "error". split; [now left | reflexivity].
  - destruct (injection_payload_classification (constant_world ok_plain)
                "SQL Injection" "' OR 1=1 --" "customerDocument" http_tester
                ok_plain eq_refl) as (r & Hr & _ & _ & Hfail & _).
    exists r. split; [exact Hr |]. apply Hfail; [reflexivity |].
    intros (kw & Hin & Hkw). simpl in Hin.
    destruct Hin as [<- | [<- | [<- | []]]]; discriminate Hkw.
  - destruct (injection_payload_classification (constant_world ok_with_kelvin_sign)
                "SQL Injection" "' OR 1=1 --" "customerDocument" http_tester
                ok_with_kelvin_sign eq_refl) as (r & Hr & _ & Hwarn & _).
    exists r. split; [exact Hr |]. apply Hwarn; [reflexivity |].
    exists "stack". split; [simpl; tauto | reflexivity].
Defined.

Lemma authorization_classification_witness :
  exists r,
    nth_error (appended (test_authorization (constant_world ok_plain)) http_tester) 5
    = Some r /\
    test r = "Sensitive Endpoint /admin/users" /\ status r = "FAIL".
Proof.
  destruct (proj2 (authorization_classification (constant_world ok_plain) http_tester)
              5%nat "/admin/users" ok_plain eq_refl eq_refl)
    as (r & Hr & Htest & _ & Hfail).
  exists r. split; [exact Hr |]. split; [exact Htest |].
  apply Hfail. simpl. lia.
Defined.

Lemma security_headers_classification_witness :
  map status (appended (test_security_headers (constant_world ok_plain)) http_tester)
  = ["FAIL"; "FAIL"; "FAIL"; "FAIL"; "FAIL"].
Proof.
  apply (proj2 (proj2 (security_headers_classification (constant_world ok_plain)
                         http_tester ok_plain eq_refl))).
  intros header expected _. reflexivity.
Defined.

Lemma rate_limiting_classification_witness :
  length (issued (test_rate_limiting (constant_world too_many_requests)) http_tester)
  = 50%nat /\
  exists r,
    appended (test_rate_limiting (constant_world too_many_requests)) http_tester = [r] /\
    status r = "PASS".
Proof.
  assert (Hans : answered (constant_world too_many_requests) http_tester
                   (status_probe http_tester) 50).
  { intros k _. exists too_many_requests. reflexivity. }
  destruct (proj2 (proj2 (rate_limiting_classification
                            (constant_world too_many_requests) http_tester)) Hans)
    as (Hissued & r & Hr & Hpass & _).
  split.
  - rewrite Hissued. apply repeat_length.
  - exists r. split; [exact Hr |]. apply Hpass.
    exists 0%nat. split; [lia | reflexivity].
Defined.



(** * Further properties of the code *)

(** ** Further properties: what a run leaves alone *)

Section Quiet.

Variable w : world.

Lemma quiet_here {A} (c : M A) :
  (forall st, exists v, c st = (v, st)) -> quiet c.
Proof.
  intros H st. destruct (H st) as [v Hv]. unfold exec. rewrite Hv. simpl.
  repeat split; auto. exists []. now rewrite app_nil_r.
Qed.

Lemma quiet_ret {A} (a : A) : quiet (ret a).
Proof. apply quiet_here. intros st. eexists. reflexivity. Qed.

Lemma quiet_get_state : quiet get_state.
Proof. apply quiet_here. intros st. eexists. reflexivity. Qed.

Lemma quiet_self_base_url : quiet self_base_url.
Proof. apply quiet_here. intros st. eexists. reflexivity. Qed.

Lemma quiet_timestamp_int t : quiet (timestamp_int w t).
Proof.
  apply quiet_here. intros st. unfold timestamp_int.
  destruct (timestamp_ok w t); eexists; reflexivity.
Qed.

Lemma quiet_datetime_now : quiet (datetime_now w).
Proof.
  intros st. unfold exec. simpl. repeat split; auto.
  exists []. now rewrite app_nil_r.
Qed.

Lemma quiet_results_append r : quiet (results_append r).
Proof.
  intros st. unfold exec. simpl. repeat split; auto.
  exists []. now rewrite app_nil_r.
Qed.

Lemma quiet_send r : quiet (send w r).
Proof.
  intros st. unfold exec, send.
  destruct (net w (length (sent st)) r); simpl; repeat split; eauto.
Qed.

Lemma quiet_bind {A B} (c : M A) (k : A -> M B) :
  quiet c -> (forall a, quiet (k a)) -> quiet (bind c k).
Proof.
  intros Hc Hk st. specialize (Hc st). unfold exec, bind in *.
  destruct (c st) as [[e | a] st1]; simpl in *; [exact Hc |].
  specialize (Hk a st1). unfold exec in Hk.
  destruct Hc as (H1 & H2 & H3 & H4 & H5 & q1 & H6).
  destruct Hk as (K1 & K2 & K3 & K4 & K5 & q2 & K6).
  repeat split; try congruence; try lia.
  exists (q1 ++ q2). rewrite K6, H6. now rewrite app_assoc.
Qed.

Lemma quiet_try {A} (c : M A) (h : string -> M A) :
  quiet c -> (forall e, quiet (h e)) -> quiet (try_catch c h).
Proof.
  intros Hc Hh st. specialize (Hc st). unfold exec, try_catch in *.
  destruct (c st) as [[e | a] st1]; simpl in *; [| exact Hc].
  specialize (Hh e st1). unfold exec in Hh.
  destruct Hc as (H1 & H2 & H3 & H4 & H5 & q1 & H6).
  destruct Hh as (K1 & K2 & K3 & K4 & K5 & q2 & K6).
  repeat split; try congruence; try lia.
  exists (q1 ++ q2). rewrite K6, H6. now rewrite app_assoc.
Qed.

Lemma quiet_log n s d v : quiet (log_result w n s d v).
Proof.
  unfold log_result. apply quiet_bind; [apply quiet_datetime_now |].
  intros t. apply quiet_results_append.
Qed.

Lemma quiet_for_each {A} (l : list A) (body : A -> M unit) :
  (forall x, quiet (body x)) -> quiet (for_each l body).
Proof.
  intros Hb. induction l as [| x l IH]; simpl.
  - apply quiet_ret.
  - apply quiet_bind; auto.
Qed.

Lemma quiet_for_fold {A B} (l : list A) (acc : B) (body : A -> B -> M B) :
  (forall x a, quiet (body x a)) -> quiet (for_fold l acc body).
Proof.
  intros Hb. revert acc. induction l as [| x l IH]; intros acc; simpl.
  - apply quiet_ret.
  - apply quiet_bind; auto.
Qed.

End Quiet.

Ltac quiet_step :=
  cbv beta zeta;
  match goal with
  | |- quiet (ret _) => apply quiet_ret
  | |- quiet (log_result _ _ _ _ _) => apply quiet_log
  | |- quiet (try_catch _ _) => apply quiet_try; [ | intros ? ]
  | |- quiet (for_each _ _) => apply quiet_for_each; intros ?
  | |- quiet (for_fold _ _ _) => apply quiet_for_fold; intros ? ?
  | |- quiet (bind _ _) => apply quiet_bind; [ | intros ? ]
  | |- quiet get_state => apply quiet_get_state
  | |- quiet self_base_url => apply quiet_self_base_url
  | |- quiet (datetime_now _) => apply quiet_datetime_now
  | |- quiet (timestamp_int _ _) => apply quiet_timestamp_int
  | |- quiet (send _ _) => apply quiet_send
  | |- quiet (requests_get _ _ _ _) => unfold requests_get
  | |- quiet (requests_options _ _ _) => unfold requests_options
  | |- quiet (session_get _ _) => unfold session_get
  | |- quiet (session_post _ _ _) => unfold session_post
  | |- quiet (if ?b then _ else _) => destruct b
  | |- quiet (match ?x with _ => _ end) => destruct x
  end.

Lemma check_quiet w c : quiet (run_check w c).
Proof. destruct c; simpl; unfold_checks; repeat quiet_step. Qed.

Lemma run_checks_quiet w : quiet (run_checks w).
Proof. unfold_checks; repeat quiet_step. Qed.

Lemma generate_expired_token_quiet w : quiet (generate_expired_token w).
Proof. unfold_checks; repeat quiet_step. Qed.

(** X1. No method of the tester changes the base URL, the token or the
    session headers; every method only adds to the log of requests sent
    and to the report files, and never moves the count of clock readings
    back.  The checks, [log_result] and [generate_expired_token] write no
    file; [generate_report] and [run_all_tests] write exactly one. *)
Theorem configuration_is_kept (w : world) :
  (forall op st,
      base_url (exec (run_operation w op) st) = base_url st /\
      auth_token (exec (run_operation w op) st) = auth_token st /\
      session_headers (exec (run_operation w op) st) = session_headers st /\
      (clock_reads st <= clock_reads (exec (run_operation w op) st))%nat /\
      (exists q, sent (exec (run_operation w op) st) = sent st ++ q) /\
      (exists f, files (exec (run_operation w op) st) = files st ++ f /\
                 length f = match op with
                            | GenerateReport | RunAllTests => 1%nat
                            | _ => 0%nat
                            end)).
Proof.
  assert (Hq : forall (c : M unit) st, quiet c ->
             base_url (exec c st) = base_url st /\
             auth_token (exec c st) = auth_token st /\
             session_headers (exec c st) = session_headers st /\
             (clock_reads st <= clock_reads (exec c st))%nat /\
             (exists q, sent (exec c st) = sent st ++ q) /\
             (exists f, files (exec c st) = files st ++ f /\ length f = 0%nat)).
  { intros c st Hc. destruct (Hc st) as (H1 & H2 & H3 & H4 & H5 & H6).
    repeat split; auto. exists []. rewrite app_nil_r. auto. }
  intros op st. destruct op as [c | n s d v | | |].
  - apply Hq, check_quiet.
  - apply Hq. simpl. apply quiet_log.
  - apply Hq. simpl. apply quiet_bind; [apply generate_expired_token_quiet |].
    intros a. apply quiet_ret.
  - simpl. unfold exec. simpl. repeat split; auto.
    + exists []. now rewrite app_nil_r.
    + eexists. split; [reflexivity | reflexivity].
  - destruct (run_checks_quiet w st) as (H1 & H2 & H3 & H4 & H5 & q & H6).
    pose proof (run_checks_returns w st) as Hv.
    simpl. unfold exec, value, run_all_tests, bind in *.
    destruct (run_checks w st) as [[e | []] st1]; simpl in *; [discriminate |].
    repeat split; auto.
    + exists q. exact H6.
    + eexists. split; [rewrite H4; reflexivity | reflexivity].
Qed.

(** ** Further properties: labels of the records *)

Ltac label_record :=
  intros ?; unfold well_labelled; simpl;
  first [ right; split; reflexivity
        | left; split; [reflexivity | tauto] ].

Lemma check_well_labelled w c :
  triple (run_check w c) well_labelled anything nothing.
Proof. destruct c; simpl; triple_auto label_record. Qed.

(** X2. Every record a check appends carries one of five label pairs:
    status and severity are equal and one of PASS, FAIL, WARN, INFO, or
    the status is ERROR and the severity WARN. *)
Theorem records_are_well_labelled (w : world) (c : check) (st : state) :
  Forall well_labelled (appended (run_check w c) st).
Proof.
  destruct (check_well_labelled w c st) as (l & Hr & Hf & _).
  now rewrite (appended_of_extension _ _ _ Hr).
Qed.

(** ** Further properties: the driver *)

(** X3. [run_all_tests] always returns: no exception of a check reaches
    the driver.  It writes exactly one report file, which holds the
    results list as it is at the end of the run, that is the records the
    tester had before followed by the records of the eight checks. *)
Theorem run_all_tests_reports (w : world) (st : state) :
  exists b t,
    value (run_all_tests w) st = inr b /\
    files (exec (run_all_tests w) st)
    = files st ++ [mkReport t (results (exec (run_all_tests w) st))] /\
    results (exec (run_all_tests w) st)
    = results st ++ appended (run_checks w) st.
Proof.
  destruct (run_checks_quiet w st) as (_ & _ & _ & Hfiles & _).
  destruct (run_checks_appends w st) as (l & Hres & _ & _).
  pose proof (run_checks_returns w st) as Hv.
  rewrite (appended_of_extension _ _ _ Hres).
  unfold exec, value, run_all_tests, bind in *.
  destruct (run_checks w st) as [[e | []] st1]; simpl in *; [discriminate |].
  do 2 eexists. split; [reflexivity |]. split; [rewrite Hfiles; reflexivity |].
  exact Hres.
Qed.

(** ** Further properties: the base URL *)

Lemma rstrip_decompose c s :
  exists k, s = PyStr.rstrip c s +++ replicate c k.
Proof.
  induction s as [| a s (k & IH)].
  - exists 0%nat. reflexivity.
  - cbn [PyStr.rstrip]. destruct (PyStr.rstrip c s) as [| y r] eqn:Hr.
    + destruct (Ascii.eqb_spec a c) as [-> | Hne].
      * exists (S k). simpl. f_equal. exact IH.
      * exists k. simpl. f_equal. exact IH.
    + exists k. simpl. f_equal. exact IH.
Qed.

Lemma append_last_nonempty t c : t +++ String c EmptyString <> EmptyString.
Proof. destruct t; discriminate. Qed.

Lemma rstrip_no_trailing c s t :
  PyStr.rstrip c s <> t +++ String c EmptyString.
Proof.
  revert t. induction s as [| a s IH]; intros t.
  - simpl. intros H. symmetry in H. exact (append_last_nonempty _ _ H).
  - cbn [PyStr.rstrip]. destruct (PyStr.rstrip c s) as [| y r] eqn:Hr.
    + destruct (Ascii.eqb_spec a c) as [-> | Hne].
      * intros H. symmetry in H. exact (append_last_nonempty _ _ H).
      * destruct t as [| x t]; simpl; intros H.
        -- injection H as H. contradiction.
        -- injection H as _ H. symmetry in H. exact (append_last_nonempty _ _ H).
    + destruct t as [| x t]; simpl; intros H.
      * discriminate H.
      * injection H as _ H. exact (IH t H).
Qed.

(** X4. [__init__] keeps the target without its trailing slashes: the
    argument is the stored base URL followed by some number of '/', and
    the stored base URL does not end with '/'.  The tester starts with no
    record, no request sent and no report written. *)
Theorem init_strips_trailing_slashes (base : string) (token : option string) :
  (exists k, base = base_url (init base token) +++ replicate "/" k) /\
  (forall t, base_url (init base token) <> t +++ "/") /\
  results (init base token) = [] /\
  sent (init base token) = [] /\
  files (init base token) = [].
Proof.
  split; [apply rstrip_decompose |].
  split; [intros t; apply rstrip_no_trailing |].
  repeat split.
Qed.

(** ** Further properties: the address of the TLS probe *)

Lemma prefix_append p s : String.prefix p (p +++ s) = true.
Proof. apply prefix_iff. exists s. reflexivity. Qed.

Lemma replace_absent old new s :
  PyStr.contains old s = false -> PyStr.replace old new s = s.
Proof.
  unfold PyStr.replace. induction s as [| c s IH].
  - reflexivity.
  - cbn [PyStr.contains PyStr.replace_from]. intros H.
    apply orb_false_iff in H as [Hp Hc]. rewrite Hp, (IH Hc). reflexivity.
Qed.

Lemma replace_https_prefix rest :
  PyStr.replace "https://" "http://" ("https://" +++ rest)
  = "http://" +++ PyStr.replace "https://" "http://" rest.
Proof.
  unfold PyStr.replace.
  change ("https://" +++ rest) with (String "h" ("ttps://" +++ rest)).
  cbn [PyStr.replace_from].
  change (String "h" ("ttps://" +++ rest)) with ("https://" +++ rest).
  rewrite prefix_append. reflexivity.
Qed.

(** X5. When the base URL is https:// followed by [rest], the request
    of the TLS check goes to http:// followed by [rest] in which every
    further https:// is rewritten too; its address never starts with
    https://, and it is exactly http:// + [rest] when [rest] holds no
    https://. *)
Theorem ssl_probe_goes_to_http (st : state) (rest : string) :
  base_url st = "https://" +++ rest ->
  req_url (ssl_probe st)
  = "http://" +++ PyStr.replace "https://" "http://" rest /\
  PyStr.startswith (req_url (ssl_probe st)) "https://" = false /\
  (PyStr.contains "https://" rest = false ->
   req_url (ssl_probe st) = "http://" +++ rest).
Proof.
  intros Hbase. unfold ssl_probe. cbn [req_url].
  rewrite Hbase, replace_https_prefix.
  split; [reflexivity |]. split; [reflexivity |].
  intros Hrest. now rewrite replace_absent.
Qed.

Lemma ssl_probe_goes_to_http_witness :
  req_url (ssl_probe https_tester) = "http://example.com".
Proof.
  exact (proj2 (proj2 (ssl_probe_goes_to_http https_tester "example.com" eq_refl))
           eq_refl).
Defined.

(** ** Further properties: the authentication check *)

(** the frame part of an [iteration], after the run equation *)
Ltac iteration_frame :=
  do 2 eexists; (split; [reflexivity |]); simpl;
  rewrite ?length_app; simpl; rewrite ?Nat.add_0_r;
  do 4 (split; [reflexivity |]).

Lemma auth_malformed_token_iteration w :
  iteration (auth_malformed_token w) 1 (malformed_verdict w).
Proof.
  intros token st. unfold malformed_verdict, auth_malformed_token. run_code.
  destruct (net w (length (sent st)) _) as [resp | e].
  - destruct (Z.eqb_spec (status_code resp) 401) as [H401 | H401];
      iteration_frame; (split; [| intros e H; discriminate H]);
      intros resp' [= <-]; (split; [reflexivity |]);
      split; intros; first [reflexivity | contradiction].
  - iteration_frame. split; [intros resp H; discriminate H |].
    intros e' [= <-]. repeat split.
Qed.

Lemma auth_without_token_run w st :
  exists r,
    auth_without_token w st
    = (inr tt,
       set_results
         (set_clock_reads (set_sent st (sent st ++ [anonymous_probe st]))
            (S (clock_reads st)))
         (results st ++ [r])) /\
    test r = "Auth Without Token" /\
    (forall resp,
        net w (length (sent st)) (anonymous_probe st) = Responded resp ->
        (status_code resp = 401%Z -> status r = "PASS") /\
        (status_code resp <> 401%Z -> status r = "FAIL")) /\
    (forall e,
        net w (length (sent st)) (anonymous_probe st) = Raised e ->
        status r = "ERROR" /\ severity r = "WARN" /\ details r = e).
Proof.
  unfold auth_without_token. run_code. fold (anonymous_probe st).
  destruct (net w (length (sent st)) (anonymous_probe st)) as [resp | e].
  - destruct (Z.eqb_spec (status_code resp) 401) as [H401 | H401];
      eexists; (split; [reflexivity |]); (split; [reflexivity |]);
      (split; [| intros e H; discriminate H]);
      intros resp' [= <-]; split; intros; first [reflexivity | contradiction].
  - eexists. split; [reflexivity |]. split; [reflexivity |].
    split; [intros resp H; discriminate H |].
    intros e' [= <-]. repeat split.
Qed.

Lemma auth_expired_token_appends w :
  triple (auth_expired_token w) anything anything nothing.
Proof. triple_auto ltac:(intros; exact I). Qed.

(** X6. [test_authentication] appends its records in the order of its
    blocks.  Record 0 is "Auth Without Token", made from the answer to
    the request without any header: PASS for status 401, FAIL for every
    other status, ERROR with the message as details when the request
    fails.  Records 1 to 4 are those of the four malformed tokens, each
    sent as "Bearer <token>": PASS for 401, FAIL for every other status,
    ERROR when the request fails.  A failing request never keeps the
    later ones from being sent. *)
Theorem authentication_classification (w : world) (st : state) :
  (exists r,
      nth_error (appended (test_authentication w) st) 0 = Some r /\
      test r = "Auth Without Token" /\
      (forall resp,
          net w (length (sent st)) (anonymous_probe st) = Responded resp ->
          (status_code resp = 401%Z -> status r = "PASS") /\
          (status_code resp <> 401%Z -> status r = "FAIL")) /\
      (forall e,
          net w (length (sent st)) (anonymous_probe st) = Raised e ->
          status r = "ERROR" /\ severity r = "WARN" /\ details r = e)) /\
  (forall k token,
      nth_error malformed_tokens k = Some token ->
      exists r,
        nth_error (appended (test_authentication w) st) (1 + k) = Some r /\
        (forall resp,
            net w (length (sent st) + 1 + k) (expired_token_probe st token)
            = Responded resp ->
            test r = "Malformed Token (" +++ PyStr.take 20 token +++ "...)" /\
            (status_code resp = 401%Z -> status r = "PASS") /\
            (status_code resp <> 401%Z -> status r = "FAIL")) /\
        (forall e,
            net w (length (sent st) + 1 + k) (expired_token_probe st token)
            = Raised e ->
            test r = "Malformed Token" /\ status r = "ERROR" /\ details r = e)).
Proof.
  destruct (auth_without_token_run w st) as (r0 & Hrun0 & Htest0 & Hresp0 & Herr0).
  set (st1 := set_results
                (set_clock_reads (set_sent st (sent st ++ [anonymous_probe st]))
                   (S (clock_reads st))) (results st ++ [r0])) in *.
  destruct (for_each_records _ _ _ (auth_malformed_token_iteration w)
              malformed_tokens st1)
    as (rs & st2 & Hrun1 & Hres1 & _ & _ & _ & Hlen & Hnth).
  destruct (auth_expired_token_appends w st2) as (l3 & Hres2 & _ & _).
  assert (Happ : appended (test_authentication w) st = r0 :: rs ++ l3).
  { apply appended_of_extension.
    unfold exec, test_authentication, bind in *. rewrite Hrun0, Hrun1.
    rewrite Hres2, Hres1. subst st1. simpl. rewrite <- !app_assoc. reflexivity. }
  rewrite Happ. split.
  - exists r0. split; [reflexivity |]. split; [exact Htest0 |].
    split; [exact Hresp0 | exact Herr0].
  - intros k token Hk.
    destruct (Hnth k token Hk) as (r & Hr & Hresp & Herr).
    exists r. split.
    + simpl. rewrite nth_error_app1; [exact Hr |].
      apply nth_error_Some. congruence.
    + rewrite Nat.mul_1_l in Hresp, Herr. subst st1.
      cbn [sent base_url set_results set_clock_reads set_sent] in Hresp, Herr.
      rewrite length_app in Hresp, Herr. split; assumption.
Qed.

(** ** Further properties: the information-disclosure check *)

Lemma probe_info_endpoint_iteration w :
  iteration (probe_info_endpoint w) 1 (info_verdict w).
Proof.
  intros endpoint st. unfold info_verdict, probe_info_endpoint. run_code.
  destruct (net w (length (sent st)) _) as [resp | e].
  - destruct (Z.eqb_spec (status_code resp) 200) as [H200 | H200].
    + fold (found_sensitive resp).
      destruct (found_sensitive resp) as [| kw kws] eqn:Hfound.
      * iteration_done. split; [discriminate |].
        intros resp' [= <-]. rewrite Hfound.
        repeat split; intros; first [reflexivity | contradiction].
      * iteration_done. split; [discriminate |].
        intros resp' [= <-]. rewrite Hfound.
        repeat split; intros; first [reflexivity | contradiction | discriminate].
    + iteration_done. split; [discriminate |].
      intros resp' [= <-].
      repeat split; intros; first [reflexivity | contradiction].
  - iteration_done. split; [discriminate |]. intros resp' H; discriminate H.
Qed.

(** X7. [test_information_disclosure] appends one record and sends one
    request per endpoint, whatever the answers; no record of it is FAIL.
    When the request for the [k]-th endpoint is answered with status 200
    and the lowercased body holds sensitive keywords, the record is WARN
    and its details list the keywords found, in the order of the table;
    with status 200 and no keyword, or with any other status, it is
    PASS. *)
Theorem information_disclosure_classification (w : world) (st : state) :
  length (appended (test_information_disclosure w) st) = length info_endpoints /\
  length (issued (test_information_disclosure w) st) = length info_endpoints /\
  Forall not_fail (appended (test_information_disclosure w) st) /\
  forall k endpoint resp,
    nth_error info_endpoints k = Some endpoint ->
    net w (length (sent st) + k) (info_probe st endpoint) = Responded resp ->
    exists r,
      nth_error (appended (test_information_disclosure w) st) k = Some r /\
      test r = "Info Disclosure " +++ endpoint /\
      (status_code resp = 200%Z -> found_sensitive resp <> [] ->
       status r = "WARN" /\
       details r
       = "Possível vazamento: " +++ PyStr.join ", " (found_sensitive resp)) /\
      (status_code resp = 200%Z -> found_sensitive resp = [] -> status r = "PASS") /\
      (status_code resp <> 200%Z -> status r = "PASS").
Proof.
  destruct (for_each_records _ _ _ (probe_info_endpoint_iteration w)
              info_endpoints st)
    as (rs & st' & Hrun & Hres & Hsent & _ & _ & Hlen & Hnth).
  unfold test_information_disclosure.
  rewrite (appended_run _ _ _ _ _ Hrun Hres).
  split; [exact Hlen |]. split; [| split].
  - unfold issued, exec. rewrite Hrun. cbn [snd].
    rewrite length_skipn, Hsent. lia.
  - apply Forall_forall. intros r Hin.
    apply In_nth_error in Hin as [k Hk].
    destruct (nth_error info_endpoints k) as [endpoint |] eqn:He.
    + destruct (Hnth k endpoint He) as (r' & Hr' & _ & Hnf & _).
      assert (r' = r) by congruence. subst r'. exact Hnf.
    + apply nth_error_None in He. rewrite <- Hlen in He.
      apply nth_error_None in He. congruence.
  - intros k endpoint resp Hk Hnet.
    destruct (Hnth k endpoint Hk) as (r & Hr & Htest & _ & HR).
    exists r. split; [exact Hr |]. split; [exact Htest |].
    rewrite Nat.mul_1_l in HR. exact (HR resp Hnet).
Qed.

(** ** Further properties: the injection check as a whole *)

Lemma for_each_app {A} (l1 l2 : list A) (body : A -> M unit) st :
  for_each (l1 ++ l2) body st = (for_each l1 body ;; for_each l2 body) st.
Proof.
  revert st. induction l1 as [| x l1 IH]; intros st.
  - reflexivity.
  - simpl. unfold bind. destruct (body x st) as [[e | []] st1]; [reflexivity |].
    rewrite IH. reflexivity.
Qed.

Lemma for_each_map {A B} (f : A -> B) (l : list A) (body : B -> M unit) st :
  for_each (map f l) body st = for_each l (fun x => body (f x)) st.
Proof.
  revert st. induction l as [| x l IH]; intros st.
  - reflexivity.
  - simpl. unfold bind. destruct (body (f x) st) as [[e | []] st1]; [reflexivity |].
    apply IH.
Qed.

Lemma test_injection_attacks_cases w st :
  test_injection_attacks w st
  = for_each injection_cases
      (fun case => test_injection_payload w (fst case) (snd case) "customerDocument")
      st.
Proof.
  unfold injection_cases, test_injection_attacks.
  rewrite for_each_app. unfold bind. rewrite for_each_map. cbn [fst snd].
  destruct (for_each sql_payloads _ st) as [[e | []] st1]; [reflexivity |].
  rewrite for_each_app. unfold bind. rewrite for_each_map. cbn [fst snd].
  destruct (for_each xss_payloads _ st1) as [[e | []] st2]; [reflexivity |].
  rewrite for_each_map. reflexivity.
Qed.

Lemma test_injection_payload_iteration w :
  iteration
    (fun case => test_injection_payload w (fst case) (snd case) "customerDocument")
    1 (injection_verdict w).
Proof.
  intros [attack_type payload] st. cbn [fst snd].
  unfold injection_verdict, test_injection_payload. run_code. cbn [fst snd].
  destruct (net w (length (sent st)) _) as [resp | e].
  - destruct (existsb (Z.eqb (status_code resp)) [400; 422]%Z) eqn:Hrej.
    + apply existsb_Zeqb in Hrej. simpl in Hrej.
      iteration_frame. split; [| intros e H; discriminate H].
      intros resp' [= <-]. split; [reflexivity |].
      repeat split; intros; try reflexivity; exfalso; lia.
    + apply existsb_Zeqb_false in Hrej. simpl in Hrej.
      destruct (Z.eqb_spec (status_code resp) 200) as [H200 | H200].
      * destruct (existsb _ error_keywords) eqn:Hkw.
        -- apply existsb_keyword in Hkw.
           iteration_frame. split; [| intros e H; discriminate H].
           intros resp' [= <-]. split; [reflexivity |].
           repeat split; intros;
             first [reflexivity | contradiction | exfalso; lia].
        -- assert (Hno : ~ has_error_keyword (PyStr.lower (text resp))).
           { rewrite <- existsb_keyword. congruence. }
           iteration_frame. split; [| intros e H; discriminate H].
           intros resp' [= <-]. split; [reflexivity |].
           repeat split; intros;
             first [reflexivity | contradiction | exfalso; lia].
      * iteration_frame. split; [| intros e H; discriminate H].
        intros resp' [= <-]. split; [reflexivity |].
        repeat split; intros;
          first [reflexivity | contradiction | exfalso; lia].
  - iteration_frame. split; [intros resp H; discriminate H |].
    intros e' [= <-]. repeat split.
Qed.

(** X8. [test_injection_attacks] makes fifteen calls of
    [test_injection_payload], the SQL payloads first, then the XSS and
    the command payloads, each in the field customerDocument; it always
    appends fifteen records and sends fifteen requests.  The [k]-th
    record belongs to the [k]-th payload: when its request is answered,
    the record is named after the attack type and the first 30
    characters of the payload and classified by the status and body;
    when the request fails, it is an ERROR record with the message as
    details, and the later payloads are still sent. *)
Theorem injection_attacks_classification (w : world) (st : state) :
  length (appended (test_injection_attacks w) st) = 15%nat /\
  length (issued (test_injection_attacks w) st) = 15%nat /\
  forall k attack_type payload,
    nth_error injection_cases k = Some (attack_type, payload) ->
    exists r,
      nth_error (appended (test_injection_attacks w) st) k = Some r /\
      (forall resp,
          net w (length (sent st) + k)
              (injection_probe st payload "customerDocument") = Responded resp ->
          test r = attack_type +++ " (" +++ PyStr.take 30 payload +++ "...)" /\
          (status_code resp = 400%Z \/ status_code resp = 422%Z ->
           status r = "PASS") /\
          (status_code resp = 200%Z ->
           has_error_keyword (PyStr.lower (text resp)) -> status r = "WARN") /\
          (status_code resp = 200%Z ->
           ~ has_error_keyword (PyStr.lower (text resp)) -> status r = "FAIL") /\
          (status_code resp <> 400%Z -> status_code resp <> 422%Z ->
           status_code resp <> 200%Z -> status r = "INFO")) /\
      (forall e,
          net w (length (sent st) + k)
              (injection_probe st payload "customerDocument") = Raised e ->
          test r = attack_type +++ " Payload Test" /\
          status r = "ERROR" /\ details r = e).
Proof.
  destruct (for_each_records _ _ _ (test_injection_payload_iteration w)
              injection_cases st)
    as (rs & st' & Hrun & Hres & Hsent & _ & _ & Hlen & Hnth).
  rewrite <- test_injection_attacks_cases in Hrun.
  rewrite (appended_run _ _ _ _ _ Hrun Hres).
  split; [exact Hlen |]. split.
  - unfold issued, exec. rewrite Hrun. cbn [snd].
    rewrite length_skipn, Hsent. simpl. lia.
  - intros k attack_type payload Hk.
    destruct (Hnth k _ Hk) as (r & Hr & HR).
    exists r. split; [exact Hr |].
    rewrite Nat.mul_1_l in HR. exact HR.
Qed.

(** ** Further properties: the CORS check *)

Lemma probe_origin_answered w origin st resp :
  net w (length (sent st)) (cors_probe st origin) = Responded resp ->
  exists r,
    probe_origin w origin st
    = (inr tt,
       set_results
         (set_clock_reads (set_sent st (sent st ++ [cors_probe st origin]))
            (S (clock_reads st)))
         (results st ++ [r])) /\
    cors_verdict resp origin r.
Proof.
  intros Hnet. unfold probe_origin, cors_verdict, origin_allowed. run_code.
  fold (cors_probe st origin). rewrite Hnet.
  destruct (headers_get "Access-Control-Allow-Origin" (headers resp)) as [v |].
  - destruct (String.eqb_spec v origin) as [-> | Hne]; cbn [orb].
    + eexists. split; [reflexivity |]. split; [reflexivity |].
      split; intros H; [reflexivity | exfalso; apply H; now left].
    + destruct (String.eqb_spec v "*") as [-> | Hstar].
      * eexists. split; [reflexivity |]. split; [reflexivity |].
        split; intros H; [reflexivity | exfalso; apply H; now right].
      * eexists. split; [reflexivity |]. split; [reflexivity |].
        split; intros H; [| reflexivity].
        destruct H as [[= H] | [= H]]; contradiction.
  - eexists. split; [reflexivity |]. split; [reflexivity |].
    split; intros H; [| reflexivity]. destruct H as [H | H]; discriminate H.
Qed.

Lemma probe_origin_raised w origin st e :
  net w (length (sent st)) (cors_probe st origin) = Raised e ->
  probe_origin w origin st
  = (inl e, set_sent st (sent st ++ [cors_probe st origin])).
Proof.
  intros Hnet. unfold probe_origin. run_code.
  fold (cors_probe st origin). rewrite Hnet. reflexivity.
Qed.

(** the loop over an answered prefix of the origins *)
Lemma cors_loop_prefix w : forall l st k,
  (k <= length l)%nat ->
  origins_answered w st l k ->
  exists rs st1,
    for_each l (probe_origin w) st = for_each (skipn k l) (probe_origin w) st1 /\
    results st1 = results st ++ rs /\
    length rs = k /\
    length (sent st1) = (length (sent st) + k)%nat /\
    base_url st1 = base_url st /\
    forall j origin resp,
      nth_error l j = Some origin -> (j < k)%nat ->
      net w (length (sent st) + j) (cors_probe st origin) = Responded resp ->
      exists r, nth_error rs j = Some r /\ cors_verdict resp origin r.
Proof.
  induction l as [| x l IH]; intros st k Hk Hans.
  - simpl in Hk. assert (k = 0)%nat by lia. subst k.
    exists [], st. rewrite app_nil_r, Nat.add_0_r. repeat split. intros; lia.
  - destruct k as [| k].
    + exists [], st. rewrite app_nil_r, Nat.add_0_r. repeat split. intros; lia.
    + destruct (Hans 0%nat x) as [resp0 Hresp0]; [lia | reflexivity |].
      rewrite Nat.add_0_r in Hresp0.
      destruct (probe_origin_answered w x st resp0 Hresp0) as (r0 & Hrun0 & Hv0).
      set (st0 := set_results
                    (set_clock_reads (set_sent st (sent st ++ [cors_probe st x]))
                       (S (clock_reads st))) (results st ++ [r0])) in *.
      assert (Hlen0 : length (sent st0) = S (length (sent st))).
      { subst st0. simpl. rewrite length_app. simpl. lia. }
      destruct (IH st0 k) as (rs & st1 & Hrun & Hres & Hlen & Hsent & Hbase & Hnth).
      { simpl in Hk. lia. }
      { intros j origin Hj Horigin.
        destruct (Hans (S j) origin) as [resp Hresp]; [lia | exact Horigin |].
        exists resp. rewrite Hlen0. rewrite <- Hresp. f_equal. lia. }
      exists (r0 :: rs), st1. simpl for_each. unfold bind at 1. rewrite Hrun0.
      split; [exact Hrun |].
      split; [rewrite Hres; subst st0; simpl; now rewrite <- app_assoc |].
      split; [simpl; congruence |].
      split; [rewrite Hsent, Hlen0; lia |].
      split; [rewrite Hbase; reflexivity |].
      intros [| j] origin resp Horigin Hj Hresp.
      * simpl in Horigin. injection Horigin as <-.
        rewrite Nat.add_0_r, Hresp0 in Hresp. injection Hresp as <-.
        exists r0. split; [reflexivity | exact Hv0].
      * simpl in Horigin. apply (Hnth j origin resp Horigin); [lia |].
        rewrite Hlen0. rewrite <- Hresp. f_equal. lia.
Qed.

(** X9. When the four preflight requests of [test_cors_configuration]
    are answered, it appends four records, one per origin in the order of
    the list: FAIL when the Access-Control-Allow-Origin header of the
    answer is the origin itself or "*", PASS otherwise (also when the
    header is absent). *)
Theorem cors_classification (w : world) (st : state) :
  origins_answered w st malicious_origins (length malicious_origins) ->
  length (appended (test_cors_configuration w) st) = 4%nat /\
  length (issued (test_cors_configuration w) st) = 4%nat /\
  forall j origin resp,
    nth_error malicious_origins j = Some origin ->
    net w (length (sent st) + j) (cors_probe st origin) = Responded resp ->
    exists r,
      nth_error (appended (test_cors_configuration w) st) j = Some r /\
      test r = "CORS Origin " +++ origin /\
      (origin_allowed resp origin -> status r = "FAIL") /\
      (~ origin_allowed resp origin -> status r = "PASS").
Proof.
  intros Hans.
  destruct (cors_loop_prefix w malicious_origins st (length malicious_origins)
              (le_n _) Hans)
    as (rs & st1 & Hrun & Hres & Hlen & Hsent & _ & Hnth).
  rewrite skipn_all in Hrun.
  change (for_each [] (probe_origin w) st1) with (@inr string unit tt, st1) in Hrun.
  assert (Hcheck : test_cors_configuration w st = (inr tt, st1)).
  { unfold test_cors_configuration, try_catch. rewrite Hrun. reflexivity. }
  rewrite (appended_run _ _ _ _ _ Hcheck Hres).
  split; [exact Hlen |]. split.
  - unfold issued, exec. rewrite Hcheck. cbn [snd].
    rewrite length_skipn, Hsent. simpl. lia.
  - intros j origin resp Horigin Hresp.
    apply (Hnth j origin resp Horigin); [| exact Hresp].
    apply nth_error_Some. congruence.
Qed.

(** X10. The CORS check has one exception handler around its whole loop:
    when the requests for the first [k] origins are answered and the next
    one fails, the check appends the [k] records of the answered origins
    and one ERROR record "CORS Configuration Test" with the message as
    details, sends [k + 1] requests, and does not probe the origins that
    follow. *)
Theorem cors_stops_at_first_error (w : world) (st : state)
  (k : nat) (origin e : string) :
  nth_error malicious_origins k = Some origin ->
  origins_answered w st malicious_origins k ->
  net w (length (sent st) + k) (cors_probe st origin) = Raised e ->
  length (appended (test_cors_configuration w) st) = (k + 1)%nat /\
  length (issued (test_cors_configuration w) st) = (k + 1)%nat /\
  exists r,
    nth_error (appended (test_cors_configuration w) st) k = Some r /\
    test r = "CORS Configuration Test" /\
    status r = "ERROR" /\ severity r = "WARN" /\ details r = e.
Proof.
  intros Horigin Hans Hnet.
  assert (Hk : (k < length malicious_origins)%nat).
  { apply nth_error_Some. congruence. }
  destruct (cors_loop_prefix w malicious_origins st k (Nat.lt_le_incl _ _ Hk) Hans)
    as (rs & st1 & Hrun & Hres & Hlen & Hsent & Hbase & _).
  destruct (nth_error_split _ _ Horigin) as (l1 & l2 & Hsplit & Hl1).
  assert (Hskip : skipn k malicious_origins = origin :: l2).
  { rewrite Hsplit, <- Hl1. apply skipn_length_app. }
  rewrite Hskip in Hrun.
  change (for_each (origin :: l2) (probe_origin w) st1)
    with (bind (probe_origin w origin) (fun _ => for_each l2 (probe_origin w)) st1)
    in Hrun.
  unfold bind in Hrun.
  assert (Hnet1 : net w (length (sent st1)) (cors_probe st1 origin) = Raised e).
  { rewrite Hsent. unfold cors_probe. rewrite Hbase. exact Hnet. }
  rewrite (probe_origin_raised w origin st1 e Hnet1) in Hrun.
  assert (Hcheck : exists r,
    test_cors_configuration w st
    = (inr tt,
       set_results
         (set_clock_reads (set_sent st1 (sent st1 ++ [cors_probe st1 origin]))
            (S (clock_reads st1)))
         (results st1 ++ [r])) /\
    test r = "CORS Configuration Test" /\
    status r = "ERROR" /\ severity r = "WARN" /\ details r = e).
  { unfold test_cors_configuration, try_catch. rewrite Hrun. run_code.
    eexists. split; [reflexivity |]. repeat split. }
  destruct Hcheck as (r & Hcheck & Hr).
  assert (Happ : appended (test_cors_configuration w) st = rs ++ [r]).
  { eapply appended_run; [exact Hcheck |]. simpl. rewrite Hres.
    now rewrite <- app_assoc. }
  rewrite Happ. split; [rewrite length_app, Hlen; reflexivity |]. split.
  - unfold issued, exec. rewrite Hcheck. cbn [snd]. simpl.
    rewrite length_skipn, length_app, Hsent. simpl. lia.
  - exists r. split; [| exact Hr].
    rewrite nth_error_app2 by lia. rewrite Hlen, Nat.sub_diag. reflexivity.
Qed.

(** ** Further properties: checks cut short by a transport error *)

Lemma probe_loop_raised w : forall l acc st k e,
  (k < length l)%nat ->
  answered w st (status_probe st) k ->
  net w (length (sent st) + k) (status_probe st) = Raised e ->
  for_fold l acc (rate_limit_probe w) st
  = (inl e, set_sent st (sent st ++ repeat (status_probe st) (S k))).
Proof.
  induction l as [| x l IH]; intros acc st k e Hk Hans Hnet.
  - simpl in Hk. lia.
  - rewrite for_fold_cons, rate_limit_probe_run. destruct k as [| k].
    + rewrite Nat.add_0_r in Hnet. rewrite Hnet. reflexivity.
    + destruct (Hans 0%nat) as [resp Hresp]; [lia |].
      rewrite Nat.add_0_r in Hresp. rewrite Hresp.
      rewrite (IH _ _ k e).
      * simpl. rewrite <- app_assoc. reflexivity.
      * simpl in Hk. lia.
      * intros j Hj. simpl. rewrite length_app. simpl.
        destruct (Hans (S j)) as [resp' Hresp']; [lia |].
        exists resp'. rewrite <- Hresp'. f_equal. lia.
      * simpl. rewrite length_app. simpl. rewrite <- Hnet. f_equal. lia.
Qed.

(** X11. [test_rate_limiting] has one exception handler around its
    loop: when its first [k] requests are answered and the next one
    fails, it has sent [k + 1] requests and sends no more, and it appends
    the single record "Rate Limiting Test" with status ERROR, severity
    WARN and the message as details, whatever statuses came before (a 429
    among them included). *)
Theorem rate_limiting_stops_at_first_error (w : world) (st : state)
  (k : nat) (e : string) :
  (k < 50)%nat ->
  answered w st (status_probe st) k ->
  net w (length (sent st) + k) (status_probe st) = Raised e ->
  issued (test_rate_limiting w) st = repeat (status_probe st) (k + 1) /\
  exists r,
    appended (test_rate_limiting w) st = [r] /\
    test r = "Rate Limiting Test" /\
    status r = "ERROR" /\ severity r = "WARN" /\ details r = e.
Proof.
  intros Hk Hans Hnet.
  assert (Hrun : for_fold (seq 0 rate_limit_probes) [] (rate_limit_probe w) st
                 = (inl e, set_sent st (sent st ++ repeat (status_probe st) (S k)))).
  { apply probe_loop_raised; [rewrite length_seq; exact Hk | exact Hans | exact Hnet]. }
  rewrite Nat.add_1_r. split.
  - unfold issued, exec, test_rate_limiting.
    unfold try_catch, bind at 1. rewrite Hrun. run_code. cbn [sent set_sent set_results set_clock_reads].
    apply skipn_length_app.
  - unfold appended, exec, test_rate_limiting.
    unfold try_catch, bind at 1. rewrite Hrun. run_code.
    cbn [results set_sent set_results set_clock_reads].
    rewrite skipn_length_app. eexists. split; [reflexivity |]. repeat split.
Qed.

(** X12. When the request of [test_security_headers] fails, the check
    appends the single record "Security Headers Test" with status ERROR,
    severity WARN and the message as details: no header is judged, so no
    header record, FAIL or other, is appended. *)
Theorem security_headers_on_error (w : world) (st : state) (e : string) :
  net w (length (sent st)) (status_probe st) = Raised e ->
  issued (test_security_headers w) st = [status_probe st] /\
  exists r,
    appended (test_security_headers w) st = [r] /\
    test r = "Security Headers Test" /\
    status r = "ERROR" /\ severity r = "WARN" /\ details r = e.
Proof.
  intros Hnet. split.
  - unfold issued, exec, test_security_headers. run_code.
    fold (endpoint_probe st "/api/v1/alerts/status"). fold (status_probe st).
    rewrite Hnet. cbn [sent set_sent set_results set_clock_reads].
    apply skipn_length_app.
  - unfold appended, exec, test_security_headers. run_code.
    fold (endpoint_probe st "/api/v1/alerts/status"). fold (status_probe st).
    rewrite Hnet. cbn [results set_sent set_results set_clock_reads].
    rewrite skipn_length_app. eexists. split; [reflexivity |]. repeat split.
Qed.

(** ** Further properties: how many records and requests a run makes *)

Lemma summary_bind {A B} b (c : M A) (k : A -> M B) r1 r2 q1 q2 r1' r2' q1' q2' :
  summary b c r1 r2 q1 q2 ->
  (forall a, summary b (k a) r1' r2' q1' q2') ->
  summary b (bind c k) (r1 + r1') (r2 + r2') (q1 + q1') (q2 + q2').
Proof.
  intros Hc Hk st Hb. destruct (Hc st Hb) as (a & st1 & Hrun & Hb1 & Hr & Hq).
  destruct (Hk a st1 Hb1) as (a' & st2 & Hrun' & Hb2 & Hr' & Hq').
  exists a', st2. unfold bind. rewrite Hrun, Hrun'.
  split; [reflexivity |]. split; [exact Hb2 |]. split; lia.
Qed.

Lemma summary_weaken {A} b (c : M A) r1 r2 q1 q2 r1' r2' q1' q2' :
  summary b c r1 r2 q1 q2 ->
  (r1' <= r1)%nat -> (r2 <= r2')%nat -> (q1' <= q1)%nat -> (q2 <= q2')%nat ->
  summary b c r1' r2' q1' q2'.
Proof.
  intros Hc H1 H2 H3 H4 st Hb.
  destruct (Hc st Hb) as (a & st1 & Hrun & Hb1 & Hr & Hq).
  exists a, st1. repeat split; try assumption; lia.
Qed.

(** a loop of iterations: one record and [d] requests each *)
Lemma summary_for_each {A} b (body : A -> M unit) d R (l : list A) :
  iteration body d R ->
  summary b (for_each l body) (length l) (length l) (d * length l) (d * length l).
Proof.
  intros Hit st Hb.
  destruct (for_each_records body d R Hit l st)
    as (rs & st' & Hrun & Hres & Hsent & Hbase & _ & Hlen & _).
  exists tt, st'. split; [exact Hrun |]. split; [congruence |].
  rewrite Hres, length_app, Hlen, Hsent. split; lia.
Qed.

Section Counts.

Variable w : world.
Variable b : string.

Lemma auth_without_token_summary : summary b (auth_without_token w) 1 1 1 1.
Proof.
  intros st Hb. destruct (auth_without_token_run w st) as (r & Hrun & _).
  do 2 eexists. split; [exact Hrun |]. simpl.
  rewrite !length_app. simpl. split; [exact Hb |]. split; lia.
Qed.

Lemma auth_expired_token_run st :
  exists v n,
    generate_expired_token w st = (inr v, set_clock_reads st n) /\
    (v = None \/ exists c t, v = Some (String c t)) /\
    auth_expired_token w st
    = match v with
      | Some (String c t) =>
          match net w (length (sent st)) (expired_token_probe st (String c t)) with
          | Responded resp =>
              if (status_code resp =? 401)%Z
              then log_result w "Expired Token" "PASS" "Token expirado rejeitado" "PASS"
                     (set_sent (set_clock_reads st n)
                        (sent st ++ [expired_token_probe st (String c t)]))
              else log_result w "Expired Token" "FAIL"
                     ("Token expirado aceito (status: "
                        +++ PyStr.of_Z (status_code resp) +++ ")") "FAIL"
                     (set_sent (set_clock_reads st n)
                        (sent st ++ [expired_token_probe st (String c t)]))
          | Raised e =>
              log_result w "Expired Token" "WARN"
                ("Não foi possível testar: " +++ e) "WARN"
                (set_sent (set_clock_reads st n)
                   (sent st ++ [expired_token_probe st (String c t)]))
          end
      | _ => (inr tt, set_clock_reads st n)
      end.
Proof.
  destruct (generate_expired_token_frame w st) as (v & n & Hrun & Hv).
  exists v, n. split; [exact Hrun |]. split; [exact Hv |].
  unfold auth_expired_token, try_catch, bind at 1. rewrite Hrun.
  destruct Hv as [-> | (c & t & ->)]; [reflexivity |].
  cbv beta iota. run_code. simpl.
  fold (expired_token_probe st (String c t)).
  destruct (net w (length (sent st)) _) as [resp | e]; [| reflexivity].
  destruct (status_code resp =? 401)%Z; reflexivity.
Qed.

Lemma auth_expired_token_summary : summary b (auth_expired_token w) 0 1 0 1.
Proof.
  intros st Hb. destruct (auth_expired_token_run st) as (v & n & _ & Hv & ->).
  destruct Hv as [-> | (c & t & ->)].
  - do 2 eexists. split; [reflexivity |]. simpl. split; [exact Hb |]. split; lia.
  - destruct (net w (length (sent st)) _) as [resp | e];
      [destruct (status_code resp =? 401)%Z |];
      do 2 eexists; (split; [reflexivity |]); simpl; rewrite !length_app; simpl;
      (split; [exact Hb |]); split; lia.
Qed.

Lemma auth_expired_token_exact :
  timestamps_ok w -> summary b (auth_expired_token w) 1 1 1 1.
Proof.
  intros Hok st Hb. destruct (auth_expired_token_run st) as (v & n & Hgen & Hv & ->).
  destruct Hv as [-> | (c & t & ->)].
  - exfalso. rewrite generate_expired_token_run in Hgen. cbv zeta in Hgen.
    rewrite !Hok in Hgen. discriminate Hgen.
  - destruct (net w (length (sent st)) _) as [resp | e];
      [destruct (status_code resp =? 401)%Z |];
      do 2 eexists; (split; [reflexivity |]); simpl; rewrite !length_app; simpl;
      (split; [exact Hb |]); split; lia.
Qed.

Lemma test_security_headers_run st :
  exists st',
    test_security_headers w st = (inr tt, st') /\
    base_url st' = base_url st /\
    length (sent st') = (length (sent st) + 1)%nat /\
    match net w (length (sent st)) (status_probe st) with
    | Responded _ => length (results st') = (length (results st) + 5)%nat
    | Raised _ => length (results st') = (length (results st) + 1)%nat
    end.
Proof.
  unfold test_security_headers. run_code.
  fold (endpoint_probe st "/api/v1/alerts/status"). fold (status_probe st).
  destruct (net w (length (sent st)) (status_probe st)) as [resp | e].
  - destruct (for_each_records _ _ _ (check_header_iteration w resp)
                required_headers (set_sent st (sent st ++ [status_probe st])))
      as (rs & st' & Hrun & Hres & Hsent & Hbase & _ & Hlen & _).
    rewrite Hrun. exists st'. split; [reflexivity |].
    split; [exact Hbase |].
    rewrite Hsent, Hres, length_app, Hlen. simpl. rewrite length_app. simpl.
    split; lia.
  - eexists. split; [reflexivity |]. simpl. rewrite !length_app. simpl.
    repeat split; lia.
Qed.

Lemma test_security_headers_summary : summary b (test_security_headers w) 1 5 1 1.
Proof.
  intros st Hb. destruct (test_security_headers_run st) as (st' & Hrun & Hbase & Hs & Hr).
  exists tt, st'. split; [exact Hrun |]. split; [congruence |].
  destruct (net w _ _); split; lia.
Qed.

Lemma test_security_headers_exact :
  reachable w -> summary b (test_security_headers w) 5 5 1 1.
Proof.
  intros Hw st Hb.
  destruct (test_security_headers_run st) as (st' & Hrun & Hbase & Hs & Hr).
  exists tt, st'. split; [exact Hrun |]. split; [congruence |].
  destruct (Hw (length (sent st)) (status_probe st)) as [resp Hresp].
  rewrite Hresp in Hr. split; lia.
Qed.

Lemma test_rate_limiting_summary : summary b (test_rate_limiting w) 1 1 0 50.
Proof.
  intros st Hb.
  destruct (probe_loop_any w (seq 0 rate_limit_probes) [] st)
    as (v & q & Hrun & Hlen).
  rewrite length_seq in Hlen.
  unfold test_rate_limiting, try_catch, bind at 1. rewrite Hrun.
  destruct v as [e | codes].
  - run_code. do 2 eexists. split; [reflexivity |]. simpl.
    rewrite !length_app. simpl. split; [exact Hb |].
    unfold rate_limit_probes in Hlen. split; lia.
  - cbv beta iota zeta.
    destruct (existsb (fun status => (status =? 429)%Z) codes);
      run_code; do 2 eexists; (split; [reflexivity |]); simpl;
      rewrite !length_app; simpl; (split; [exact Hb |]);
      unfold rate_limit_probes in Hlen; split; lia.
Qed.

Lemma test_rate_limiting_exact :
  reachable w -> summary b (test_rate_limiting w) 1 1 50 50.
Proof.
  intros Hw st Hb.
  destruct (probe_loop_answered w (seq 0 rate_limit_probes) [] st)
    as (codes & Hrun & _).
  { intros k _. apply Hw. }
  rewrite length_seq, app_nil_l in Hrun.
  unfold test_rate_limiting, try_catch, bind at 1. rewrite Hrun.
  cbv beta iota zeta.
  destruct (existsb (fun status => (status =? 429)%Z) codes);
    run_code; do 2 eexists; (split; [reflexivity |]);
    cbn [base_url results sent set_sent set_results set_clock_reads];
    rewrite !length_app, repeat_length; simpl;
    (split; [exact Hb |]); unfold rate_limit_probes; split; lia.
Qed.

Lemma cors_loop_any : forall l st,
  exists v st',
    for_each l (probe_origin w) st = (v, st') /\
    base_url st' = base_url st /\
    clock_reads st' = (clock_reads st + (length (results st') - length (results st)))%nat /\
    (length (results st) <= length (results st'))%nat /\
    (length (sent st') <= length (sent st) + length l)%nat /\
    (length (sent st) <= length (sent st'))%nat /\
    match v with
    | inr _ => length (results st') = (length (results st) + length l)%nat
    | inl _ => (length (results st') < length (results st) + length l)%nat
    end.
Proof.
  induction l as [| x l IH]; intros st.
  - do 2 eexists. split; [reflexivity |]. simpl. repeat split; lia.
  - simpl for_each. unfold bind at 1.
    destruct (net w (length (sent st)) (cors_probe st x)) as [resp | e] eqn:Hnet.
    + destruct (probe_origin_answered w x st resp Hnet) as (r & Hrun & _).
      rewrite Hrun.
      destruct (IH (set_results
                      (set_clock_reads (set_sent st (sent st ++ [cors_probe st x]))
                         (S (clock_reads st))) (results st ++ [r])))
        as (v & st' & Hrun' & Hb' & Hc' & Hr' & Hs' & Hs'' & Hv).
      exists v, st'. split; [exact Hrun' |].
      simpl in *. rewrite !length_app in *. simpl in *.
      split; [exact Hb' |]. split; [lia |]. split; [lia |]. split; [lia |].
      split; [lia |]. destruct v; lia.
    + rewrite (probe_origin_raised w x st e Hnet).
      do 2 eexists. split; [reflexivity |]. simpl. rewrite !length_app. simpl.
      repeat split; lia.
Qed.

Lemma test_cors_configuration_summary :
  summary b (test_cors_configuration w) 1 4 0 4.
Proof.
  intros st Hb.
  destruct (cors_loop_any malicious_origins st)
    as (v & st' & Hrun & Hb' & _ & Hr & Hs & Hs' & Hv).
  unfold test_cors_configuration, try_catch. rewrite Hrun.
  change (length malicious_origins) with 4%nat in *.
  destruct v as [e | []].
  - run_code. do 2 eexists. split; [reflexivity |]. simpl.
    rewrite !length_app. simpl. split; [congruence |]. split; lia.
  - do 2 eexists. split; [reflexivity |]. split; [congruence |]. split; lia.
Qed.

Lemma test_cors_configuration_exact :
  reachable w -> summary b (test_cors_configuration w) 4 4 4 4.
Proof.
  intros Hw st Hb.
  destruct (cors_loop_prefix w malicious_origins st (length malicious_origins))
    as (rs & st1 & Hrun & Hres & Hlen & Hsent & Hbase & _).
  { apply le_n. }
  { intros j origin _ _. apply Hw. }
  rewrite skipn_all in Hrun.
  change (for_each [] (probe_origin w) st1) with (@inr string unit tt, st1) in Hrun.
  unfold test_cors_configuration, try_catch. rewrite Hrun.
  do 2 eexists. split; [reflexivity |]. split; [congruence |].
  rewrite Hres, length_app, Hlen, Hsent. simpl. split; lia.
Qed.

Lemma test_ssl_configuration_summary :
  summary b (test_ssl_configuration w) 1 1
    (if PyStr.startswith b "https://" then 1 else 0)
    (if PyStr.startswith b "https://" then 1 else 0).
Proof.
  intros st Hb. unfold test_ssl_configuration. run_code. rewrite Hb.
  destruct (PyStr.startswith b "https://"); cbv iota.
  - destruct (net w (length (sent st)) _) as [resp | e];
      [destruct (existsb _ _);
       [destruct (PyStr.startswith (headers_get_or _ _ _) _) |] |];
      do 2 eexists; (split; [reflexivity |]); simpl; rewrite !length_app; simpl;
      (split; [exact Hb |]); split; lia.
  - do 2 eexists. split; [reflexivity |]. simpl. rewrite !length_app. simpl.
    split; [exact Hb |]. split; lia.
Qed.

Lemma test_authentication_summary :
  summary b (test_authentication w) 5 6 5 6.
Proof.
  unfold test_authentication.
  apply (summary_bind b _ _ 1 1 1 1 4 5 4 5); [apply auth_without_token_summary |].
  intros _.
  apply (summary_bind b _ _ 4 4 4 4 0 1 0 1); [| intros _; apply auth_expired_token_summary].
  apply (summary_for_each b _ 1 _ malformed_tokens (auth_malformed_token_iteration w)).
Qed.

Lemma test_authentication_exact :
  timestamps_ok w -> summary b (test_authentication w) 6 6 6 6.
Proof.
  intros Hok. unfold test_authentication.
  apply (summary_bind b _ _ 1 1 1 1 5 5 5 5); [apply auth_without_token_summary |].
  intros _.
  apply (summary_bind b _ _ 4 4 4 4 1 1 1 1);
    [| intros _; apply auth_expired_token_exact, Hok].
  apply (summary_for_each b _ 1 _ malformed_tokens (auth_malformed_token_iteration w)).
Qed.

Lemma test_authorization_summary : summary b (test_authorization w) 7 7 7 7.
Proof.
  apply (summary_for_each b _ 1 _ sensitive_endpoints
           (probe_sensitive_endpoint_iteration w)).
Qed.

Lemma test_injection_attacks_summary :
  summary b (test_injection_attacks w) 15 15 15 15.
Proof.
  intros st Hb.
  destruct (summary_for_each b _ 1 _ injection_cases
              (test_injection_payload_iteration w) st Hb)
    as (a & st' & Hrun & H).
  rewrite <- test_injection_attacks_cases in Hrun.
  exists a, st'. split; [exact Hrun | exact H].
Qed.

Lemma test_information_disclosure_summary :
  summary b (test_information_disclosure w) 7 7 7 7.
Proof.
  apply (summary_for_each b _ 1 _ info_endpoints (probe_info_endpoint_iteration w)).
Qed.

Lemma run_checks_summary :
  summary b (run_checks w) 38 46 35
    (90 + (if PyStr.startswith b "https://" then 1 else 0)).
Proof.
  unfold run_checks.
  eapply summary_weaken.
  - eapply summary_bind; [apply test_authentication_summary | intros _].
    eapply summary_bind; [apply test_authorization_summary | intros _].
    eapply summary_bind; [apply test_injection_attacks_summary | intros _].
    eapply summary_bind; [apply test_security_headers_summary | intros _].
    eapply summary_bind; [apply test_rate_limiting_summary | intros _].
    eapply summary_bind; [apply test_information_disclosure_summary | intros _].
    eapply summary_bind; [apply test_cors_configuration_summary | intros _].
    apply test_ssl_configuration_summary.
  - simpl; lia.
  - simpl; lia.
  - simpl; lia.
  - destruct (PyStr.startswith b "https://"); simpl; lia.
Qed.

Lemma run_checks_exact :
  reachable w -> timestamps_ok w ->
  summary b (run_checks w) 46 46
    (90 + (if PyStr.startswith b "https://" then 1 else 0))
    (90 + (if PyStr.startswith b "https://" then 1 else 0)).
Proof.
  intros Hw Hok. unfold run_checks.
  eapply summary_weaken.
  - eapply summary_bind; [apply test_authentication_exact, Hok | intros _].
    eapply summary_bind; [apply test_authorization_summary | intros _].
    eapply summary_bind; [apply test_injection_attacks_summary | intros _].
    eapply summary_bind; [apply test_security_headers_exact, Hw | intros _].
    eapply summary_bind; [apply test_rate_limiting_exact, Hw | intros _].
    eapply summary_bind; [apply test_information_disclosure_summary | intros _].
    eapply summary_bind; [apply test_cors_configuration_exact, Hw | intros _].
    apply test_ssl_configuration_summary.
  - simpl; lia.
  - simpl; lia.
  - destruct (PyStr.startswith b "https://"); simpl; lia.
  - destruct (PyStr.startswith b "https://"); simpl; lia.
Qed.

End Counts.

Lemma summary_lengths {A} (c : M A) st rlo rhi qlo qhi :
  summary (base_url st) c rlo rhi qlo qhi ->
  (rlo <= length (appended c st) <= rhi)%nat /\
  (qlo <= length (issued c st) <= qhi)%nat.
Proof.
  intros Hc. destruct (Hc st eq_refl) as (a & st' & Hrun & _ & Hr & Hq).
  unfold appended, issued, exec. rewrite Hrun. cbn [snd].
  rewrite !length_skipn. split; lia.
Qed.

(** X13. Whatever the target answers, and whichever requests fail, the
    eight checks together append at least 38 and at most 46 records and
    send at most 91 requests (90 when the base URL is not https://). *)
Theorem run_checks_bounds (w : world) (st : state) :
  (38 <= length (appended (run_checks w) st) <= 46)%nat /\
  (length (issued (run_checks w) st)
   <= 90 + (if PyStr.startswith (base_url st) "https://" then 1 else 0))%nat.
Proof.
  destruct (summary_lengths _ st _ _ _ _ (run_checks_summary w (base_url st)))
    as [Hr Hq].
  split; [exact Hr | apply Hq].
Qed.

(** X14. In a run where every request is answered and the expired token
    can be built, the eight checks append exactly 46 records and send
    exactly 90 requests, and one more when the base URL starts with
    https://. *)
Theorem run_checks_counts_when_answered (w : world) (st : state) :
  reachable w -> timestamps_ok w ->
  length (appended (run_checks w) st) = 46%nat /\
  length (issued (run_checks w) st)
  = (90 + (if PyStr.startswith (base_url st) "https://" then 1 else 0))%nat.
Proof.
  intros Hw Hok.
  destruct (summary_lengths _ st _ _ _ _ (run_checks_exact w (base_url st) Hw Hok))
    as [Hr Hq].
  split; lia.
Qed.

(** ** Further properties: the expired token *)

Lemma generate_expired_token_cases w st :
  (timestamp_ok w (now w (clock_reads st) - 1 * hour) = true /\
   timestamp_ok w (now w (S (clock_reads st)) - 2 * hour) = true /\
   generate_expired_token w st
   = (inr (Some (expired_token (exp_at w st) (iat_at w st))),
      set_clock_reads st (S (S (clock_reads st))))) \/
  ((timestamp_ok w (now w (clock_reads st) - 1 * hour) = false \/
    timestamp_ok w (now w (S (clock_reads st)) - 2 * hour) = false) /\
   exists n, generate_expired_token w st = (inr None, set_clock_reads st n)).
Proof.
  rewrite generate_expired_token_run. cbv zeta. unfold exp_at, iat_at.
  destruct (timestamp_ok w (now w (clock_reads st) - 1 * hour));
    [destruct (timestamp_ok w (now w (S (clock_reads st)) - 2 * hour)) |].
  - left. auto.
  - right. split; [now right | eexists; reflexivity].
  - right. split; [now left | eexists; reflexivity].
Qed.

(** X15. [generate_expired_token] never raises, appends no record and
    sends no request: an exception inside it is turned into [None].  In
    the model the conversion of a clock reading to a timestamp is what
    can raise, so it returns a token exactly when both readings
    convert. *)
Theorem generate_expired_token_outcome (w : world) (st : state) :
  appended (generate_expired_token w) st = [] /\
  issued (generate_expired_token w) st = [] /\
  (exists v, value (generate_expired_token w) st = inr v) /\
  ((exists token, value (generate_expired_token w) st = inr (Some token))
   <-> timestamp_ok w (now w (clock_reads st) - 1 * hour) = true /\
       timestamp_ok w (now w (S (clock_reads st)) - 2 * hour) = true).
Proof.
  unfold appended, issued, value, exec.
  destruct (generate_expired_token_cases w st)
    as [(H1 & H2 & ->) | ([H | H] & n & ->)];
    cbn [fst snd results sent set_clock_reads];
    rewrite <- (app_nil_r (results st)) at 2;
    rewrite <- (app_nil_r (sent st)) at 2;
    rewrite !skipn_length_app;
    (split; [reflexivity |]); (split; [reflexivity |]);
    (split; [eexists; reflexivity |]).
  - split; [auto | intros _; eexists; reflexivity].
  - split; [intros (token & Ht); discriminate Ht |].
    intros [H1 _]. congruence.
  - split; [intros (token & Ht); discriminate Ht |].
    intros [_ H2]. congruence.
Qed.

Lemma all_chars_append p a b :
  all_chars p (a +++ b) = (all_chars p a && all_chars p b)%bool.
Proof.
  induction a as [| c a IH]; simpl; [reflexivity |].
  now rewrite IH, andb_assoc.
Qed.

Lemma token_char_digit n : (n < 64)%N -> token_char (Base64.digit n) = true.
Proof.
  intros Hn. unfold token_char. rewrite (sextet_digit n Hn). apply orb_true_r.
Qed.

Lemma encoded_chars s :
  all_chars token_char (PyStr.rstrip "=" (Base64.urlsafe_b64encode s)) = true.
Proof.
  induction s as [| a | a b | a b c s IH] using string_ind3.
  - reflexivity.
  - pose proof (N_ascii_bounded a) as Ha.
    cbn [Base64.urlsafe_b64encode].
    rewrite !rstrip_cons by (apply digit_not_pad; narith).
    change (PyStr.rstrip "=" (String Base64.pad (String Base64.pad EmptyString)))
      with EmptyString.
    cbn [all_chars]. rewrite !token_char_digit by narith. reflexivity.
  - pose proof (N_ascii_bounded a) as Ha. pose proof (N_ascii_bounded b) as Hb.
    cbn [Base64.urlsafe_b64encode].
    rewrite !rstrip_cons by (apply digit_not_pad; narith).
    change (PyStr.rstrip "=" (String Base64.pad EmptyString)) with EmptyString.
    cbn [all_chars]. rewrite !token_char_digit by narith. reflexivity.
  - pose proof (N_ascii_bounded a) as Ha. pose proof (N_ascii_bounded b) as Hb.
    pose proof (N_ascii_bounded c) as Hc.
    cbn [Base64.urlsafe_b64encode].
    rewrite !rstrip_cons by (apply digit_not_pad; narith).
    cbn [all_chars]. rewrite IH, !token_char_digit by narith. reflexivity.
Qed.

(** X16. A token that [generate_expired_token] returns is made of
    characters of the base64url alphabet and of dots only: it holds no
    '=' padding, no '+' and no '/'. *)
Theorem expired_token_is_url_safe (w : world) (st : state) (token : string) :
  value (generate_expired_token w) st = inr (Some token) ->
  all_chars token_char token = true /\
  PyStr.count_char "=" token = 0%nat /\
  PyStr.count_char "+" token = 0%nat /\
  PyStr.count_char "/" token = 0%nat.
Proof.
  intros Hv.
  assert (Hall : all_chars token_char token = true).
  { unfold value in Hv.
    destruct (generate_expired_token_cases w st)
      as [(_ & _ & Hrun) | (_ & n & Hrun)]; rewrite Hrun in Hv;
      [| discriminate Hv].
    injection Hv as <-. unfold expired_token. cbv zeta.
    rewrite !all_chars_append, !encoded_chars. reflexivity. }
  split; [exact Hall |].
  assert (Hcount : forall c, token_char c = false -> PyStr.count_char c token = 0%nat).
  { intros c Hc. clear Hv. induction token as [| x token IH]; [reflexivity |].
    simpl in Hall. apply andb_true_iff in Hall as [Hx Hrest].
    simpl. rewrite (IH Hrest).
    destruct (Ascii.eqb_spec x c) as [-> |]; [congruence | reflexivity]. }
  repeat split; apply Hcount; reflexivity.
Qed.

Lemma read_segment_encoded obj :
  read_segment (PyStr.rstrip "=" (Base64.urlsafe_b64encode (Json.dumps obj)))
  = Some obj.
Proof. unfold read_segment. rewrite decode_encode. apply json_loads_dumps. Qed.

(** X17. A token that [generate_expired_token] returns splits at its
    dots into three segments.  The first, decoded from base64url and read
    as JSON, is the header with alg HS256 and typ JWT; the second is the
    payload with sub, iss, exp and iat, where exp is
    [int((t1 - 1h).timestamp())] for the first clock reading [t1] and iat
    is [int((t2 - 2h).timestamp())] for the second clock reading [t2];
    the third is the text fake_signature. *)
Theorem expired_token_contents (w : world) (st : state) (token : string) :
  value (generate_expired_token w) st = inr (Some token) ->
  exists header_b64 payload_b64,
    PyRead.split "." token = [header_b64; payload_b64; "fake_signature"] /\
    read_segment header_b64 = Some [("alg", JStr "HS256"); ("typ", JStr "JWT")] /\
    read_segment payload_b64
    = Some [("sub", JStr "test-user");
            ("iss", JStr "http://localhost:8081/realms/eagle-dev");
            ("exp", JInt (exp_at w st));
            ("iat", JInt (iat_at w st))].
Proof.
  intros Hv. unfold value in Hv.
  destruct (generate_expired_token_cases w st)
    as [(_ & _ & Hrun) | (_ & n & Hrun)]; rewrite Hrun in Hv; [| discriminate Hv].
  injection Hv as <-. unfold expired_token. cbv zeta.
  do 2 eexists. split; [| split].
  - change ("." +++ ?x) with (String "." x).
    rewrite split_at_separator by apply count_char_b64.
    change ("." +++ "fake_signature") with (String "." "fake_signature").
    rewrite split_at_separator by apply count_char_b64. reflexivity.
  - apply read_segment_encoded.
  - apply read_segment_encoded.
Qed.

Lemma iat_exp_order w t1 t2 :
  same_offset w (t1 - 1 * hour) (t2 - 2 * hour) ->
  float_exact w (t1 - 1 * hour) ->
  float_exact w (t2 - 2 * hour) ->
  ((t2 - t1 <= 3599 * microseconds_per_second)%Z ->
   (int_timestamp w (t2 - 2 * hour) <= int_timestamp w (t1 - 1 * hour))%Z) /\
  ((t2 - t1 <= 3598 * microseconds_per_second)%Z ->
   (int_timestamp w (t2 - 2 * hour) < int_timestamp w (t1 - 1 * hour))%Z).
Proof.
  intros Hsame Hexp Hiat.
  pose proof (int_timestamp_between w _ Hexp) as [Hlo _].
  pose proof (int_timestamp_between w _ Hiat) as [_ Hhi].
  unfold same_offset in Hsame.
  change (1 * hour)%Z with (3600 * microseconds_per_second)%Z in *.
  change (2 * hour)%Z with (7200 * microseconds_per_second)%Z in *.
  rewrite (seconds_of_shifted t1 3600) in Hsame, Hlo.
  rewrite (seconds_of_shifted t2 7200) in Hsame, Hhi.
  set (e := int_timestamp w (t1 - 3600 * microseconds_per_second)) in *.
  set (i := int_timestamp w (t2 - 7200 * microseconds_per_second)) in *.
  clearbody e i.
  unfold microseconds_per_second in *.
  split; intros Hgap.
  - assert (t2 / 1000000 <= t1 / 1000000 + 3599)%Z.
    { replace (t1 / 1000000 + 3599)%Z with ((t1 + 3599 * 1000000) / 1000000)%Z
        by (rewrite Z.div_add by discriminate; reflexivity).
      apply Z.div_le_mono; lia. }
    lia.
  - assert (t2 / 1000000 <= t1 / 1000000 + 3598)%Z.
    { replace (t1 / 1000000 + 3598)%Z with ((t1 + 3598 * 1000000) / 1000000)%Z
        by (rewrite Z.div_add by discriminate; reflexivity).
      apply Z.div_le_mono; lia. }
    lia.
Qed.

(** X18. When the machine reads the two converted local times with the
    same UTC offset (and their POSIX seconds are such that a float holds
    them exactly, as for every date of the years 1 to 9999), iat is at
    most exp if the second clock reading is at most 3599 seconds after
    the first, and strictly before exp if it is at most 3598 seconds
    after the first.  (The margin covers the microseconds, which [int]
    cuts and the float addition may round up; at a change of the local
    clock the order can be lost.) *)
Theorem iat_before_exp (w : world) (st : state) :
  same_offset w (now w (clock_reads st) - 1 * hour)
                (now w (S (clock_reads st)) - 2 * hour) ->
  float_exact w (now w (clock_reads st) - 1 * hour) ->
  float_exact w (now w (S (clock_reads st)) - 2 * hour) ->
  ((now w (S (clock_reads st)) - now w (clock_reads st)
    <= 3599 * microseconds_per_second)%Z ->
   (iat_at w st <= exp_at w st)%Z) /\
  ((now w (S (clock_reads st)) - now w (clock_reads st)
    <= 3598 * microseconds_per_second)%Z ->
   (iat_at w st < exp_at w st)%Z).
Proof.
  intros Hsame Hexp Hiat.
  exact (iat_exp_order w _ _ Hsame Hexp Hiat).
Qed.

(** ** Further properties: the encoders *)

(** X19. Stripping the padding of [urlsafe_b64encode] loses nothing: for
    every byte string, the unpadded base64url text decodes to the bytes
    it was made from, and it holds no '.'. *)
Theorem base64url_round_trip (s : string) :
  PyRead.b64url_decode (PyStr.rstrip "=" (Base64.urlsafe_b64encode s)) = Some s /\
  PyStr.count_char "." (PyStr.rstrip "=" (Base64.urlsafe_b64encode s)) = 0%nat.
Proof. split; [apply decode_encode | apply count_char_b64]. Qed.

(** ** The further properties at concrete runs *)

Lemma init_strips_trailing_slashes_witness :
  base_url (init "http://localhost:8080//" None) <> "http://localhost:8080" +++ "/".
Proof.
  exact (proj1 (proj2 (init_strips_trailing_slashes "http://localhost:8080//" None))
           "http://localhost:8080").
Defined.

Lemma authentication_classification_witness :
  (exists r,
      nth_error (appended (test_authentication (constant_world unauthorized))
                   http_tester) 0 = Some r /\
      status r = "PASS") /\
  (exists r,
      nth_error (appended (test_authentication (constant_world ok_plain))
                   http_tester) 3 = Some r /\
      status r = "FAIL") /\
  (exists r,
      nth_error (appended (test_authentication down_world) http_tester) 4 = Some r /\
      status r = "ERROR" /\ details r = "Connection refused").
Proof.
  split; [| split].
  - destruct (proj1 (authentication_classification (constant_world unauthorized)
                       http_tester)) as (r & Hr & _ & Hresp & _).
    exists r. split; [exact Hr |].
    apply (proj1 (Hresp unauthorized eq_refl)). reflexivity.
  - destruct (proj2 (authentication_classification (constant_world ok_plain)
                       http_tester) 2%nat _ eq_refl) as (r & Hr & Hresp & _).
    exists r. split; [exact Hr |].
    destruct (Hresp ok_plain eq_refl) as (_ & _ & Hfail).
    apply Hfail. discriminate.
  - destruct (proj2 (authentication_classification down_world http_tester)
                3%nat _ eq_refl) as (r & Hr & _ & Herr).
    exists r. split; [exact Hr |].
    destruct (Herr "Connection refused" eq_refl) as (_ & Hs & Hd). auto.
Defined.

Lemma information_disclosure_classification_witness :
  (exists r,
      nth_error (appended (test_information_disclosure (constant_world leaks_password))
                   http_tester) 2 = Some r /\
      status r = "WARN" /\
      details r = "Possível vazamento: password, username") /\
  (exists r,
      nth_error (appended (test_information_disclosure
                             (constant_world leaks_kelvin_key))
                   http_tester) 0 = Some r /\
      status r = "WARN" /\
      details r = "Possível vazamento: key").
Proof.
  split.
  - destruct (proj2 (proj2 (proj2 (information_disclosure_classification
                                     (constant_world leaks_password) http_tester)))
                2%nat _ leaks_password eq_refl eq_refl)
      as (r & Hr & _ & Hwarn & _).
    exists r. split; [exact Hr |]. apply Hwarn; [reflexivity | discriminate].
  - destruct (proj2 (proj2 (proj2 (information_disclosure_classification
                                     (constant_world leaks_kelvin_key) http_tester)))
                0%nat _ leaks_kelvin_key eq_refl eq_refl)
      as (r & Hr & _ & Hwarn & _).
    exists r. split; [exact Hr |]. apply Hwarn; [reflexivity | discriminate].
Defined.

Lemma injection_attacks_classification_witness :
  (exists r,
      nth_error (appended (test_injection_attacks (constant_world ok_plain))
                   http_tester) 7 = Some r /\
      test r = "XSS (<img src=x onerror=alert('xss'...)" /\
      status r = "FAIL") /\
  (exists r,
      nth_error (appended (test_injection_attacks down_world) http_tester) 14
      = Some r /\
      test r = "Command Injection Payload Test" /\ status r = "ERROR") /\
  (exists r,
      nth_error (appended (test_injection_attacks
                             (constant_world ok_with_kelvin_sign))
                   http_tester) 0 = Some r /\
      status r = "WARN").
Proof.
  split; [| split].
  - destruct (proj2 (proj2 (injection_attacks_classification
                              (constant_world ok_plain) http_tester))
                7%nat _ _ eq_refl) as (r & Hr & Hresp & _).
    exists r. split; [exact Hr |].
    destruct (Hresp ok_plain eq_refl) as (Htest & _ & _ & Hfail & _).
    split; [exact Htest |]. apply Hfail; [reflexivity |].
    intros (kw & Hin & Hkw). simpl in Hin.
    destruct Hin as [<- | [<- | [<- | []]]]; discriminate Hkw.
  - destruct (proj2 (proj2 (injection_attacks_classification down_world http_tester))
                14%nat _ _ eq_refl) as (r & Hr & _ & Herr).
    exists r. split; [exact Hr |].
    destruct (Herr "Connection refused" eq_refl) as (Htest & Hs & _). auto.
  - destruct (proj2 (proj2 (injection_attacks_classification
                              (constant_world ok_with_kelvin_sign) http_tester))
                0%nat _ _ eq_refl) as (r & Hr & Hresp & _).
    exists r. split; [exact Hr |].
    destruct (Hresp ok_with_kelvin_sign eq_refl) as (_ & _ & Hwarn & _).
    apply Hwarn; [reflexivity |].
    exists "stack". split; [simpl; tauto | reflexivity].
Defined.

Lemma cors_classification_witness :
  exists r,
    nth_error (appended (test_cors_configuration (constant_world allows_everyone))
                 http_tester) 0 = Some r /\
    test r = "CORS Origin http://evil.com" /\ status r = "FAIL".
Proof.
  assert (Hans : origins_answered (constant_world allows_everyone) http_tester
                   malicious_origins (length malicious_origins)).
  { intros j origin _ _. eexists. reflexivity. }
  destruct (proj2 (proj2 (cors_classification (constant_world allows_everyone)
                            http_tester Hans))
              0%nat _ allows_everyone eq_refl eq_refl)
    as (r & Hr & Htest & Hfail & _).
  exists r. split; [exact Hr |]. split; [exact Htest |].
  apply Hfail. right. reflexivity.
Defined.

Lemma cors_stops_at_first_error_witness :
  length (appended (test_cors_configuration (failing_from 2 ok_plain)) http_tester)
  = 3%nat /\
  length (issued (test_cors_configuration (failing_from 2 ok_plain)) http_tester)
  = 3%nat.
Proof.
  assert (Hans : origins_answered (failing_from 2 ok_plain) http_tester
                   malicious_origins 2).
  { intros j origin Hj _. exists ok_plain. simpl.
    destruct j as [| [| j]]; [reflexivity | reflexivity | lia]. }
  destruct (cors_stops_at_first_error (failing_from 2 ok_plain) http_tester
              2%nat "null" "Connection reset" eq_refl Hans eq_refl)
    as (Hrec & Hreq & _).
  split; [exact Hrec | exact Hreq].
Defined.

Lemma rate_limiting_stops_at_first_error_witness :
  length (issued (test_rate_limiting (failing_from 3 too_many_requests)) http_tester)
  = 4%nat /\
  exists r,
    appended (test_rate_limiting (failing_from 3 too_many_requests)) http_tester
    = [r] /\
    status r = "ERROR" /\ details r = "Connection reset".
Proof.
  assert (Hans : answered (failing_from 3 too_many_requests) http_tester
                   (status_probe http_tester) 3).
  { intros j Hj. exists too_many_requests. simpl.
    destruct j as [| [| [| j]]]; [reflexivity | reflexivity | reflexivity | lia]. }
  destruct (rate_limiting_stops_at_first_error (failing_from 3 too_many_requests)
              http_tester 3%nat "Connection reset" ltac:(lia) Hans eq_refl)
    as (Hreq & r & Hr & _ & Hs & _ & Hd).
  split.
  - rewrite Hreq. reflexivity.
  - exists r. auto.
Defined.

Lemma security_headers_on_error_witness :
  exists r,
    appended (test_security_headers down_world) http_tester = [r] /\
    status r = "ERROR" /\ details r = "Connection refused".
Proof.
  destruct (security_headers_on_error down_world http_tester "Connection refused"
              eq_refl) as (_ & r & Hr & _ & Hs & _ & Hd).
  exists r. auto.
Defined.

Lemma run_checks_counts_when_answered_witness :
  length (appended (run_checks (constant_world ok_plain)) https_tester) = 46%nat /\
  length (issued (run_checks (constant_world ok_plain)) https_tester) = 91%nat.
Proof.
  assert (Hw : reachable (constant_world ok_plain)).
  { intros n r. eexists. reflexivity. }
  assert (Hok : timestamps_ok (constant_world ok_plain)).
  { intros t. reflexivity. }
  exact (run_checks_counts_when_answered (constant_world ok_plain) https_tester Hw Hok).
Defined.

Lemma generate_expired_token_outcome_witness :
  exists token,
    value (generate_expired_token (constant_world ok_plain)) http_tester
    = inr (Some token).
Proof.
  apply (proj2 (proj2 (proj2 (proj2 (generate_expired_token_outcome
                                       (constant_world ok_plain) http_tester))))).
  split; reflexivity.
Defined.

Lemma expired_token_is_url_safe_witness :
  PyStr.count_char "=" sample_token = 0%nat.
Proof.
  exact (proj1 (proj2 (expired_token_is_url_safe (constant_world unauthorized)
                         http_tester sample_token eq_refl))).
Defined.

Lemma expired_token_contents_witness :
  (exists header_b64 payload_b64,
      PyRead.split "." sample_token = [header_b64; payload_b64; "fake_signature"] /\
      read_segment payload_b64
      = Some [("sub", JStr "test-user");
              ("iss", JStr "http://localhost:8081/realms/eagle-dev");
              ("exp", JInt 1699996400);
              ("iat", JInt 1699992800)]) /\
  (exists token header_b64 payload_b64,
      value (generate_expired_token (far_future_world unauthorized)) http_tester
      = inr (Some token) /\
      PyRead.split "." token = [header_b64; payload_b64; "fake_signature"] /\
      read_segment payload_b64
      = Some [("sub", JStr "test-user");
              ("iss", JStr "http://localhost:8081/realms/eagle-dev");
              ("exp", JInt 32503680001);
              ("iat", JInt 32503676401)]).
Proof.
  split.
  - destruct (expired_token_contents (constant_world unauthorized) http_tester
                sample_token eq_refl) as (h & p & Hsplit & _ & Hp).
    exists h, p. split; [exact Hsplit | exact Hp].
  - destruct (expired_token_contents (far_future_world unauthorized) http_tester
                (expired_token
                   (exp_at (far_future_world unauthorized) http_tester)
                   (iat_at (far_future_world unauthorized) http_tester))
                eq_refl) as (h & p & Hsplit & _ & Hp).
    eexists _, h, p. split; [reflexivity |]. split; [exact Hsplit | exact Hp].
Defined.

Lemma iat_before_exp_witness :
  (iat_at (constant_world ok_plain) http_tester
   < exp_at (constant_world ok_plain) http_tester)%Z.
Proof.
  assert (Hsame : same_offset (constant_world ok_plain)
                    (now (constant_world ok_plain) (clock_reads http_tester)
                     - 1 * hour)
                    (now (constant_world ok_plain) (S (clock_reads http_tester))
                     - 2 * hour)) by reflexivity.
  assert (Hexp : float_exact (constant_world ok_plain)
                   (now (constant_world ok_plain) (clock_reads http_tester)
                    - 1 * hour)) by (vm_compute; split; discriminate).
  assert (Hiat : float_exact (constant_world ok_plain)
                   (now (constant_world ok_plain) (S (clock_reads http_tester))
                    - 2 * hour)) by (vm_compute; split; discriminate).
  apply (proj2 (iat_before_exp (constant_world ok_plain) http_tester
                  Hsame Hexp Hiat)).
  vm_compute. discriminate.
Defined.

(** ** Further properties: the timestamps of the records *)

Section Stamped.

Variable w : world.

Lemma stamped_same {A} (c : M A) :
  (forall st, results (exec c st) = results st /\
              (clock_reads st <= clock_reads (exec c st))%nat) ->
  keeps_stamped w c.
Proof.
  intros H st (readings & Hmap & Hsorted & Hlt).
  destruct (H st) as [Hr Hc]. exists readings. rewrite Hr.
  split; [exact Hmap |]. split; [exact Hsorted |].
  eapply Forall_impl; [| exact Hlt]. simpl. intros; lia.
Qed.

Lemma stamped_ret {A} (a : A) : keeps_stamped w (ret a).
Proof. apply stamped_same. intros st. unfold exec. simpl. auto. Qed.

Lemma stamped_get_state : keeps_stamped w get_state.
Proof. apply stamped_same. intros st. unfold exec. simpl. auto. Qed.

Lemma stamped_self_base_url : keeps_stamped w self_base_url.
Proof. apply stamped_same. intros st. unfold exec. simpl. auto. Qed.

Lemma stamped_datetime_now : keeps_stamped w (datetime_now w).
Proof. apply stamped_same. intros st. unfold exec. simpl. auto. Qed.

Lemma stamped_timestamp_int t : keeps_stamped w (timestamp_int w t).
Proof.
  apply stamped_same. intros st. unfold exec, timestamp_int.
  destruct (timestamp_ok w t); simpl; auto.
Qed.

Lemma stamped_send r : keeps_stamped w (send w r).
Proof.
  apply stamped_same. intros st. unfold exec, send.
  destruct (net w _ r); simpl; auto.
Qed.

Lemma stamped_write_report t : keeps_stamped w (write_report t).
Proof. apply stamped_same. intros st. unfold exec. simpl. auto. Qed.

Lemma StronglySorted_snoc l n :
  StronglySorted lt l -> Forall (fun i => (i < n)%nat) l ->
  StronglySorted lt (l ++ [n]).
Proof.
  induction l as [| x l IH]; intros Hs Hl; simpl.
  - constructor; constructor.
  - inversion Hs; subst. inversion Hl; subst.
    constructor; [auto |].
    apply Forall_app. split; [assumption | constructor; [assumption | constructor]].
Qed.

Lemma stamped_log n s d v : keeps_stamped w (log_result w n s d v).
Proof.
  intros st (readings & Hmap & Hsorted & Hlt).
  exists (readings ++ [clock_reads st]). unfold exec. simpl.
  rewrite !map_app, Hmap. simpl.
  split; [reflexivity |]. split; [apply StronglySorted_snoc; assumption |].
  apply Forall_app. split.
  - eapply Forall_impl; [| exact Hlt]. simpl. intros; lia.
  - constructor; [lia | constructor].
Qed.

Lemma stamped_bind {A B} (c : M A) (k : A -> M B) :
  keeps_stamped w c -> (forall a, keeps_stamped w (k a)) -> keeps_stamped w (bind c k).
Proof.
  intros Hc Hk st Hst. specialize (Hc st Hst). unfold exec, bind in *.
  destruct (c st) as [[e | a] st1]; simpl in *; [exact Hc |].
  exact (Hk a st1 Hc).
Qed.

Lemma stamped_try {A} (c : M A) (h : string -> M A) :
  keeps_stamped w c -> (forall e, keeps_stamped w (h e)) -> keeps_stamped w (try_catch c h).
Proof.
  intros Hc Hh st Hst. specialize (Hc st Hst). unfold exec, try_catch in *.
  destruct (c st) as [[e | a] st1]; simpl in *; [| exact Hc].
  exact (Hh e st1 Hc).
Qed.

Lemma stamped_for_each {A} (l : list A) (body : A -> M unit) :
  (forall x, keeps_stamped w (body x)) -> keeps_stamped w (for_each l body).
Proof.
  intros Hb. induction l as [| x l IH]; simpl.
  - apply stamped_ret.
  - apply stamped_bind; auto.
Qed.

Lemma stamped_for_fold {A B} (l : list A) (acc : B) (body : A -> B -> M B) :
  (forall x a, keeps_stamped w (body x a)) -> keeps_stamped w (for_fold l acc body).
Proof.
  intros Hb. revert acc. induction l as [| x l IH]; intros acc; simpl.
  - apply stamped_ret.
  - apply stamped_bind; auto.
Qed.

End Stamped.

Ltac stamped_step :=
  cbv beta zeta;
  match goal with
  | |- keeps_stamped _ (ret _) => apply stamped_ret
  | |- keeps_stamped _ (log_result _ _ _ _ _) => apply stamped_log
  | |- keeps_stamped _ (try_catch _ _) => apply stamped_try; [ | intros ? ]
  | |- keeps_stamped _ (for_each _ _) => apply stamped_for_each; intros ?
  | |- keeps_stamped _ (for_fold _ _ _) => apply stamped_for_fold; intros ? ?
  | |- keeps_stamped _ (bind _ _) => apply stamped_bind; [ | intros ? ]
  | |- keeps_stamped _ get_state => apply stamped_get_state
  | |- keeps_stamped _ self_base_url => apply stamped_self_base_url
  | |- keeps_stamped _ (datetime_now _) => apply stamped_datetime_now
  | |- keeps_stamped _ (timestamp_int _ _) => apply stamped_timestamp_int
  | |- keeps_stamped _ (write_report _) => apply stamped_write_report
  | |- keeps_stamped _ (send _ _) => apply stamped_send
  | |- keeps_stamped _ (requests_get _ _ _ _) => unfold requests_get
  | |- keeps_stamped _ (requests_options _ _ _) => unfold requests_options
  | |- keeps_stamped _ (session_get _ _) => unfold session_get
  | |- keeps_stamped _ (session_post _ _ _) => unfold session_post
  | |- keeps_stamped _ (if ?b then _ else _) => destruct b
  | |- keeps_stamped _ (match ?x with _ => _ end) => destruct x
  end.

Lemma operation_keeps_stamped w op : keeps_stamped w (run_operation w op).
Proof.
  destruct op as [c | n s d v | | |]; simpl.
  - destruct c; simpl; unfold_checks; repeat stamped_step.
  - apply stamped_log.
  - unfold_checks; repeat stamped_step.
  - unfold_checks; repeat stamped_step.
  - unfold_checks; repeat stamped_step.
Qed.

(** X20. The records are stamped in the order they are appended.  A new
    tester has no record; and every method keeps this: the timestamps of
    the results list, in list order, are clock readings taken one after
    the other (the reading of a record comes strictly later, in the count
    of readings, than that of every record before it). *)
Theorem records_are_stamped_in_order (w : world) :
  (forall base token, stamped w (init base token)) /\
  (forall op st, stamped w st -> stamped w (exec (run_operation w op) st)).
Proof.
  split.
  - intros base token. exists []. simpl. repeat split; constructor.
  - intros op st. apply operation_keeps_stamped.
Qed.

Lemma records_are_stamped_in_order_witness :
  stamped (constant_world ok_plain)
    (exec (run_operation (constant_world ok_plain) RunAllTests) http_tester).
Proof.
  destruct (records_are_stamped_in_order (constant_world ok_plain)) as [Hinit Hop].
  apply Hop. apply (Hinit "http://localhost:8080/" (Some "secret")).
Defined.

(** ** Further properties: who uses the session *)

Section Blind.

Variable w : world.

Lemma blind_ret {A} (a : A) : session_blind (ret a).
Proof. intros st token hdrs. reflexivity. Qed.

Lemma blind_self_base_url : session_blind self_base_url.
Proof. intros st token hdrs. reflexivity. Qed.

Lemma blind_datetime_now : session_blind (datetime_now w).
Proof. intros st token hdrs. reflexivity. Qed.

Lemma blind_timestamp_int t : session_blind (timestamp_int w t).
Proof.
  intros st token hdrs. unfold timestamp_int.
  destruct (timestamp_ok w t); reflexivity.
Qed.

Lemma blind_send r : session_blind (send w r).
Proof.
  intros st token hdrs. unfold send. cbn [sent with_session].
  destruct (net w (length (sent st)) r); reflexivity.
Qed.

Lemma blind_results_append r : session_blind (results_append r).
Proof. intros st token hdrs. reflexivity. Qed.

Lemma blind_bind {A B} (c : M A) (k : A -> M B) :
  session_blind c -> (forall a, session_blind (k a)) -> session_blind (bind c k).
Proof.
  intros Hc Hk st token hdrs. unfold bind. rewrite Hc.
  destruct (c st) as [[e | a] st1]; simpl; [reflexivity |].
  apply Hk.
Qed.

Lemma blind_try {A} (c : M A) (h : string -> M A) :
  session_blind c -> (forall e, session_blind (h e)) -> session_blind (try_catch c h).
Proof.
  intros Hc Hh st token hdrs. unfold try_catch. rewrite Hc.
  destruct (c st) as [[e | a] st1]; simpl; [| reflexivity].
  apply Hh.
Qed.

Lemma blind_log n s d v : session_blind (log_result w n s d v).
Proof.
  unfold log_result. apply blind_bind; [apply blind_datetime_now |].
  intros t. apply blind_results_append.
Qed.

Lemma blind_for_each {A} (l : list A) (body : A -> M unit) :
  (forall x, session_blind (body x)) -> session_blind (for_each l body).
Proof.
  intros Hb. induction l as [| x l IH]; simpl.
  - apply blind_ret.
  - apply blind_bind; auto.
Qed.

End Blind.

Ltac blind_step :=
  cbv beta zeta;
  match goal with
  | |- session_blind (ret _) => apply blind_ret
  | |- session_blind (log_result _ _ _ _ _) => apply blind_log
  | |- session_blind (try_catch _ _) => apply blind_try; [ | intros ? ]
  | |- session_blind (for_each _ _) => apply blind_for_each; intros ?
  | |- session_blind (bind _ _) => apply blind_bind; [ | intros ? ]
  | |- session_blind self_base_url => apply blind_self_base_url
  | |- session_blind (datetime_now _) => apply blind_datetime_now
  | |- session_blind (timestamp_int _ _) => apply blind_timestamp_int
  | |- session_blind (send _ _) => apply blind_send
  | |- session_blind (requests_get _ _ _ _) => unfold requests_get
  | |- session_blind (requests_options _ _ _) => unfold requests_options
  | |- session_blind (if ?b then _ else _) => destruct b
  | |- session_blind (match ?x with _ => _ end) => destruct x
  end.

Lemma check_session_blind w c :
  uses_session c = false -> session_blind (run_check w c).
Proof.
  destruct c; simpl; intros H; try discriminate H;
    unfold_checks; repeat blind_step.
Qed.

(** X21. The authentication, information-disclosure, CORS and TLS checks
    do not go through the session: with another token and other session
    headers in the tester, they send the same requests, append the same
    records and return the same: none of their requests depends on the
    bearer token given to the tester. *)
Theorem unauthenticated_checks_ignore_the_token (w : world) (c : check)
  (st : state) (token : option string) (hdrs : list (string * string)) :
  uses_session c = false ->
  issued (run_check w c) (with_session st token hdrs) = issued (run_check w c) st /\
  appended (run_check w c) (with_session st token hdrs)
  = appended (run_check w c) st /\
  value (run_check w c) (with_session st token hdrs) = value (run_check w c) st.
Proof.
  intros Hc. pose proof (check_session_blind w c Hc st token hdrs) as H.
  unfold issued, appended, value, exec. rewrite H. auto.
Qed.

Section Sends.

Variable w : world.
Variable P : list (string * string) -> request -> Prop.










End Sends.




Lemma unauthenticated_checks_ignore_the_token_witness :
  issued (run_check (constant_world ok_plain) InformationDisclosure)
    (with_session http_tester None [])
  = issued (run_check (constant_world ok_plain) InformationDisclosure) http_tester.
Proof.
  exact (proj1 (unauthenticated_checks_ignore_the_token (constant_world ok_plain)
                  InformationDisclosure http_tester None [] eq_refl)).
Defined.

